(** * The message store of the Discord bot ([database.py])

    A shallow embedding of the SQLite persistence layer: the two tables,
    the ten read and write operations, and the parts of Python's
    [datetime], [json] and [sqlite3] modules those operations rely on.
    The schema is taken as created ([init_database] has run); a missing
    table is one of the failures of the storage engine.  The properties of
    the written specification are stated and proved below the
    definitions. *)

From Stdlib Require Import ZArith NArith List String Ascii Bool Lia.
From Stdlib Require Import Permutation Sorted DecimalString.
Import ListNotations.

Local Open Scope string_scope.
Local Open Scope list_scope.
Local Open Scope Z_scope.

(** ** Python outcomes

    A Python call either returns a value or raises.  Only the exception
    classes that the module can meet are listed; all of them derive from
    [Exception], so every [except Exception] clause catches them. *)

Inductive exn : Type :=
| IntegrityError      (* sqlite3.IntegrityError: a constraint was violated *)
| OperationalError    (* sqlite3.OperationalError: locked file, I/O error, ... *)
| OverflowError       (* datetime arithmetic left the supported range *)
| ValueError          (* datetime.fromisoformat on a malformed text *)
| TypeError.          (* json.dumps on an object it cannot serialise *)

Inductive result (A : Type) : Type :=
| Returns (a : A)
| Raises (e : exn).

Arguments Returns {A} a.
Arguments Raises {A} e.

Definition bind {A B : Type} (r : result A) (k : A -> result B) : result B :=
  match r with
  | Returns a => k a
  | Raises e => Raises e
  end.

Declare Scope py_scope.
Delimit Scope py_scope with py.
Notation "x <- r ;; k" := (bind r (fun x => k))
  (at level 61, r at next level, right associativity) : py_scope.

Definition returned {A : Type} (r : result A) : bool :=
  match r with
  | Returns _ => true
  | Raises _ => false
  end.

(** ** Python's [datetime]

    A [datetime] carries its calendar fields and, when it is aware, the
    offset of its [tzinfo] from UTC in minutes. *)

Record datetime : Type := mk_datetime {
  year : Z;
  month : Z;
  day : Z;
  hour : Z;
  minute : Z;
  second : Z;
  microsecond : Z;
  tzinfo : option Z
}.

Definition MINYEAR : Z := 1.
Definition MAXYEAR : Z := 9999.
Definition _MAXORDINAL : Z := 3652059.

Definition _is_leap (y : Z) : bool :=
  (y mod 4 =? 0) && (negb (y mod 100 =? 0) || (y mod 400 =? 0)).

Definition _days_before_year (y : Z) : Z :=
  let y := y - 1 in y * 365 + y / 4 - y / 100 + y / 400.

Definition _DAYS_IN_MONTH (m : Z) : Z :=
  match m with
  | 1 => 31 | 2 => 28 | 3 => 31 | 4 => 30 | 5 => 31 | 6 => 30
  | 7 => 31 | 8 => 31 | 9 => 30 | 10 => 31 | 11 => 30 | 12 => 31
  | _ => -1
  end.

Definition _DAYS_BEFORE_MONTH (m : Z) : Z :=
  match m with
  | 1 => 0 | 2 => 31 | 3 => 59 | 4 => 90 | 5 => 120 | 6 => 151
  | 7 => 181 | 8 => 212 | 9 => 243 | 10 => 273 | 11 => 304 | 12 => 334
  | _ => -1
  end.

Definition _days_in_month (y m : Z) : Z :=
  if (m =? 2) && _is_leap y then 29 else _DAYS_IN_MONTH m.

Definition _days_before_month (y m : Z) : Z :=
  _DAYS_BEFORE_MONTH m + (if (2 <? m) && _is_leap y then 1 else 0).

Definition _ymd2ord (y m d : Z) : Z :=
  _days_before_year y + _days_before_month y m + d.

Definition _DI400Y : Z := _days_before_year 401.
Definition _DI100Y : Z := _days_before_year 101.
Definition _DI4Y : Z := _days_before_year 5.

Definition _ord2ymd (n : Z) : Z * Z * Z :=
  let n := n - 1 in
  let n400 := n / _DI400Y in
  let n := n mod _DI400Y in
  let y := n400 * 400 + 1 in
  let n100 := n / _DI100Y in
  let n := n mod _DI100Y in
  let n4 := n / _DI4Y in
  let n := n mod _DI4Y in
  let n1 := n / 365 in
  let n := n mod 365 in
  let y := y + (n100 * 100 + n4 * 4 + n1) in
  if (n1 =? 4) || (n100 =? 4) then (y - 1, 12, 31)
  else
    let leapyear := (n1 =? 3) && (negb (n4 =? 24) || (n100 =? 3)) in
    let m := Z.shiftr (n + 50) 5 in
    let preceding :=
      _DAYS_BEFORE_MONTH m + (if (2 <? m) && leapyear then 1 else 0) in
    if n <? preceding then
      let m := m - 1 in
      let preceding :=
        preceding
        - (_DAYS_IN_MONTH m + (if (m =? 2) && leapyear then 1 else 0)) in
      (y, m, n - preceding + 1)
    else (y, m, n - preceding + 1).

(** The checks of the [datetime] constructor. *)
Definition valid_datetime (d : datetime) : bool :=
  (MINYEAR <=? year d) && (year d <=? MAXYEAR)
  && (1 <=? month d) && (month d <=? 12)
  && (1 <=? day d) && (day d <=? _days_in_month (year d) (month d))
  && (0 <=? hour d) && (hour d <=? 23)
  && (0 <=? minute d) && (minute d <=? 59)
  && (0 <=? second d) && (second d <=? 59)
  && (0 <=? microsecond d) && (microsecond d <=? 999999)
  && match tzinfo d with
     | None => true
     | Some off => (-1440 <? off) && (off <? 1440)
     end.

(** [datetime(y, m, d, H, M, S, us)]: a naive value, or [ValueError]. *)
Definition datetime_new (y m d hh mm ss us : Z) : result datetime :=
  let v := mk_datetime y m d hh mm ss us None in
  if valid_datetime v then Returns v else Raises ValueError.

(** A [timedelta] is kept as its total number of microseconds; Python
    stores the normalised triple (days, seconds, microseconds) and refuses
    a day count beyond nine digits. *)
Definition US_PER_SECOND : Z := 1000000.
Definition US_PER_DAY : Z := 86400 * US_PER_SECOND.

Definition timedelta (days hours minutes seconds microseconds : Z)
  : result Z :=
  let total :=
    (((days * 24 + hours) * 60 + minutes) * 60 + seconds) * US_PER_SECOND
    + microseconds in
  if Z.abs (total / US_PER_DAY) <=? 999999999
  then Returns total else Raises OverflowError.

Definition toordinal (d : datetime) : Z :=
  _ymd2ord (year d) (month d) (day d).

(** [datetime.__add__]: the sum is formed on (ordinal, time of day) and
    the [tzinfo] is kept. *)
Definition datetime_add (d : datetime) (td : Z) : result datetime :=
  let total :=
    ((toordinal d * 24 + hour d) * 60 + minute d) * 60 * US_PER_SECOND
    + second d * US_PER_SECOND + microsecond d + td in
  let days := total / US_PER_DAY in
  let rest := total mod US_PER_DAY in
  let secs := rest / US_PER_SECOND in
  let us := rest mod US_PER_SECOND in
  if (0 <? days) && (days <=? _MAXORDINAL) then
    let '(y, m, dd) := _ord2ymd days in
    Returns (mk_datetime y m dd (secs / 3600) ((secs mod 3600) / 60)
               (secs mod 60) us (tzinfo d))
  else Raises OverflowError.

(** [datetime.__sub__] with a [timedelta]: [self + -other]. *)
Definition datetime_sub (d : datetime) (td : Z) : result datetime :=
  datetime_add d (- td).

(** *** ISO-8601 text *)

Definition digit (n : Z) : ascii :=
  ascii_of_N (Z.to_N (48 + n mod 10)).

Definition pad2 (n : Z) : list ascii := [digit (n / 10); digit n].

Definition pad4 (n : Z) : list ascii :=
  [digit (n / 1000); digit (n / 100); digit (n / 10); digit n].

Definition pad6 (n : Z) : list ascii :=
  [digit (n / 100000); digit (n / 10000); digit (n / 1000);
   digit (n / 100); digit (n / 10); digit n].

(** [_format_time] with [timespec='auto']. *)
Definition _format_time (hh mm ss us : Z) : list ascii :=
  pad2 hh ++ [":"%char] ++ pad2 mm ++ [":"%char] ++ pad2 ss
  ++ (if us =? 0 then [] else ["."%char] ++ pad6 us).

Definition _format_offset (off : option Z) : list ascii :=
  match off with
  | None => []
  | Some o =>
      let sign := if o <? 0 then "-"%char else "+"%char in
      let a := Z.abs o in
      [sign] ++ pad2 (a / 60) ++ [":"%char] ++ pad2 (a mod 60)
  end.

Definition isoformat_chars (d : datetime) : list ascii :=
  pad4 (year d) ++ ["-"%char] ++ pad2 (month d) ++ ["-"%char]
  ++ pad2 (day d) ++ ["T"%char]
  ++ _format_time (hour d) (minute d) (second d) (microsecond d)
  ++ _format_offset (tzinfo d).

Definition isoformat (d : datetime) : string :=
  string_of_list_ascii (isoformat_chars d).

Definition digit_val (c : ascii) : option Z :=
  let n := Z.of_N (N_of_ascii c) in
  if (48 <=? n) && (n <=? 57) then Some (n - 48) else None.

Fixpoint number (cs : list ascii) (acc : Z) : option Z :=
  match cs with
  | [] => Some acc
  | c :: r =>
      match digit_val c with
      | Some v => number r (10 * acc + v)
      | None => None
      end
  end.

Definition is_char (c : ascii) (k : ascii) : bool := Ascii.eqb c k.

(** The optional fraction [.ffffff]. *)
Definition parse_fraction (cs : list ascii) : option (Z * list ascii) :=
  match cs with
  | dot :: f1 :: f2 :: f3 :: f4 :: f5 :: f6 :: rest =>
      if is_char dot "." then
        match number [f1; f2; f3; f4; f5; f6] 0 with
        | Some us => Some (us, rest)
        | None => None
        end
      else Some (0, cs)
  | _ => Some (0, cs)
  end.

(** The optional offset [+HH:MM] or [-HH:MM]. *)
Definition parse_offset (cs : list ascii) : option (option Z) :=
  match cs with
  | [] => Some None
  | [sg; h1; h2; colon; m1; m2] =>
      if (is_char sg "+" || is_char sg "-") && is_char colon ":" then
        match number [h1; h2] 0, number [m1; m2] 0 with
        | Some hh, Some mm =>
            let o := hh * 60 + mm in
            Some (Some (if is_char sg "-" then - o else o))
        | _, _ => None
        end
      else None
  | _ => None
  end.

(** [datetime.fromisoformat] on the texts that [isoformat] writes:
    [YYYY-MM-DDTHH:MM:SS], then an optional [.ffffff], then an optional
    offset.  Every other text is answered with [ValueError]; recent Python
    versions read a few more ISO-8601 shapes, none of which
    [store_message] can write. *)
Definition fromisoformat (s : string) : result datetime :=
  match list_ascii_of_string s with
  | y1 :: y2 :: y3 :: y4 :: s1 :: m1 :: m2 :: s2 :: d1 :: d2 :: sep
    :: h1 :: h2 :: s3 :: n1 :: n2 :: s4 :: c1 :: c2 :: rest =>
      if is_char s1 "-" && is_char s2 "-" && is_char sep "T"
         && is_char s3 ":" && is_char s4 ":" then
        match number [y1; y2; y3; y4] 0, number [m1; m2] 0,
              number [d1; d2] 0, number [h1; h2] 0,
              number [n1; n2] 0, number [c1; c2] 0 with
        | Some y, Some m, Some d, Some hh, Some mm, Some ss =>
            match parse_fraction rest with
            | Some (us, rest') =>
                match parse_offset rest' with
                | Some tz =>
                    let v := mk_datetime y m d hh mm ss us tz in
                    if valid_datetime v then Returns v
                    else Raises ValueError
                | None => Raises ValueError
                end
            | None => Raises ValueError
            end
        | _, _, _, _, _, _ => Raises ValueError
        end
      else Raises ValueError
  | _ => Raises ValueError
  end.

(** [strftime('%Y-%m-%d')]: the C library writes the year without
    padding, so years below 1000 give fewer than four digits. *)
Definition strftime_year (y : Z) : list ascii :=
  if y <? 10 then [digit y]
  else if y <? 100 then pad2 y
  else if y <? 1000 then [digit (y / 100); digit (y / 10); digit y]
  else pad4 y.

Definition strftime_ymd (d : datetime) : string :=
  string_of_list_ascii
    (strftime_year (year d) ++ ["-"%char] ++ pad2 (month d)
     ++ ["-"%char] ++ pad2 (day d)).

(** ** Python's [json]

    A [str] is the sequence of its code points.  [json.dumps] (with its
    default [ensure_ascii=True]) writes ASCII text only. *)

Definition ustr : Type := list N.

(** The values that may sit in a [Dict[str, Any]].  Floats are left out;
    [PyObject] stands for any object that [json.dumps] cannot serialise. *)
Local Unset Elimination Schemes.
Inductive pyobj : Type :=
| PyNone
| PyBool (b : bool)
| PyInt (z : Z)
| PyStr (s : ustr)
| PyList (l : list pyobj)
| PyDict (kv : list (ustr * pyobj))
| PyObject.
Local Set Elimination Schemes.

Definition hexdigit (d : N) : ascii :=
  ascii_of_N (if (d <? 10)%N then 48 + d else 87 + d)%N.

(** ['{0:04x}'.format(n)] for [n] below [0x10000]. *)
Definition hex4 (n : N) : list ascii :=
  [hexdigit (N.shiftr n 12 mod 16); hexdigit (N.shiftr n 8 mod 16);
   hexdigit (N.shiftr n 4 mod 16); hexdigit (n mod 16)]%N.

Definition u_escape (n : N) : list ascii :=
  "\"%char :: "u"%char :: hex4 n.

(** The replacement that [py_encode_basestring_ascii] makes for one
    code point. *)
Definition escape_char (c : N) : list ascii :=
  if (c =? 92)%N then ["\"; "\"]%char
  else if (c =? 34)%N then ["\"%char; ascii_of_N 34]
  else if (c =? 8)%N then ["\"; "b"]%char
  else if (c =? 12)%N then ["\"; "f"]%char
  else if (c =? 10)%N then ["\"; "n"]%char
  else if (c =? 13)%N then ["\"; "r"]%char
  else if (c =? 9)%N then ["\"; "t"]%char
  else if ((32 <=? c) && (c <=? 126))%N then [ascii_of_N c]
  else if (c <? 65536)%N then u_escape c
  else
    let n := (c - 65536)%N in
    let s1 := N.lor 55296 (N.land (N.shiftr n 10) 1023) in
    let s2 := N.lor 56320 (N.land n 1023) in
    u_escape s1 ++ u_escape s2.

Definition encode_basestring_ascii (s : ustr) : list ascii :=
  [ascii_of_N 34] ++ flat_map escape_char s ++ [ascii_of_N 34].

Fixpoint join (sep : list ascii) (items : list (list ascii)) : list ascii :=
  match items with
  | [] => []
  | [x] => x
  | x :: rest => x ++ sep ++ join sep rest
  end.

Definition chars (s : string) : list ascii := list_ascii_of_string s.

Definition int_repr (z : Z) : list ascii :=
  chars (DecimalString.NilZero.string_of_int (Z.to_int z)).

Fixpoint json_encode (o : pyobj) : result (list ascii) :=
  match o with
  | PyNone => Returns (chars "null")
  | PyBool true => Returns (chars "true")
  | PyBool false => Returns (chars "false")
  | PyInt z => Returns (int_repr z)
  | PyStr s => Returns (encode_basestring_ascii s)
  | PyList l =>
      (items <-
         (fix each (l : list pyobj) : result (list (list ascii)) :=
            match l with
            | [] => Returns []
            | x :: r =>
                cx <- json_encode x ;; cr <- each r ;; Returns (cx :: cr)
            end) l ;;
       Returns (chars "[" ++ join (chars ", ") items ++ chars "]"))%py
  | PyDict kv =>
      (items <-
         (fix each (kv : list (ustr * pyobj)) : result (list (list ascii)) :=
            match kv with
            | [] => Returns []
            | (k, v) :: r =>
                cv <- json_encode v ;; cr <- each r ;;
                Returns ((encode_basestring_ascii k ++ chars ": " ++ cv)
                         :: cr)
            end) kv ;;
       Returns (chars "{" ++ join (chars ", ") items ++ chars "}"))%py
  | PyObject => Raises TypeError
  end.

Definition json_dumps (o : pyobj) : result string :=
  (cs <- json_encode o ;; Returns (string_of_list_ascii cs))%py.

(** [json.dumps(active_users)] for a [List[str]]. *)
Definition json_dumps_names (names : list ustr) : result string :=
  json_dumps (PyList (map PyStr names)).

(** *** Reading a list of names back

    [json.loads] on the documents that are arrays of strings, as a scanner
    over the text.  A high surrogate read from a [\uXXXX] escape is held
    back until the next token shows whether a low surrogate follows
    (Python's [py_scanstring] looks ahead instead, with the same result). *)

Inductive scan_state : Type :=
| BeforeArray                 (* nothing read yet *)
| AfterOpen                   (* just after the opening bracket *)
| InString (pending : option N)
| AfterValue                  (* a string has been closed *)
| AfterComma
| AfterArray.                 (* the closing bracket has been read *)

Definition hexval (a : ascii) : option N :=
  let c := N_of_ascii a in
  if ((48 <=? c) && (c <=? 57))%N then Some (c - 48)%N
  else if ((97 <=? c) && (c <=? 102))%N then Some (c - 87)%N
  else if ((65 <=? c) && (c <=? 70))%N then Some (c - 55)%N
  else None.

Definition _decode_uXXXX (h1 h2 h3 h4 : ascii) : option N :=
  match hexval h1, hexval h2, hexval h3, hexval h4 with
  | Some a, Some b, Some c, Some d =>
      Some (((a * 16 + b) * 16 + c) * 16 + d)%N
  | _, _, _, _ => None
  end.

Definition is_high (u : N) : bool := ((55296 <=? u) && (u <=? 56319))%N.
Definition is_low (u : N) : bool := ((56320 <=? u) && (u <=? 57343))%N.

Definition is_space (c : N) : bool :=
  ((c =? 32) || (c =? 9) || (c =? 10) || (c =? 13))%N.

(** The table [BACKSLASH] of the decoder. *)
Definition backslash (c : N) : option N :=
  if (c =? 34)%N then Some 34%N
  else if (c =? 92)%N then Some 92%N
  else if (c =? 47)%N then Some 47%N
  else if (c =? 98)%N then Some 8%N
  else if (c =? 102)%N then Some 12%N
  else if (c =? 110)%N then Some 10%N
  else if (c =? 114)%N then Some 13%N
  else if (c =? 116)%N then Some 9%N
  else None.

Definition flush (pending : option N) (cur : list N) : list N :=
  match pending with
  | Some h => h :: cur
  | None => cur
  end.

(** [cur] is the string being read, reversed; [done] the strings read so
    far, reversed. *)
Fixpoint scan (st : scan_state) (cur : list N) (done : list ustr)
  (s : list ascii) : result (list ustr) :=
  match s with
  | [] =>
      match st with
      | AfterArray => Returns (rev done)
      | _ => Raises ValueError
      end
  | a :: rest =>
      let c := N_of_ascii a in
      match st with
      | BeforeArray =>
          if is_space c then scan BeforeArray cur done rest
          else if (c =? 91)%N then scan AfterOpen cur done rest
          else Raises ValueError
      | AfterOpen =>
          if is_space c then scan AfterOpen cur done rest
          else if (c =? 93)%N then scan AfterArray cur done rest
          else if (c =? 34)%N then scan (InString None) [] done rest
          else Raises ValueError
      | AfterComma =>
          if is_space c then scan AfterComma cur done rest
          else if (c =? 34)%N then scan (InString None) [] done rest
          else Raises ValueError
      | AfterValue =>
          if is_space c then scan AfterValue cur done rest
          else if (c =? 44)%N then scan AfterComma cur done rest
          else if (c =? 93)%N then scan AfterArray cur done rest
          else Raises ValueError
      | AfterArray =>
          if is_space c then scan AfterArray cur done rest
          else Raises ValueError
      | InString pending =>
          if (c =? 34)%N then
            scan AfterValue [] (rev (flush pending cur) :: done) rest
          else if (c =? 92)%N then
            match rest with
            | [] => Raises ValueError
            | e :: rest1 =>
                if (N_of_ascii e =? 117)%N then
                  match rest1 with
                  | h1 :: h2 :: h3 :: h4 :: rest2 =>
                      match _decode_uXXXX h1 h2 h3 h4 with
                      | None => Raises ValueError
                      | Some u =>
                          match pending with
                          | Some h =>
                              if is_low u then
                                scan (InString None)
                                  ((65536
                                    + N.lor (N.shiftl (h - 55296) 10)
                                        (u - 56320))%N :: cur)
                                  done rest2
                              else if is_high u then
                                scan (InString (Some u)) (h :: cur) done rest2
                              else scan (InString None) (u :: h :: cur)
                                     done rest2
                          | None =>
                              if is_high u then
                                scan (InString (Some u)) cur done rest2
                              else scan (InString None) (u :: cur) done rest2
                          end
                      end
                  | _ => Raises ValueError
                  end
                else
                  match backslash (N_of_ascii e) with
                  | Some ch =>
                      scan (InString None) (ch :: flush pending cur)
                        done rest1
                  | None => Raises ValueError
                  end
            end
          else if (c <? 32)%N then Raises ValueError
          else scan (InString None) (c :: flush pending cur) done rest
      end
  end.

Definition json_loads_names (text : string) : result (list ustr) :=
  scan BeforeArray [] [] (chars text).

Definition ustr_of (s : string) : ustr := map N_of_ascii (chars s).

(** ** The tables

    A row is a record of its columns.  Text bound to a statement is kept
    as [string]; the two flags are stored as 0/1 integers; a [NULL] is
    [None].  The [created_at] columns hold ISO-8601 text. *)

Module Msg.
Record row : Type := mk {
  id : string;
  author_id : string;
  author_name : string;
  channel_id : string;
  channel_name : string;
  guild_id : option string;
  guild_name : option string;
  content : string;
  created_at : string;
  is_bot : Z;
  is_command : Z;
  command_type : option string
}.
End Msg.

Module Summary.
Record row : Type := mk {
  id : Z;
  channel_id : string;
  channel_name : string;
  guild_id : option string;
  guild_name : option string;
  date : string;
  summary_text : string;
  message_count : Z;
  active_users : Z;
  active_users_list : string;
  created_at : string;
  metadata : option string
}.
End Summary.

(** The database file: both tables in insertion order, and the counter
    that [AUTOINCREMENT] keeps for [channel_summaries]. *)
Record database : Type := mk_database {
  messages : list Msg.row;
  channel_summaries : list Summary.row;
  summary_seq : Z
}.

Definition empty_database : database := mk_database [] [] 0.

(** ** The storage engine

    Any call into SQLite may fail (locked file, I/O error, ...).  A
    [world] fixes, for one call of the module, the wall clock and which of
    the engine's steps fail. *)

Inductive step : Type :=
| Connect
| Execute (n : nat)   (* the n-th [cursor.execute] of the call *)
| Commit.

Record world : Type := mk_world {
  now : datetime;
  fault : step -> option exn
}.

Definition no_fault : step -> option exn := fun _ => None.

Definition attempt {A : Type} (w : world) (s : step) (r : result A)
  : result A :=
  match fault w s with
  | Some e => Raises e
  | None => r
  end.

Definition get_connection (w : world) : result unit :=
  attempt w Connect (Returns tt).

Definition execute {A : Type} (w : world) (n : nat) (stmt : result A)
  : result A :=
  attempt w (Execute n) stmt.

Definition commit (w : world) : result unit :=
  attempt w Commit (Returns tt).

(** [try: body / except Exception: return sentinel] around a block that
    writes: a raise inside the [with] block rolls the transaction back. *)
Definition try_write {A : Type} (db : database)
  (body : result (A * database)) (sentinel : exn -> A)
  : result A * database :=
  match body with
  | Returns (a, db') => (Returns a, db')
  | Raises e => (Returns (sentinel e), db)
  end.

(** The same around a block that only reads. *)
Definition try_read {A : Type} (body : result A) (sentinel : exn -> A)
  : result A :=
  match body with
  | Returns a => Returns a
  | Raises e => Returns (sentinel e)
  end.

(** ** SQL

    Text is compared bytewise (the BINARY collation).  The [created_at]
    columns are declared [TIMESTAMP], which gives them numeric affinity;
    an ISO-8601 text is not a number, so it is stored and compared as
    text, against parameters that are bound as text. *)

Definition text_le (a b : string) : bool := String.leb a b.
Definition text_lt (a b : string) : bool := String.ltb a b.

(** [x BETWEEN lo AND hi] *)
Definition between (x lo hi : string) : bool :=
  text_le lo x && text_le x hi.

(** [ORDER BY]: SQLite leaves the order of rows with equal keys open; the
    model keeps them in table order. *)
Fixpoint insert_by {A : Type} (le : A -> A -> bool) (x : A) (l : list A)
  : list A :=
  match l with
  | [] => [x]
  | y :: r => if le x y then x :: l else y :: insert_by le x r
  end.

Fixpoint order_by {A : Type} (le : A -> A -> bool) (l : list A) : list A :=
  match l with
  | [] => []
  | x :: r => insert_by le x (order_by le r)
  end.

Definition by_created_at (a b : Msg.row) : bool :=
  text_le (Msg.created_at a) (Msg.created_at b).

Definition by_channel_then_created_at (a b : Msg.row) : bool :=
  match String.compare (Msg.channel_id a) (Msg.channel_id b) with
  | Lt => true
  | Eq => text_le (Msg.created_at a) (Msg.created_at b)
  | Gt => false
  end.

Definition has_id (i : string) (r : Msg.row) : bool :=
  String.eqb (Msg.id r) i.

(** [INSERT INTO messages ...]: the primary key refuses a second row with
    the same [id]. *)
Definition INSERT_MESSAGE (db : database) (r : Msg.row) : result database :=
  if existsb (has_id (Msg.id r)) (messages db)
  then Raises IntegrityError
  else Returns (mk_database (messages db ++ [r]) (channel_summaries db)
                  (summary_seq db)).

(** [INSERT INTO channel_summaries ...]: the key is assigned by the
    engine. *)
Definition INSERT_CHANNEL_SUMMARY (db : database)
  (mk_row : Z -> Summary.row) : result database :=
  let k := summary_seq db + 1 in
  Returns (mk_database (messages db) (channel_summaries db ++ [mk_row k]) k).

Definition count_rows {A : Type} (p : A -> bool) (l : list A) : Z :=
  Z.of_nat (List.length (filter p l)).

(** ** The operations of [database.py] *)

Definition store_message (w : world) (db : database)
  (message_id author_id author_name channel_id channel_name content : string)
  (created_at : datetime) (guild_id guild_name : option string)
  (is_bot is_command : bool) (command_type : option string)
  : result bool * database :=
  try_write db
    (_ <- get_connection w ;;
     db' <- execute w 0
       (INSERT_MESSAGE db
          (Msg.mk message_id author_id author_name channel_id channel_name
             guild_id guild_name content (isoformat created_at)
             (if is_bot then 1 else 0) (if is_command then 1 else 0)
             command_type)) ;;
     _ <- commit w ;;
     Returns (true, db'))%py
    (fun e => match e with
              | IntegrityError => false
              | _ => false
              end).

Definition get_message_count (w : world) (db : database) : result Z :=
  try_read
    (_ <- get_connection w ;;
     execute w 0 (Returns (count_rows (fun _ => true) (messages db))))%py
    (fun _ => 0).

Definition get_user_message_count (w : world) (db : database)
  (user_id : string) : result Z :=
  try_read
    (_ <- get_connection w ;;
     execute w 0
       (Returns (count_rows (fun r => String.eqb (Msg.author_id r) user_id)
                   (messages db))))%py
    (fun _ => 0).

(** The dictionaries built by [get_channel_messages_for_timeframe]. *)
Module TimeframeMsg.
Record t : Type := mk {
  author_name : string;
  content : string;
  created_at : datetime;
  is_bot : bool;
  is_command : bool
}.
End TimeframeMsg.

(** Python's [bool] of an integer. *)
Definition py_bool (z : Z) : bool := negb (z =? 0).

Fixpoint traverse {A B : Type} (f : A -> result B) (l : list A)
  : result (list B) :=
  match l with
  | [] => Returns []
  | x :: r => (y <- f x ;; ys <- traverse f r ;; Returns (y :: ys))%py
  end.

Definition timeframe_dict (r : Msg.row) : result TimeframeMsg.t :=
  (d <- fromisoformat (Msg.created_at r) ;;
   Returns (TimeframeMsg.mk (Msg.author_name r) (Msg.content r) d
              (py_bool (Msg.is_bot r)) (py_bool (Msg.is_command r))))%py.

Definition in_timeframe (channel_id lo hi : string) (r : Msg.row) : bool :=
  String.eqb (Msg.channel_id r) channel_id
  && between (Msg.created_at r) lo hi.

Definition get_channel_messages_for_timeframe (w : world) (db : database)
  (channel_id : string) (start_date end_date : datetime)
  : result (list TimeframeMsg.t) :=
  try_read
    (h1 <- timedelta 0 5 0 0 0 ;;
     s <- datetime_add start_date h1 ;;
     let start_date_utc := isoformat s in
     h2 <- timedelta 0 5 0 0 0 ;;
     e <- datetime_add end_date h2 ;;
     let end_date_utc := isoformat e in
     _ <- get_connection w ;;
     rows <- execute w 0
       (Returns
          (order_by by_created_at
             (filter (in_timeframe channel_id start_date_utc end_date_utc)
                (messages db)))) ;;
     traverse timeframe_dict rows)%py
    (fun _ => []).

Definition get_channel_messages_for_day (w : world) (db : database)
  (channel_id : string) (date : datetime) : result (list TimeframeMsg.t) :=
  (start_date_local <- datetime_new (year date) (month date) (day date)
                         0 0 0 0 ;;
   end_date_local <- datetime_new (year date) (month date) (day date)
                       23 59 59 999999 ;;
   get_channel_messages_for_timeframe w db channel_id
     start_date_local end_date_local)%py.

Definition get_channel_messages_for_week (w : world) (db : database)
  (channel_id : string) (start_date : datetime)
  : result (list TimeframeMsg.t) :=
  (span <- timedelta 6 23 59 59 999999 ;;
   end_date <- datetime_add start_date span ;;
   get_channel_messages_for_timeframe w db channel_id start_date end_date)%py.

(** The dictionaries built by [get_messages_for_time_range]. *)
Module RangeMsg.
Record t : Type := mk {
  id : string;
  author_id : string;
  author_name : string;
  content : string;
  created_at : datetime;
  is_bot : bool;
  is_command : bool
}.
End RangeMsg.

Module ChannelData.
Record t : Type := mk {
  channel_id : string;
  channel_name : string;
  guild_id : option string;
  guild_name : option string;
  messages : list RangeMsg.t
}.
End ChannelData.

(** A Python [dict] keyed by channel id, in insertion order. *)
Definition channel_dict : Type := list (string * ChannelData.t).

Definition dict_mem (k : string) (d : channel_dict) : bool :=
  existsb (fun kv => String.eqb (fst kv) k) d.

(** [d[k]['messages'].append(m)] *)
Fixpoint dict_append (k : string) (m : RangeMsg.t) (d : channel_dict)
  : channel_dict :=
  match d with
  | [] => []
  | (k', g) :: rest =>
      if String.eqb k' k
      then (k', ChannelData.mk (ChannelData.channel_id g)
                  (ChannelData.channel_name g) (ChannelData.guild_id g)
                  (ChannelData.guild_name g)
                  (ChannelData.messages g ++ [m])) :: rest
      else (k', g) :: dict_append k m rest
  end.

Definition range_dict (r : Msg.row) : result RangeMsg.t :=
  (d <- fromisoformat (Msg.created_at r) ;;
   Returns (RangeMsg.mk (Msg.id r) (Msg.author_id r) (Msg.author_name r)
              (Msg.content r) d
              (py_bool (Msg.is_bot r)) (py_bool (Msg.is_command r))))%py.

(** One turn of the grouping loop. *)
Definition group_row (d : channel_dict) (r : Msg.row) : result channel_dict :=
  let channel_id := Msg.channel_id r in
  let d1 :=
    if dict_mem channel_id d then d
    else d ++ [(channel_id,
                ChannelData.mk channel_id (Msg.channel_name r)
                  (Msg.guild_id r) (Msg.guild_name r) [])] in
  (m <- range_dict r ;; Returns (dict_append channel_id m d1))%py.

Fixpoint group_rows (d : channel_dict) (rows : list Msg.row)
  : result channel_dict :=
  match rows with
  | [] => Returns d
  | r :: rest => (d' <- group_row d r ;; group_rows d' rest)%py
  end.

Definition in_range (lo hi : string) (r : Msg.row) : bool :=
  between (Msg.created_at r) lo hi.

Definition get_messages_for_time_range (w : world) (db : database)
  (start_time end_time : datetime) : result channel_dict :=
  try_read
    (let start_date_str := isoformat start_time in
     let end_date_str := isoformat end_time in
     _ <- get_connection w ;;
     rows <- execute w 0
       (Returns
          (order_by by_channel_then_created_at
             (filter (in_range start_date_str end_date_str)
                (messages db)))) ;;
     group_rows [] rows)%py
    (fun _ => []).

(** Python's truth value of an optional dictionary. *)
Definition truthy (metadata : option (list (ustr * pyobj))) : bool :=
  match metadata with
  | Some (_ :: _) => true
  | _ => false
  end.

Definition as_pyobj (metadata : option (list (ustr * pyobj))) : pyobj :=
  match metadata with
  | Some kv => PyDict kv
  | None => PyNone
  end.

Definition store_channel_summary (w : world) (db : database)
  (channel_id channel_name : string) (date : datetime)
  (summary_text : string) (message_count : Z) (active_users : list ustr)
  (guild_id guild_name : option string)
  (metadata : option (list (ustr * pyobj)))
  : result bool * database :=
  try_write db
    (active_users_json <- json_dumps_names active_users ;;
     metadata_json <-
       (if truthy metadata
        then (t <- json_dumps (as_pyobj metadata) ;; Returns (Some t))
        else Returns None) ;;
     let date_str := strftime_ymd date in
     let created_at := isoformat (now w) in
     _ <- get_connection w ;;
     db' <- execute w 0
       (INSERT_CHANNEL_SUMMARY db
          (fun k =>
             Summary.mk k channel_id channel_name guild_id guild_name
               date_str summary_text message_count
               (Z.of_nat (List.length active_users)) active_users_json
               created_at metadata_json)) ;;
     _ <- commit w ;;
     Returns (true, db'))%py
    (fun _ => false).

Definition older_than (cutoff : string) (r : Msg.row) : bool :=
  text_lt (Msg.created_at r) cutoff.

Definition delete_messages_older_than (w : world) (db : database)
  (cutoff_time : datetime) : result Z * database :=
  try_write db
    (let cutoff_time_str := isoformat cutoff_time in
     _ <- get_connection w ;;
     count <- execute w 0
       (Returns (count_rows (older_than cutoff_time_str) (messages db))) ;;
     db' <- execute w 1
       (Returns
          (mk_database
             (filter (fun r => negb (older_than cutoff_time_str r))
                (messages db))
             (channel_summaries db) (summary_seq db))) ;;
     _ <- commit w ;;
     Returns (count, db'))%py
    (fun _ => 0).

(** The dictionaries built by [get_active_channels]. *)
Module ActiveChannel.
Record t : Type := mk {
  channel_id : string;
  channel_name : string;
  guild_id : option string;
  guild_name : option string;
  message_count : Z
}.
End ActiveChannel.

(** [GROUP BY channel_id]: the rows of each channel, in table order. *)
Fixpoint add_to_group (r : Msg.row) (gs : list (list Msg.row))
  : list (list Msg.row) :=
  match gs with
  | [] => [[r]]
  | g :: rest =>
      match g with
      | [] => g :: add_to_group r rest
      | r0 :: _ =>
          if String.eqb (Msg.channel_id r0) (Msg.channel_id r)
          then (g ++ [r]) :: rest
          else g :: add_to_group r rest
      end
  end.

Definition group_by_channel (rows : list Msg.row) : list (list Msg.row) :=
  fold_left (fun gs r => add_to_group r gs) rows [].

(** One output row per group: [COUNT( * )] and the other columns, which
    SQLite reads from a row of the group that it does not specify; the
    model reads them from the group's first row. *)
Definition aggregate (g : list Msg.row) : list ActiveChannel.t :=
  match g with
  | [] => []
  | r :: _ =>
      [ActiveChannel.mk (Msg.channel_id r) (Msg.channel_name r)
         (Msg.guild_id r) (Msg.guild_name r) (Z.of_nat (List.length g))]
  end.

Definition by_message_count_desc (a b : ActiveChannel.t) : bool :=
  ActiveChannel.message_count b <=? ActiveChannel.message_count a.

Definition since (cutoff : string) (r : Msg.row) : bool :=
  text_le cutoff (Msg.created_at r).

Definition get_active_channels (w : world) (db : database) (hours : Z)
  : result (list ActiveChannel.t) :=
  try_read
    (span <- timedelta 0 hours 0 0 0 ;;
     c <- datetime_sub (now w) span ;;
     let cutoff_time := isoformat c in
     _ <- get_connection w ;;
     execute w 0
       (Returns
          (order_by by_message_count_desc
             (flat_map aggregate
                (group_by_channel
                   (filter (since cutoff_time) (messages db)))))))%py
    (fun _ => []).

(** ** Notions used by the statements below *)

(** The calendar fields of a naive [datetime], most significant first. *)
Definition fields (d : datetime) : list Z :=
  [year d; month d; day d; hour d; minute d; second d; microsecond d].

Fixpoint lex_compare (a b : list Z) : comparison :=
  match a, b with
  | [], [] => Eq
  | [], _ :: _ => Lt
  | _ :: _, [] => Gt
  | x :: a', y :: b' =>
      match x ?= y with
      | Eq => lex_compare a' b'
      | c => c
      end
  end.

(** Which of two naive values comes first. *)
Definition chronological_compare (d1 d2 : datetime) : comparison :=
  lex_compare (fields d1) (fields d2).

(** Bytewise comparison of two texts given by their characters. *)
Fixpoint chars_compare (a b : list ascii) : comparison :=
  match a, b with
  | [], [] => Eq
  | [], _ :: _ => Lt
  | _ :: _, [] => Gt
  | x :: a', y :: b' =>
      match Ascii.compare x y with
      | Eq => chars_compare a' b'
      | c => c
      end
  end.

(** A row whose [created_at] is the ISO-8601 text of a [datetime], which
    is what [store_message] writes. *)
Definition well_stamped (r : Msg.row) : Prop :=
  exists d, valid_datetime d = true /\ Msg.created_at r = isoformat d.

(** [d + timedelta(hours=h)] and [d - timedelta(hours=h)]. *)
Definition plus_hours (d : datetime) (h : Z) : result datetime :=
  (span <- timedelta 0 h 0 0 0 ;; datetime_add d span)%py.

Definition minus_hours (d : datetime) (h : Z) : result datetime :=
  (span <- timedelta 0 h 0 0 0 ;; datetime_sub d span)%py.

(** The dictionary that the timeframe query shows for a row. *)
Definition shown_as (r : Msg.row) (m : TimeframeMsg.t) : Prop :=
  TimeframeMsg.author_name m = Msg.author_name r
  /\ TimeframeMsg.content m = Msg.content r
  /\ fromisoformat (Msg.created_at r) = Returns (TimeframeMsg.created_at m)
  /\ TimeframeMsg.is_bot m = py_bool (Msg.is_bot r)
  /\ TimeframeMsg.is_command m = py_bool (Msg.is_command r).

(** The dictionary that the range query lists for a row. *)
Definition listed_as (r : Msg.row) (m : RangeMsg.t) : Prop :=
  RangeMsg.id m = Msg.id r
  /\ RangeMsg.author_id m = Msg.author_id r
  /\ RangeMsg.author_name m = Msg.author_name r
  /\ RangeMsg.content m = Msg.content r
  /\ fromisoformat (Msg.created_at r) = Returns (RangeMsg.created_at m)
  /\ RangeMsg.is_bot m = py_bool (Msg.is_bot r)
  /\ RangeMsg.is_command m = py_bool (Msg.is_command r).

(** Ascending by [created_at]; ascending by [channel_id], then by
    [created_at]. *)
Definition created_at_le (a b : Msg.row) : Prop :=
  text_le (Msg.created_at a) (Msg.created_at b) = true.

Definition channel_then_created_at_le (a b : Msg.row) : Prop :=
  text_lt (Msg.channel_id a) (Msg.channel_id b) = true
  \/ Msg.channel_id a = Msg.channel_id b
     /\ text_le (Msg.created_at a) (Msg.created_at b) = true.

(** The steps of the engine that [delete_messages_older_than] takes. *)
Definition delete_steps : list step :=
  [Connect; Execute 0; Execute 1; Commit].

(** The first and the last instant of the day of [date], as the written
    specification names them: 00:00:00.000000 and 23:59:59.999999, in local
    (naive) time. *)
Definition day_start (date : datetime) : datetime :=
  mk_datetime (year date) (month date) (day date) 0 0 0 0 None.

Definition day_end (date : datetime) : datetime :=
  mk_datetime (year date) (month date) (day date) 23 59 59 999999 None.

(** The distinct elements of a list, in the order of their first
    occurrence. *)
Fixpoint first_seen (l : list string) : list string :=
  match l with
  | [] => []
  | x :: r => x :: filter (fun y => negb (String.eqb y x)) (first_seen r)
  end.

Definition of_channel (k : string) (r : Msg.row) : bool :=
  String.eqb (Msg.channel_id r) k.

(** Descending by message count. *)
Definition count_desc (a b : ActiveChannel.t) : Prop :=
  ActiveChannel.message_count b <= ActiveChannel.message_count a.

(** The identity columns of an active channel are those of the row. *)
Definition same_channel (r : Msg.row) (a : ActiveChannel.t) : Prop :=
  ActiveChannel.channel_id a = Msg.channel_id r
  /\ ActiveChannel.channel_name a = Msg.channel_name r
  /\ ActiveChannel.guild_id a = Msg.guild_id r
  /\ ActiveChannel.guild_name a = Msg.guild_name r.

(** The identity fields of a group are those of the row. *)
Definition named_after (r : Msg.row) (g : ChannelData.t) : Prop :=
  ChannelData.channel_id g = Msg.channel_id r
  /\ ChannelData.channel_name g = Msg.channel_name r
  /\ ChannelData.guild_id g = Msg.guild_id r
  /\ ChannelData.guild_name g = Msg.guild_name r.

(** What the grouping loop has built after reading [rows]: one group per
    channel, in first-seen order, named after the first row of the channel
    and holding the dictionaries of all its rows. *)
Definition grouped (rows : list Msg.row) (d : channel_dict) : Prop :=
  map fst d = first_seen (map Msg.channel_id rows)
  /\ forall k g, In (k, g) d ->
       (exists r0 rest, filter (of_channel k) rows = r0 :: rest
                        /\ named_after r0 g)
       /\ traverse range_dict (filter (of_channel k) rows)
          = Returns (ChannelData.messages g).

Definition with_message (g : ChannelData.t) (m : RangeMsg.t)
  : ChannelData.t :=
  ChannelData.mk (ChannelData.channel_id g) (ChannelData.channel_name g)
    (ChannelData.guild_id g) (ChannelData.guild_name g)
    (ChannelData.messages g ++ [m]).

Local Open Scope N_scope.

(** The double quote. *)
Definition quote : ascii := ascii_of_N 34.

(** The state and the string read so far once the scanner has decoded the
    escape of [u]. *)
Definition after_escape (u : N) (p : option N) (cur : list N)
  : scan_state * list N :=
  match p with
  | Some h =>
      if is_low u then
        (InString None,
         (65536 + N.lor (N.shiftl (h - 55296) 10) (u - 56320)) :: cur)
      else if is_high u then (InString (Some u), h :: cur)
      else (InString None, u :: h :: cur)
  | None =>
      if is_high u then (InString (Some u), cur)
      else (InString None, u :: cur)
  end.

(** The code points of Python: below [0x110000]. *)
Definition code_point (c : N) : Prop := c < 1114112.

(** No high surrogate is directly followed by a low surrogate. *)
Fixpoint pair_free (s : ustr) : bool :=
  match s with
  | [] => true
  | a :: r =>
      match r with
      | b :: _ => negb (is_high a && is_low b)
      | [] => true
      end && pair_free r
  end.

Definition names_ok (names : list ustr) : Prop :=
  Forall (fun s => Forall code_point s /\ pair_free s = true) names.

(** The text that follows the first element of an array. *)
Definition array_tail (names : list ustr) : list ascii :=
  flat_map (fun s => chars ", " ++ encode_basestring_ascii s) names
  ++ chars "]".

Local Close Scope N_scope.

(** ** Databases that the module can produce

    The module is the only writer of the file: starting from the empty
    schema, rows appear through [store_message] and
    [store_channel_summary] and disappear through
    [delete_messages_older_than]. *)

Inductive reachable : database -> Prop :=
| reach_empty : reachable empty_database
| reach_store_message :
    forall (w : world) (db : database)
           (message_id author_id author_name channel_id channel_name
              content : string)
           (created_at : datetime) (guild_id guild_name : option string)
           (is_bot is_command : bool) (command_type : option string),
      valid_datetime created_at = true ->
      reachable db ->
      reachable
        (snd (store_message w db message_id author_id author_name
                channel_id channel_name content created_at guild_id
                guild_name is_bot is_command command_type))
| reach_store_channel_summary :
    forall (w : world) (db : database) (channel_id channel_name : string)
           (date : datetime) (summary_text : string) (message_count : Z)
           (active_users : list ustr) (guild_id guild_name : option string)
           (metadata : option (list (ustr * pyobj))),
      reachable db ->
      reachable
        (snd (store_channel_summary w db channel_id channel_name date
                summary_text message_count active_users guild_id
                guild_name metadata))
| reach_delete_messages_older_than :
    forall (w : world) (db : database) (cutoff_time : datetime),
      reachable db ->
      reachable (snd (delete_messages_older_than w db cutoff_time)).

(** ** Sample data *)

Definition sample_world : world :=
  mk_world (mk_datetime 2024 3 10 18 0 0 0 None) no_fault.

(** A world whose engine fails at commit. *)
Definition failing_world : world :=
  mk_world (mk_datetime 2024 3 10 18 0 0 0 None)
    (fun st => match st with
               | Commit => Some OperationalError
               | _ => None
               end).

Definition sample_messages : list Msg.row :=
  [Msg.mk "m1" "u1" "alice" "c1" "general" (Some "g1") (Some "guild")
     "hello" "2024-03-10T10:00:00" 0 0 None;
   Msg.mk "m2" "u2" "bot" "c1" "general" (Some "g1") (Some "guild")
     "!help" "2024-03-10T16:30:00.250000" 1 1 (Some "help");
   Msg.mk "m3" "u1" "alice" "c2" "random" None None
     "later" "2024-03-10T17:00:00" 0 0 None;
   Msg.mk "m4" "u3" "carol" "c1" "general" (Some "g1") (Some "guild")
     "old" "2024-03-08T09:00:00" 0 0 None].

Definition sample_db : database := mk_database sample_messages [] 0.

Definition sample_day : datetime := mk_datetime 2024 3 10 15 45 0 0 None.

(** ** Notions used by the further properties *)

Definition by_author (u : string) (r : Msg.row) : bool :=
  String.eqb (Msg.author_id r) u.

Definition total (l : list Z) : Z := fold_right Z.add 0 l.

(** Microseconds since midnight. *)
Definition time_of_day (d : datetime) : Z :=
  ((hour d * 60 + minute d) * 60 + second d) * US_PER_SECOND + microsecond d.

(** Later than 9999-12-25T00:00:00: the week that starts here does not end
    within the calendar. *)
Definition after_last_full_week (d : datetime) : bool :=
  (year d =? 9999) && (month d =? 12)
  && ((26 <=? day d) || ((day d =? 25) && (0 <? time_of_day d))).

(** The instant of a [datetime], in microseconds, on the scale whose day
    1 is 0001-01-01. *)
Definition instant (d : datetime) : Z :=
  toordinal d * US_PER_DAY + time_of_day d.

Definition consecutive_from_one (ids : list Z) : Prop :=
  ids = map Z.of_nat (seq 1 (List.length ids)).

(** A row stamped by [store_message] with a naive [datetime]. *)
Definition naive_stamped (r : Msg.row) : Prop :=
  exists d, valid_datetime d = true /\ tzinfo d = None
            /\ Msg.created_at r = isoformat d.

(** The first instant is not after the second. *)
Definition not_after (a b : datetime) : Prop :=
  chronological_compare a b <> Gt.

(** The month and the day that [_ord2ymd] finds for the [n]-th day
    (counted from 0) of a year: the estimate [(n + 50) >> 5] and its
    correction. *)
Definition month_and_day (leapyear : bool) (n : Z) : Z * Z :=
  let m := Z.shiftr (n + 50) 5 in
  let preceding :=
    _DAYS_BEFORE_MONTH m + (if (2 <? m) && leapyear then 1 else 0) in
  if n <? preceding then
    let m := m - 1 in
    let preceding :=
      preceding
      - (_DAYS_IN_MONTH m + (if (m =? 2) && leapyear then 1 else 0)) in
    (m, n - preceding + 1)
  else (m, n - preceding + 1).

(** What [month_and_day] has to deliver. *)
Definition month_and_day_ok (leapyear : bool) (n : Z) : bool :=
  let '(m, d) := month_and_day leapyear n in
  (1 <=? m) && (m <=? 12) && (1 <=? d)
  && (d <=? _DAYS_IN_MONTH m + (if (m =? 2) && leapyear then 1 else 0))
  && (_DAYS_BEFORE_MONTH m + (if (2 <? m) && leapyear then 1 else 0) + d
      =? n + 1).

Definition months : list Z := [1; 2; 3; 4; 5; 6; 7; 8; 9; 10; 11; 12].

(** The instant that the [created_at] text of a row denotes. *)
Definition stamp_instant (r : Msg.row) : option Z :=
  match fromisoformat (Msg.created_at r) with
  | Returns d => Some (instant d)
  | Raises _ => None
  end.

(** The rows of a channel stamped from [lo] to [hi], both included. *)
Definition in_window (channel_id : string) (lo hi : Z) (r : Msg.row) : bool :=
  String.eqb (Msg.channel_id r) channel_id
  && match stamp_instant r with
     | Some t => (lo <=? t) && (t <=? hi)
     | None => false
     end.

(** The rows stamped before [t], and those stamped at [t] or later. *)
Definition stamped_before (t : Z) (r : Msg.row) : bool :=
  match stamp_instant r with
  | Some u => u <? t
  | None => false
  end.

Definition stamped_since (t : Z) (r : Msg.row) : bool :=
  match stamp_instant r with
  | Some u => t <=? u
  | None => false
  end.

(** Five hours, in microseconds. *)
Definition FIVE_HOURS : Z := 5 * 3600 * US_PER_SECOND.

(** The first instant after the last day of the calendar. *)
Definition END_OF_CALENDAR : Z := (_MAXORDINAL + 1) * US_PER_DAY.

(** What the timeframe query shows of a message that the range query
    lists. *)
Definition timeframe_view (m : RangeMsg.t) : TimeframeMsg.t :=
  TimeframeMsg.mk (RangeMsg.author_name m) (RangeMsg.content m)
    (RangeMsg.created_at m) (RangeMsg.is_bot m) (RangeMsg.is_command m).

(** The number of messages held by the groups of a dictionary: the
    [total_messages] that [get_messages_for_time_range] logs. *)
Definition total_messages (d : channel_dict) : Z :=
  total (map (fun kv => Z.of_nat (List.length (ChannelData.messages (snd kv))))
           d).

(** A text of seven-bit characters only. *)
Definition seven_bit (a : ascii) : bool := (N_of_ascii a <? 128)%N.

Definition ascii_only (cs : list ascii) : Prop :=
  Forall (fun a => seven_bit a = true) cs.

(** A row stamped by [store_message] with an aware [datetime], as
    discord.py hands them over. *)
Definition aware_stamped (r : Msg.row) : Prop :=
  exists d off, valid_datetime d = true /\ tzinfo d = Some off
                /\ Msg.created_at r = isoformat d.

(** The rows of a channel whose wall clock reads from [lo] up to, and not
    including, [hi]. *)
Definition in_open_window (channel_id : string) (lo hi : Z) (r : Msg.row)
  : bool :=
  String.eqb (Msg.channel_id r) channel_id
  && match stamp_instant r with
     | Some t => (lo <=? t) && (t <? hi)
     | None => false
     end.

(** What [init_database] finds on disk: whether the directory [data]
    exists, the tables and indexes of the file by name, and the rows. *)
Record disk : Type := mk_disk {
  directory : bool;
  objects : list string;
  tables : database
}.

(** The tables and indexes of the nine [CREATE] statements, in the order
    in which [init_database] executes them. *)
Definition SCHEMA : list string :=
  ["messages"; "channel_summaries"; "idx_author_id"; "idx_channel_id";
   "idx_guild_id"; "idx_created_at"; "idx_is_command";
   "idx_summary_channel_id"; "idx_summary_date"].

(** [CREATE ... IF NOT EXISTS name] *)
Definition create_if_not_exists (name : string) (objs : list string)
  : list string :=
  if existsb (String.eqb name) objs then objs else objs ++ [name].

(** The [cursor.execute] calls from the [n]-th on.  [sqlite3] opens no
    transaction for a [CREATE] statement, so each takes effect at once and
    stays when a later one fails. *)
Fixpoint create_all (w : world) (n : nat) (names : list string)
  (objs : list string) : result unit * list string :=
  match names with
  | [] => (Returns tt, objs)
  | name :: rest =>
      match fault w (Execute n) with
      | Some e => (Raises e, objs)
      | None => create_all w (S n) rest (create_if_not_exists name objs)
      end
  end.

(** [init_database]; [makedirs] is the error of [os.makedirs], if it has
    one.  The [except] clause logs and raises again. *)
Definition init_database (w : world) (makedirs : option exn) (d : disk)
  : result unit * disk :=
  match (if directory d then None else makedirs) with
  | Some e => (Raises e, d)
  | None =>
      let d := mk_disk true (objects d) (tables d) in
      match fault w Connect with
      | Some e => (Raises e, d)
      | None =>
          let '(r, objs) := create_all w 0 SCHEMA (objects d) in
          let d := mk_disk true objs (tables d) in
          match r with
          | Raises e => (Raises e, d)
          | Returns _ =>
              match fault w Commit with
              | Some e => (Raises e, d)
              | None => (Returns tt, d)
              end
          end
      end
  end.

(** A disk that [init_database] has prepared. *)
Definition initialised (d : disk) : Prop :=
  directory d = true /\ forall name, In name SCHEMA -> In name (objects d).


(** The sample rows with the stamps that discord.py delivers. *)
Definition aware_db : database :=
  mk_database
    [Msg.mk "m1" "u1" "alice" "c1" "general" (Some "g1") (Some "guild")
       "hello" "2024-03-10T10:00:00+00:00" 0 0 None;
     Msg.mk "m2" "u2" "bot" "c1" "general" (Some "g1") (Some "guild")
       "!help" "2024-03-10T17:00:00+00:00" 1 1 (Some "help")]
    [] 0.

(** A machine on which the bot has never run. *)
Definition fresh_disk : disk := mk_disk false [] empty_database.

(** * Properties *)

(** ** Text order *)

Lemma ascii_compare_refl (a : ascii) : Ascii.compare a a = Eq.
Proof. unfold Ascii.compare. apply N.compare_refl. Qed.

Lemma string_compare_refl (s : string) : String.compare s s = Eq.
Proof.
  induction s as [|a s IH]; simpl; [reflexivity|].
  now rewrite ascii_compare_refl.
Qed.

Lemma string_compare_eq (a b : string) : String.compare a b = Eq <-> a = b.
Proof.
  split; [apply String.compare_eq_iff|].
  intros ->. apply string_compare_refl.
Qed.

Lemma string_compare_lt_trans (a b c : string) :
  String.compare a b = Lt -> String.compare b c = Lt ->
  String.compare a c = Lt.
Proof.
  revert b c. induction a as [|x a IH]; intros [|y b] [|z c]; simpl;
    try congruence.
  unfold Ascii.compare.
  destruct (N.compare_spec (N_of_ascii x) (N_of_ascii y)) as [E1|L1|G1];
    destruct (N.compare_spec (N_of_ascii y) (N_of_ascii z)) as [E2|L2|G2];
    try congruence; intros H1 H2.
  - rewrite E1, E2, N.compare_refl. eauto.
  - rewrite E1. now apply N.compare_lt_iff in L2 as ->.
  - rewrite <- E2. now apply N.compare_lt_iff in L1 as ->.
  - assert (L : (N_of_ascii x < N_of_ascii z)%N) by lia.
    now apply N.compare_lt_iff in L as ->.
Qed.

Lemma text_lt_spec (a b : string) :
  text_lt a b = true <-> String.compare a b = Lt.
Proof.
  unfold text_lt, String.ltb. destruct (String.compare a b); split;
    congruence.
Qed.

Lemma text_le_spec (a b : string) :
  text_le a b = true <-> String.compare a b <> Gt.
Proof.
  unfold text_le, String.leb. destruct (String.compare a b); split;
    congruence.
Qed.

Lemma text_lt_not_le (a b : string) : text_lt a b = negb (text_le b a).
Proof.
  unfold text_lt, text_le, String.ltb, String.leb.
  rewrite (String.compare_antisym a b).
  destruct (String.compare b a); reflexivity.
Qed.

Lemma text_le_refl (a : string) : text_le a a = true.
Proof. apply text_le_spec. now rewrite string_compare_refl. Qed.

Lemma text_le_total (a b : string) : text_le a b = true \/ text_le b a = true.
Proof. apply String.leb_total. Qed.

Lemma text_le_trans (a b c : string) :
  text_le a b = true -> text_le b c = true -> text_le a c = true.
Proof.
  rewrite !text_le_spec. intros H1 H2.
  destruct (String.compare a b) eqn:E1; [| |congruence].
  - apply string_compare_eq in E1. now subst.
  - destruct (String.compare b c) eqn:E2; [| |congruence].
    + apply string_compare_eq in E2. subst. now rewrite E1.
    + now rewrite (string_compare_lt_trans a b c).
Qed.

Lemma text_lt_le (a b : string) : text_lt a b = true -> text_le a b = true.
Proof.
  rewrite text_lt_spec, text_le_spec. intros ->. discriminate.
Qed.

(** ** [ORDER BY] sorts and keeps every row *)

Section Ordering.
Context {A : Type} (le : A -> A -> bool).
Hypothesis le_total : forall a b, le a b = true \/ le b a = true.
Hypothesis le_trans :
  forall a b c, le a b = true -> le b c = true -> le a c = true.

Let R (a b : A) : Prop := le a b = true.

Lemma insert_by_perm (x : A) (l : list A) :
  Permutation (x :: l) (insert_by le x l).
Proof.
  induction l as [|y l IH]; simpl; [reflexivity|].
  destruct (le x y); [reflexivity|].
  rewrite perm_swap. now constructor.
Qed.

Lemma order_by_perm (l : list A) : Permutation l (order_by le l).
Proof.
  induction l as [|x l IH]; simpl; [constructor|].
  rewrite <- insert_by_perm. now constructor.
Qed.

Lemma insert_by_sorted (x : A) (l : list A) :
  StronglySorted R l -> StronglySorted R (insert_by le x l).
Proof.
  induction 1 as [|y l Hs IH Hy]; simpl.
  - repeat constructor.
  - destruct (le x y) eqn:E.
    + constructor; [now constructor|].
      constructor; [exact E|].
      eapply Forall_impl; [|exact Hy].
      intros z Hz. now apply (le_trans x y z).
    + constructor; [exact IH|].
      apply (Permutation_Forall (insert_by_perm x l)).
      constructor; [|exact Hy].
      destruct (le_total x y) as [H|H]; [congruence|exact H].
Qed.

Lemma order_by_sorted (l : list A) : StronglySorted R (order_by le l).
Proof.
  induction l as [|x l IH]; simpl; [constructor|].
  now apply insert_by_sorted.
Qed.

End Ordering.

(** ** ISO-8601 text is read back as written *)

Lemma digit_val_digit (n : Z) : digit_val (digit n) = Some (n mod 10).
Proof.
  unfold digit_val, digit.
  assert (H : 0 <= n mod 10 < 10) by (apply Z.mod_pos_bound; lia).
  rewrite N_ascii_embedding by lia.
  rewrite Z2N.id by lia.
  replace ((48 <=? 48 + n mod 10) && (48 + n mod 10 <=? 57)) with true
    by (symmetry; apply andb_true_iff; split; apply Z.leb_le; lia).
  f_equal. lia.
Qed.

Ltac euclid := Z.to_euclidean_division_equations; lia.

Lemma number_pad2 (n : Z) : 0 <= n < 100 -> number (pad2 n) 0 = Some n.
Proof.
  intros H. unfold pad2. cbn [number]. rewrite !digit_val_digit.
  f_equal. euclid.
Qed.

Lemma number_pad4 (n : Z) : 0 <= n < 10000 -> number (pad4 n) 0 = Some n.
Proof.
  intros H. unfold pad4. cbn [number]. rewrite !digit_val_digit.
  f_equal. euclid.
Qed.

Lemma number_pad6 (n : Z) : 0 <= n < 1000000 -> number (pad6 n) 0 = Some n.
Proof.
  intros H. unfold pad6. cbn [number]. rewrite !digit_val_digit.
  f_equal. euclid.
Qed.

Lemma valid_datetime_spec (d : datetime) :
  valid_datetime d = true ->
  1 <= year d <= 9999 /\ 1 <= month d <= 12
  /\ 1 <= day d <= _days_in_month (year d) (month d)
  /\ 0 <= hour d <= 23 /\ 0 <= minute d <= 59 /\ 0 <= second d <= 59
  /\ 0 <= microsecond d <= 999999
  /\ match tzinfo d with
     | None => True
     | Some off => -1440 < off < 1440
     end.
Proof.
  unfold valid_datetime, MINYEAR, MAXYEAR. intros H.
  repeat (apply andb_true_iff in H as [H ?]).
  repeat match goal with
         | E : (_ <=? _) = true |- _ => apply Z.leb_le in E
         end.
  repeat split; try assumption.
  destruct (tzinfo d); [|exact I].
  match goal with
  | E : _ && _ = true |- _ => apply andb_true_iff in E as [E1 E2]
  end.
  apply Z.ltb_lt in E1, E2. lia.
Qed.

Lemma days_in_month_le (y m : Z) : _days_in_month y m <= 31.
Proof.
  unfold _days_in_month. destruct ((m =? 2) && _is_leap y); [lia|].
  unfold _DAYS_IN_MONTH.
  destruct m as [|p|p]; try lia.
  do 4 (try destruct p as [p|p|]); lia.
Qed.

Lemma parse_fraction_format (us : Z) (rest : list ascii) :
  0 <= us <= 999999 ->
  (forall c r, rest = c :: r -> is_char c "." = false) ->
  parse_fraction ((if us =? 0 then [] else ["."%char] ++ pad6 us) ++ rest)
  = Some (us, rest).
Proof.
  intros H Hrest. destruct (us =? 0) eqn:E.
  - apply Z.eqb_eq in E. subst. simpl app.
    unfold parse_fraction.
    destruct rest as [|c [|? [|? [|? [|? [|? [|? ?]]]]]]]; try reflexivity.
    now rewrite (Hrest _ _ eq_refl).
  - change ((["."%char] ++ pad6 us) ++ rest)
      with ("."%char :: pad6 us ++ rest).
    unfold pad6 at 1. cbn [app parse_fraction].
    change (is_char "." ".") with true. cbv iota.
    fold (pad6 us). rewrite number_pad6 by lia. reflexivity.
Qed.

Lemma parse_offset_format (tz : option Z) :
  match tz with None => True | Some off => -1440 < off < 1440 end ->
  parse_offset (_format_offset tz) = Some tz.
Proof.
  destruct tz as [o|]; [|reflexivity]. intros H.
  unfold _format_offset. cbn [app]. unfold pad2 at 1 2.
  cbn [app parse_offset]. fold (pad2 (Z.abs o / 60)) (pad2 (Z.abs o mod 60)).
  change (is_char ":" ":") with true.
  assert (Ha : 0 <= Z.abs o < 1440) by lia.
  rewrite !number_pad2 by euclid.
  destruct (o <? 0) eqn:E.
  - change (is_char "-" "+" || is_char "-" "-") with true.
    change (is_char "-" "-") with true. cbv iota. cbn [andb].
    apply Z.ltb_lt in E. do 2 f_equal. euclid.
  - change (is_char "+" "+" || is_char "+" "-") with true.
    change (is_char "+" "-") with false. cbv iota. cbn [andb].
    apply Z.ltb_ge in E. do 2 f_equal. euclid.
Qed.

Lemma format_offset_head (tz : option Z) (c : ascii) (r : list ascii) :
  _format_offset tz = c :: r -> is_char c "." = false.
Proof.
  destruct tz as [o|]; [|discriminate].
  unfold _format_offset. cbn [app]. intros [= <- _].
  now destruct (o <? 0).
Qed.

Theorem fromisoformat_isoformat (d : datetime) :
  valid_datetime d = true -> fromisoformat (isoformat d) = Returns d.
Proof.
  intros Hv. pose proof (valid_datetime_spec d Hv) as (Hy & Hm & Hd & Hh & Hn & Hs & Hu & Ht).
  pose proof (days_in_month_le (year d) (month d)) as Hdim.
  unfold fromisoformat, isoformat.
  rewrite list_ascii_of_string_of_list_ascii.
  unfold isoformat_chars, _format_time.
  unfold pad4 at 1, pad2 at 1 2 3 4 5. cbn [app].
  change (is_char "-" "-") with true.
  change (is_char "T" "T") with true.
  change (is_char ":" ":") with true.
  cbn [andb].
  fold (pad4 (year d)) (pad2 (month d)) (pad2 (day d)) (pad2 (hour d))
    (pad2 (minute d)) (pad2 (second d)).
  rewrite number_pad4 by lia. rewrite !number_pad2 by lia.
  rewrite parse_fraction_format;
    [|lia|intros c r; apply format_offset_head].
  rewrite parse_offset_format by exact Ht.
  destruct d; cbn in *. now rewrite Hv.
Qed.

(** ** The order of ISO-8601 texts *)

Lemma string_compare_chars (a b : list ascii) :
  String.compare (string_of_list_ascii a) (string_of_list_ascii b)
  = chars_compare a b.
Proof.
  revert b. induction a as [|x a IH]; intros [|y b]; simpl; try reflexivity.
  now rewrite IH.
Qed.

Lemma chars_compare_app (p1 p2 r1 r2 : list ascii) :
  List.length p1 = List.length p2 ->
  chars_compare (p1 ++ r1) (p2 ++ r2)
  = match chars_compare p1 p2 with
    | Eq => chars_compare r1 r2
    | c => c
    end.
Proof.
  revert p2. induction p1 as [|x p1 IH]; intros [|y p2] H; simpl in *;
    try discriminate; [reflexivity|].
  destruct (Ascii.compare x y); [apply IH; congruence|reflexivity..].
Qed.

Lemma chars_compare_cons (c : ascii) (r1 r2 : list ascii) :
  chars_compare (c :: r1) (c :: r2) = chars_compare r1 r2.
Proof. simpl. now rewrite ascii_compare_refl. Qed.

Lemma digit_compare (a b : Z) :
  Ascii.compare (digit a) (digit b) = (a mod 10 ?= b mod 10).
Proof.
  unfold Ascii.compare, digit.
  assert (Ha : 0 <= a mod 10 < 10) by (apply Z.mod_pos_bound; lia).
  assert (Hb : 0 <= b mod 10 < 10) by (apply Z.mod_pos_bound; lia).
  rewrite !N_ascii_embedding by lia.
  rewrite Z2N.inj_compare by lia.
  apply Z.add_compare_mono_l.
Qed.

(** Comparing two numbers by their high parts, then by their low parts. *)
Lemma compare_split (base a b : Z) :
  0 < base ->
  (a ?= b)
  = match a / base ?= b / base with
    | Eq => a mod base ?= b mod base
    | c => c
    end.
Proof.
  intros Hbase.
  pose proof (Z.div_mod a base ltac:(lia)) as Ea.
  pose proof (Z.div_mod b base ltac:(lia)) as Eb.
  pose proof (Z.mod_pos_bound a base Hbase) as Ha.
  pose proof (Z.mod_pos_bound b base Hbase) as Hb.
  destruct (Z.compare_spec (a / base) (b / base)) as [E|L|G].
  - destruct (Z.compare_spec (a mod base) (b mod base)) as [E'|L'|G'].
    + apply Z.compare_eq_iff. rewrite Ea, Eb. congruence.
    + apply Z.compare_lt_iff. rewrite Ea, Eb, E. lia.
    + apply Z.compare_gt_iff. rewrite Ea, Eb, E. lia.
  - apply Z.compare_lt_iff. rewrite Ea, Eb. nia.
  - apply Z.compare_gt_iff. rewrite Ea, Eb. nia.
Qed.

Lemma pad2_compare (a b : Z) :
  0 <= a < 100 -> 0 <= b < 100 ->
  chars_compare (pad2 a) (pad2 b) = (a ?= b).
Proof.
  intros Ha Hb. unfold pad2. cbn [chars_compare].
  rewrite !digit_compare, (compare_split 10 a b) by lia.
  rewrite (Z.mod_small (a / 10)), (Z.mod_small (b / 10))
    by (Z.to_euclidean_division_equations; lia).
  destruct (a / 10 ?= b / 10); [|reflexivity..].
  now destruct (a mod 10 ?= b mod 10).
Qed.

Lemma digit_mod (a b : Z) : a mod 10 = b mod 10 -> digit a = digit b.
Proof. unfold digit. now intros ->. Qed.

Lemma pad4_split (n : Z) :
  0 <= n -> pad4 n = pad2 (n / 100) ++ pad2 (n mod 100).
Proof.
  intros H. unfold pad4, pad2. cbn [app].
  repeat match goal with
         | |- _ :: _ = _ :: _ => f_equal
         end;
    try reflexivity; apply digit_mod; Z.to_euclidean_division_equations; lia.
Qed.

Lemma pad6_split (n : Z) :
  0 <= n -> pad6 n = pad2 (n / 10000) ++ pad4 (n mod 10000).
Proof.
  intros H. unfold pad6, pad4, pad2. cbn [app].
  repeat match goal with
         | |- _ :: _ = _ :: _ => f_equal
         end;
    try reflexivity; apply digit_mod; Z.to_euclidean_division_equations; lia.
Qed.

Lemma pad4_compare (a b : Z) :
  0 <= a < 10000 -> 0 <= b < 10000 ->
  chars_compare (pad4 a) (pad4 b) = (a ?= b).
Proof.
  intros Ha Hb. rewrite !pad4_split by lia.
  rewrite chars_compare_app by reflexivity.
  rewrite !pad2_compare
    by (try apply Z.mod_pos_bound; Z.to_euclidean_division_equations; lia).
  symmetry. apply compare_split. lia.
Qed.

Lemma pad6_compare (a b : Z) :
  0 <= a < 1000000 -> 0 <= b < 1000000 ->
  chars_compare (pad6 a) (pad6 b) = (a ?= b).
Proof.
  intros Ha Hb. rewrite !pad6_split by lia.
  rewrite chars_compare_app by reflexivity.
  rewrite pad2_compare, pad4_compare
    by (try apply Z.mod_pos_bound; Z.to_euclidean_division_equations; lia).
  symmetry. apply compare_split. lia.
Qed.

Lemma fraction_compare (a b : Z) :
  0 <= a <= 999999 -> 0 <= b <= 999999 ->
  chars_compare (if a =? 0 then [] else ["."%char] ++ pad6 a)
    (if b =? 0 then [] else ["."%char] ++ pad6 b)
  = (a ?= b).
Proof.
  intros Ha Hb.
  destruct (Z.eqb_spec a 0) as [->|Ha0]; destruct (Z.eqb_spec b 0) as [->|Hb0].
  - reflexivity.
  - cbn [app chars_compare]. symmetry. apply Z.compare_lt_iff. lia.
  - cbn [app chars_compare]. symmetry. apply Z.compare_gt_iff. lia.
  - cbn [app]. rewrite chars_compare_cons. apply pad6_compare; lia.
Qed.

(** For naive values the bytewise order of the ISO-8601 texts is the
    order of the instants. *)
Theorem isoformat_compare_naive (d1 d2 : datetime) :
  valid_datetime d1 = true -> valid_datetime d2 = true ->
  tzinfo d1 = None -> tzinfo d2 = None ->
  String.compare (isoformat d1) (isoformat d2) = chronological_compare d1 d2.
Proof.
  intros H1 H2 T1 T2.
  apply valid_datetime_spec in H1 as (Hy1 & Hm1 & Hd1 & Hh1 & Hn1 & Hs1 & Hu1 & _).
  apply valid_datetime_spec in H2 as (Hy2 & Hm2 & Hd2 & Hh2 & Hn2 & Hs2 & Hu2 & _).
  pose proof (days_in_month_le (year d1) (month d1)).
  pose proof (days_in_month_le (year d2) (month d2)).
  unfold isoformat. rewrite string_compare_chars.
  unfold isoformat_chars, _format_time. rewrite T1, T2.
  cbn [_format_offset]. rewrite <- !app_assoc, !app_nil_r.
  unfold chronological_compare, fields. cbn [lex_compare].
  rewrite chars_compare_app by reflexivity.
  rewrite pad4_compare by lia.
  destruct (year d1 ?= year d2); [|reflexivity..].
  cbn [app]. rewrite chars_compare_cons.
  rewrite chars_compare_app by reflexivity. rewrite pad2_compare by lia.
  destruct (month d1 ?= month d2); [|reflexivity..].
  cbn [app]. rewrite chars_compare_cons.
  rewrite chars_compare_app by reflexivity. rewrite pad2_compare by lia.
  destruct (day d1 ?= day d2); [|reflexivity..].
  cbn [app]. rewrite chars_compare_cons.
  rewrite chars_compare_app by reflexivity. rewrite pad2_compare by lia.
  destruct (hour d1 ?= hour d2); [|reflexivity..].
  cbn [app]. rewrite chars_compare_cons.
  rewrite chars_compare_app by reflexivity. rewrite pad2_compare by lia.
  destruct (minute d1 ?= minute d2); [|reflexivity..].
  cbn [app]. rewrite chars_compare_cons.
  rewrite chars_compare_app by reflexivity. rewrite pad2_compare by lia.
  destruct (second d1 ?= second d2); [|reflexivity..].
  rewrite <- (app_nil_r (if microsecond d1 =? 0 then _ else _)).
  rewrite <- (app_nil_r (if microsecond d2 =? 0 then _ else _)).
  rewrite !app_nil_r.
  rewrite fraction_compare by lia.
  now destruct (microsecond d1 ?= microsecond d2).
Qed.

Corollary text_le_naive (d1 d2 : datetime) :
  valid_datetime d1 = true -> valid_datetime d2 = true ->
  tzinfo d1 = None -> tzinfo d2 = None ->
  text_le (isoformat d1) (isoformat d2) = true
  <-> chronological_compare d1 d2 <> Gt.
Proof.
  intros H1 H2 T1 T2. rewrite text_le_spec.
  now rewrite isoformat_compare_naive.
Qed.

Example aware_text_sorts_after_naive :
  text_le "2024-03-10T10:00:00" "2024-03-10T10:00:00+00:00" = true
  /\ text_le "2024-03-10T10:00:00+00:00" "2024-03-10T10:00:00" = false.
Proof. split; reflexivity. Qed.

(** ** Shifting a [datetime] *)

Lemma days_before_month_bounds (y m : Z) :
  1 <= m <= 12 -> 0 <= _days_before_month y m <= 335.
Proof.
  intros H. unfold _days_before_month.
  assert (Hm : 0 <= _DAYS_BEFORE_MONTH m <= 334).
  { assert (Hc : In m [1;2;3;4;5;6;7;8;9;10;11;12]) by (cbn; lia).
    cbn in Hc.
    repeat (destruct Hc as [<-|Hc]; [cbn; lia|]). destruct Hc. }
  destruct ((2 <? m) && _is_leap y); lia.
Qed.

Lemma toordinal_bounds (d : datetime) :
  valid_datetime d = true ->
  2 <= year d <= 9998 ->
  366 <= toordinal d <= _MAXORDINAL - 363.
Proof.
  intros Hv Hy.
  apply valid_datetime_spec in Hv as (_ & Hm & Hd & _).
  pose proof (days_in_month_le (year d) (month d)).
  pose proof (days_before_month_bounds (year d) (month d) Hm).
  unfold toordinal, _ymd2ord, _days_before_year, _MAXORDINAL.
  Z.to_euclidean_division_equations. lia.
Qed.

(** Away from the first and the last year of the calendar, moving a
    [datetime] by at most a year succeeds. *)
Lemma datetime_add_defined (d : datetime) (td : Z) :
  valid_datetime d = true ->
  2 <= year d <= 9998 ->
  - 365 * US_PER_DAY <= td <= 362 * US_PER_DAY ->
  exists s, datetime_add d td = Returns s.
Proof.
  intros Hv Hy Htd.
  pose proof (toordinal_bounds d Hv Hy) as Ho.
  apply valid_datetime_spec in Hv as (_ & _ & _ & Hh & Hn & Hs & Hu & _).
  unfold datetime_add.
  set (total := ((toordinal d * 24 + hour d) * 60 + minute d) * 60
                * US_PER_SECOND + second d * US_PER_SECOND
                + microsecond d + td).
  assert (Hdays : 0 < total / US_PER_DAY <= _MAXORDINAL).
  { unfold total, US_PER_DAY, US_PER_SECOND, _MAXORDINAL in *.
    Z.to_euclidean_division_equations. lia. }
  replace ((0 <? total / US_PER_DAY) && (total / US_PER_DAY <=? _MAXORDINAL))
    with true.
  - destruct (_ord2ymd (total / US_PER_DAY)) as [[y m] dd]. now eexists.
  - symmetry. apply andb_true_iff. split; [apply Z.ltb_lt|apply Z.leb_le]; lia.
Qed.

Lemma plus_hours_defined (d : datetime) (h : Z) :
  valid_datetime d = true ->
  2 <= year d <= 9998 ->
  0 <= h <= 24 ->
  exists s, plus_hours d h = Returns s.
Proof.
  intros Hv Hy Hh. unfold plus_hours, timedelta.
  replace (Z.abs _ <=? 999999999) with true.
  - cbn [bind]. apply datetime_add_defined; [exact Hv|exact Hy|].
    unfold US_PER_DAY, US_PER_SECOND. lia.
  - symmetry. apply Z.leb_le. unfold US_PER_DAY, US_PER_SECOND.
    Z.to_euclidean_division_equations. lia.
Qed.

Lemma minus_hours_defined (d : datetime) (h : Z) :
  valid_datetime d = true ->
  2 <= year d <= 9998 ->
  0 <= h <= 24 ->
  exists s, minus_hours d h = Returns s.
Proof.
  intros Hv Hy Hh. unfold minus_hours, timedelta.
  replace (Z.abs _ <=? 999999999) with true.
  - cbn [bind]. apply datetime_add_defined; [exact Hv|exact Hy|].
    unfold US_PER_DAY, US_PER_SECOND. lia.
  - symmetry. apply Z.leb_le. unfold US_PER_DAY, US_PER_SECOND.
    Z.to_euclidean_division_equations. lia.
Qed.

(** ** The timeframe query *)

Lemma plus_hours_bind {C : Type} (d : datetime) (h : Z) (s : datetime)
  (k : datetime -> result C) :
  plus_hours d h = Returns s ->
  (span <- timedelta 0 h 0 0 0 ;; x <- datetime_add d span ;; k x)%py = k s.
Proof.
  unfold plus_hours. destruct (timedelta 0 h 0 0 0) as [span|]; cbn [bind].
  - now intros ->.
  - discriminate.
Qed.

Lemma minus_hours_bind {C : Type} (d : datetime) (h : Z) (s : datetime)
  (k : datetime -> result C) :
  minus_hours d h = Returns s ->
  (span <- timedelta 0 h 0 0 0 ;; x <- datetime_sub d span ;; k x)%py = k s.
Proof.
  unfold minus_hours. destruct (timedelta 0 h 0 0 0) as [span|]; cbn [bind].
  - now intros ->.
  - discriminate.
Qed.

Ltac engine_ok H :=
  unfold get_connection, execute, commit, attempt; rewrite ?H.

Lemma traverse_Forall2 {A B : Type} (f : A -> result B)
  (P : A -> B -> Prop) (l : list A) :
  Forall (fun x => exists y, f x = Returns y /\ P x y) l ->
  exists ys, traverse f l = Returns ys /\ Forall2 P l ys.
Proof.
  induction 1 as [|x l (y & Hy & Py) _ (ys & Hys & Pys)]; simpl.
  - exists []. split; [reflexivity|constructor].
  - exists (y :: ys). rewrite Hy, Hys. split; [reflexivity|].
    now constructor.
Qed.

Lemma well_stamped_parses (r : Msg.row) :
  well_stamped r ->
  exists d, fromisoformat (Msg.created_at r) = Returns d
            /\ isoformat d = Msg.created_at r.
Proof.
  intros (d & Hv & E). exists d. rewrite E.
  split; [now apply fromisoformat_isoformat|reflexivity].
Qed.

Lemma timeframe_dict_shown (r : Msg.row) :
  well_stamped r ->
  exists m, timeframe_dict r = Returns m /\ shown_as r m.
Proof.
  intros H. destruct (well_stamped_parses r H) as (d & Hd & _).
  unfold timeframe_dict. rewrite Hd. cbn [bind].
  eexists. split; [reflexivity|]. now repeat split.
Qed.

Lemma in_timeframe_spec (c lo hi : string) (r : Msg.row) :
  in_timeframe c lo hi r = true <->
  Msg.channel_id r = c
  /\ text_le lo (Msg.created_at r) = true
  /\ text_le (Msg.created_at r) hi = true.
Proof.
  unfold in_timeframe, between.
  rewrite !andb_true_iff, String.eqb_eq. tauto.
Qed.

(** C1.  [get_channel_messages_for_timeframe] answers with exactly the
    stored rows of the channel whose [created_at] text lies between the
    ISO-8601 texts of [start + 5 hours] and [end + 5 hours], both bounds
    included, each row shown as its (author_name, content, created_at,
    is_bot, is_command), in ascending order of [created_at].  The engine
    is assumed to work, both shifted bounds to exist, and the rows to have
    been stamped by [store_message]. *)
Theorem timeframe_query_exact (w : world) (db : database)
  (channel_id : string) (start_date end_date s e : datetime) :
  (forall st, fault w st = None) ->
  Forall well_stamped (messages db) ->
  plus_hours start_date 5 = Returns s ->
  plus_hours end_date 5 = Returns e ->
  exists rows out,
    get_channel_messages_for_timeframe w db channel_id start_date end_date
    = Returns out
    /\ (forall r, In r rows <->
                  In r (messages db) /\ Msg.channel_id r = channel_id
                  /\ text_le (isoformat s) (Msg.created_at r) = true
                  /\ text_le (Msg.created_at r) (isoformat e) = true)
    /\ Permutation rows
         (filter (in_timeframe channel_id (isoformat s) (isoformat e))
            (messages db))
    /\ StronglySorted created_at_le rows
    /\ Forall2 shown_as rows out.
Proof.
  intros Hw Hdb Hs He.
  set (sel := filter (in_timeframe channel_id (isoformat s) (isoformat e))
                (messages db)).
  set (rows := order_by by_created_at sel).
  assert (Hperm : Permutation rows sel)
    by (symmetry; apply order_by_perm).
  assert (Hstamp : Forall well_stamped rows).
  { apply Forall_forall. intros r Hr.
    apply (Permutation_in _ Hperm), filter_In in Hr as [Hr _].
    revert r Hr. now apply Forall_forall. }
  destruct (traverse_Forall2 timeframe_dict shown_as rows) as (out & Ho & Hout).
  { eapply Forall_impl; [|exact Hstamp]. apply timeframe_dict_shown. }
  exists rows, out. repeat split.
  - unfold get_channel_messages_for_timeframe.
    rewrite (plus_hours_bind start_date 5 s _ Hs).
    rewrite (plus_hours_bind end_date 5 e _ He).
    engine_ok Hw. cbn [bind]. fold sel rows. rewrite Ho. reflexivity.
  - apply (Permutation_in _ Hperm), filter_In in H as [H _]. exact H.
  - apply (Permutation_in _ Hperm), filter_In in H as [_ H].
    now apply in_timeframe_spec in H.
  - apply (Permutation_in _ Hperm), filter_In in H as [_ H].
    now apply in_timeframe_spec in H.
  - apply (Permutation_in _ Hperm), filter_In in H as [_ H].
    now apply in_timeframe_spec in H.
  - intros (Hin & Hc & Hlo & Hhi).
    apply (Permutation_in _ (Permutation_sym Hperm)), filter_In.
    split; [exact Hin|]. now apply in_timeframe_spec.
  - exact Hperm.
  - apply order_by_sorted.
    + intros a b. apply text_le_total.
    + intros a b c. apply text_le_trans.
  - exact Hout.
Qed.

(** ** Message ingestion *)

(** C3.  When the [id] is already stored, [store_message] returns
    [False] without raising and leaves the database, hence the stored row
    and [get_message_count], as they were; when the [id] is new and the
    engine works, it returns [True] and appends the row. *)
Theorem store_message_unique_id (w : world) (db : database)
  (message_id author_id author_name channel_id channel_name content : string)
  (created_at : datetime) (guild_id guild_name : option string)
  (is_bot is_command : bool) (command_type : option string) :
  let call :=
    store_message w db message_id author_id author_name channel_id
      channel_name content created_at guild_id guild_name is_bot is_command
      command_type in
  (existsb (has_id message_id) (messages db) = true ->
   call = (Returns false, db)
   /\ forall w', get_message_count w' (snd call) = get_message_count w' db)
  /\ (existsb (has_id message_id) (messages db) = false ->
      (forall st, fault w st = None) ->
      call
      = (Returns true,
         mk_database
           (messages db
            ++ [Msg.mk message_id author_id author_name channel_id
                  channel_name guild_id guild_name content
                  (isoformat created_at) (if is_bot then 1 else 0)
                  (if is_command then 1 else 0) command_type])
           (channel_summaries db) (summary_seq db))).
Proof.
  cbv zeta. unfold store_message, INSERT_MESSAGE. cbn [Msg.id].
  split.
  - intros Hdup. rewrite Hdup.
    unfold get_connection, execute, commit, attempt.
    destruct (fault w Connect) as [[]|];
      destruct (fault w (Execute 0)) as [[]|]; split; reflexivity.
  - intros Hnew Hw. rewrite Hnew. engine_ok Hw. reflexivity.
Qed.

(** ** Retention pruning *)

Lemma filter_length_split {A : Type} (p : A -> bool) (l : list A) :
  (List.length (filter p l) + List.length (filter (fun x => negb (p x)) l)
   = List.length l)%nat.
Proof.
  induction l as [|x l IH]; simpl; [reflexivity|].
  destruct (p x); simpl; lia.
Qed.

Lemma filter_none {A : Type} (p : A -> bool) (l : list A) :
  filter p (filter (fun x => negb (p x)) l) = [].
Proof.
  induction l as [|x l IH]; simpl; [reflexivity|].
  destruct (p x) eqn:E; simpl; [exact IH|]. now rewrite E.
Qed.

(** C4.  [delete_messages_older_than] removes all and only the rows whose
    [created_at] text is strictly below the ISO-8601 text of the cutoff,
    returns the number of rows removed, and returns 0 when called again
    with the same cutoff; when a step of the engine fails it returns 0 and
    removes nothing. *)
Theorem delete_older_than_exact (w : world) (db : database)
  (cutoff_time : datetime) :
  let cutoff := isoformat cutoff_time in
  ((forall st, fault w st = None) ->
   exists n db',
     delete_messages_older_than w db cutoff_time = (Returns n, db')
     /\ messages db'
        = filter (fun r => negb (text_lt (Msg.created_at r) cutoff))
            (messages db)
     /\ (forall r, In r (messages db') <->
                   In r (messages db)
                   /\ text_lt (Msg.created_at r) cutoff = false)
     /\ n = Z.of_nat (List.length (messages db))
            - Z.of_nat (List.length (messages db'))
     /\ n = count_rows (fun r => text_lt (Msg.created_at r) cutoff)
              (messages db)
     /\ channel_summaries db' = channel_summaries db
     /\ forall w', fst (delete_messages_older_than w' db' cutoff_time)
                   = Returns 0)
  /\ ((exists st, In st delete_steps /\ fault w st <> None) ->
      delete_messages_older_than w db cutoff_time = (Returns 0, db)).
Proof.
  cbv zeta. split.
  - intros Hw. unfold delete_messages_older_than.
    engine_ok Hw. cbn [bind try_write].
    do 2 eexists. split; [reflexivity|]. cbn [messages channel_summaries].
    unfold older_than.
    split; [reflexivity|]. split; [|split; [|split; [|split]]].
    + intros r. rewrite filter_In, negb_true_iff. tauto.
    + unfold count_rows.
      pose proof (filter_length_split
                    (fun r => text_lt (Msg.created_at r)
                                (isoformat cutoff_time)) (messages db)).
      lia.
    + reflexivity.
    + reflexivity.
    + intros w'. unfold get_connection, execute, commit, attempt.
      destruct (fault w' Connect); [reflexivity|].
      destruct (fault w' (Execute 0)); [reflexivity|].
      destruct (fault w' (Execute 1)); [reflexivity|].
      destruct (fault w' Commit); [reflexivity|].
      cbn [bind try_write fst messages]. unfold count_rows.
      now rewrite filter_none.
  - intros (st & Hst & Hf). unfold delete_messages_older_than.
    unfold get_connection, execute, commit, attempt.
    destruct (fault w Connect) eqn:E1; [reflexivity|].
    destruct (fault w (Execute 0)) eqn:E2; [reflexivity|].
    destruct (fault w (Execute 1)) eqn:E3; [reflexivity|].
    destruct (fault w Commit) eqn:E4; [reflexivity|].
    exfalso. apply Hf.
    destruct Hst as [<-|[<-|[<-|[<-|[]]]]]; assumption.
Qed.

(** ** The day and week wrappers *)

Lemma valid_day_bounds (date : datetime) :
  valid_datetime date = true ->
  valid_datetime (day_start date) = true
  /\ valid_datetime (day_end date) = true.
Proof.
  intros H. apply valid_datetime_spec in H as (Hy & Hm & Hd & _).
  unfold valid_datetime, day_start, day_end, MINYEAR, MAXYEAR. cbn.
  split; repeat (apply andb_true_iff; split); try reflexivity;
    apply Z.leb_le; lia.
Qed.

(** C8.  [get_channel_messages_for_day] is
    [get_channel_messages_for_timeframe] between 00:00:00.000000 and
    23:59:59.999999 of the given day, both naive. *)
Theorem day_is_timeframe_of_bounds (w : world) (db : database)
  (channel_id : string) (date : datetime) :
  valid_datetime date = true ->
  get_channel_messages_for_day w db channel_id date
  = get_channel_messages_for_timeframe w db channel_id
      (day_start date) (day_end date).
Proof.
  intros H. destruct (valid_day_bounds date H) as [Hs He].
  unfold get_channel_messages_for_day, datetime_new.
  fold (day_start date) (day_end date). now rewrite Hs, He.
Qed.

(** C10.  Two arguments with the same year, month and day give
    [get_channel_messages_for_day] the same answer, whatever their time of
    day and [tzinfo]. *)
Theorem day_ignores_time_of_day (w : world) (db : database)
  (channel_id : string) (d1 d2 : datetime) :
  year d1 = year d2 -> month d1 = month d2 -> day d1 = day d2 ->
  get_channel_messages_for_day w db channel_id d1
  = get_channel_messages_for_day w db channel_id d2.
Proof.
  intros Hy Hm Hd. unfold get_channel_messages_for_day.
  now rewrite Hy, Hm, Hd.
Qed.

(** Where the last instant of the week exists, the week query is the
    timeframe query up to that instant. *)
Lemma week_is_timeframe (w : world) (db : database) (channel_id : string)
  (start_date end_date : datetime) :
  (span <- timedelta 6 23 59 59 999999 ;; datetime_add start_date span)%py
  = Returns end_date ->
  get_channel_messages_for_week w db channel_id start_date
  = get_channel_messages_for_timeframe w db channel_id start_date end_date.
Proof.
  unfold get_channel_messages_for_week.
  destruct (timedelta 6 23 59 59 999999) as [span|]; cbn [bind];
    [|discriminate].
  now intros ->.
Qed.

(** C5.  [get_channel_messages_for_week] adds six days to its argument
    before entering [get_channel_messages_for_timeframe], outside every
    [try]: for a week that starts on 9999-12-28 the [OverflowError] of the
    addition reaches the caller. *)
Theorem week_overflow_escapes (w : world) (db : database)
  (channel_id : string) :
  get_channel_messages_for_week w db channel_id
    (mk_datetime 9999 12 28 0 0 0 0 None)
  = Raises OverflowError.
Proof. reflexivity. Qed.

(** ** [GROUP BY] and the active channels *)

Lemma first_seen_In (l : list string) (x : string) :
  In x (first_seen l) <-> In x l.
Proof.
  induction l as [|y l IH]; simpl; [tauto|].
  rewrite filter_In, IH, negb_true_iff, String.eqb_neq.
  destruct (String.eqb_spec x y); subst; intuition congruence.
Qed.

Lemma NoDup_filter {A : Type} (p : A -> bool) (l : list A) :
  NoDup l -> NoDup (filter p l).
Proof.
  induction 1 as [|x l Hx _ IH]; simpl; [constructor|].
  destruct (p x); [|exact IH].
  constructor; [|exact IH]. now intros [H _]%filter_In.
Qed.

Lemma first_seen_NoDup (l : list string) : NoDup (first_seen l).
Proof.
  induction l as [|y l IH]; simpl; constructor.
  - intros [_ H]%filter_In. now rewrite String.eqb_refl in H.
  - now apply NoDup_filter.
Qed.

Lemma first_seen_snoc (l : list string) (x : string) :
  first_seen (l ++ [x])
  = first_seen l ++ (if existsb (String.eqb x) l then [] else [x]).
Proof.
  induction l as [|a l IH]; simpl; [reflexivity|].
  rewrite IH, filter_app. do 2 f_equal.
  destruct (String.eqb_spec x a) as [->|Hne]; simpl.
  - destruct (existsb (String.eqb a) l); simpl; [reflexivity|].
    now rewrite String.eqb_refl.
  - destruct (existsb (String.eqb x) l); simpl; [reflexivity|].
    apply String.eqb_neq in Hne. now rewrite Hne.
Qed.

Lemma existsb_eqb_In (x : string) (l : list string) :
  existsb (String.eqb x) l = true <-> In x l.
Proof.
  rewrite existsb_exists. split.
  - intros (y & Hy & E). apply String.eqb_eq in E. now subst.
  - intros H. exists x. now rewrite String.eqb_refl.
Qed.

Lemma of_channel_snoc_other (k : string) (l : list Msg.row) (r : Msg.row) :
  Msg.channel_id r <> k ->
  filter (of_channel k) (l ++ [r]) = filter (of_channel k) l.
Proof.
  intros H. rewrite filter_app. simpl. unfold of_channel at 2.
  apply String.eqb_neq in H. rewrite H. apply app_nil_r.
Qed.

Lemma of_channel_head (k : string) (l : list Msg.row) :
  In k (map Msg.channel_id l) ->
  exists r0 rest, filter (of_channel k) l = r0 :: rest
                  /\ Msg.channel_id r0 = k.
Proof.
  intros (r & E & Hr)%in_map_iff.
  assert (Hin : In r (filter (of_channel k) l)).
  { apply filter_In. split; [exact Hr|]. now apply String.eqb_eq. }
  destruct (filter (of_channel k) l) as [|r0 rest] eqn:Ef; [destruct Hin|].
  exists r0, rest. split; [reflexivity|].
  assert (H0 : In r0 (filter (of_channel k) l)) by (rewrite Ef; now left).
  apply filter_In in H0 as [_ H0]. now apply String.eqb_eq in H0.
Qed.

Lemma add_to_group_step (pre : list Msg.row) (r : Msg.row)
  (ks : list string) :
  NoDup ks -> (forall k, In k ks -> In k (map Msg.channel_id pre)) ->
  add_to_group r (map (fun k => filter (of_channel k) pre) ks)
  = map (fun k => filter (of_channel k) (pre ++ [r])) ks
    ++ (if existsb (String.eqb (Msg.channel_id r)) ks then [] else [[r]]).
Proof.
  induction 1 as [|k ks Hk Hnd IH]; intros Hsub; simpl; [reflexivity|].
  destruct (of_channel_head k pre) as (r0 & rest & E0 & Ek);
    [apply Hsub; now left|].
  rewrite E0.
  destruct (String.eqb_spec (Msg.channel_id r0) (Msg.channel_id r))
    as [E|Hne].
  - assert (Er : String.eqb (Msg.channel_id r) k = true)
      by (apply String.eqb_eq; congruence).
    assert (Hg : filter (of_channel k) (pre ++ [r]) = (r0 :: rest) ++ [r]).
    { rewrite filter_app, E0. cbn [filter]. unfold of_channel at 1.
      now rewrite Er. }
    rewrite Hg, Er. cbn [orb]. rewrite app_nil_r. f_equal.
    apply map_ext_in. intros k' Hk'. symmetry.
    apply of_channel_snoc_other. apply String.eqb_eq in Er. rewrite Er.
    intros ->. contradiction.
  - rewrite Ek in Hne.
    assert (Hne' : String.eqb (Msg.channel_id r) k = false)
      by (apply String.eqb_neq; congruence).
    rewrite Hne'. cbn [orb].
    rewrite IH by (intros; apply Hsub; now right).
    rewrite of_channel_snoc_other by congruence.
    now rewrite E0.
Qed.

Lemma group_by_channel_snoc (pre : list Msg.row) (r : Msg.row) :
  group_by_channel (pre ++ [r]) = add_to_group r (group_by_channel pre).
Proof. unfold group_by_channel. now rewrite fold_left_app. Qed.

Lemma group_by_channel_spec (rows : list Msg.row) :
  group_by_channel rows
  = map (fun k => filter (of_channel k) rows)
      (first_seen (map Msg.channel_id rows)).
Proof.
  induction rows as [|r pre IH] using rev_ind; [reflexivity|].
  rewrite group_by_channel_snoc, IH, add_to_group_step.
  - rewrite (map_app Msg.channel_id). cbn [map].
    rewrite first_seen_snoc.
    destruct (existsb (String.eqb (Msg.channel_id r))
                (first_seen (map Msg.channel_id pre))) eqn:E.
    + assert (E' : existsb (String.eqb (Msg.channel_id r))
                     (map Msg.channel_id pre) = true).
      { apply existsb_eqb_In. apply first_seen_In.
        now apply existsb_eqb_In. }
      now rewrite E', !app_nil_r.
    + assert (E' : existsb (String.eqb (Msg.channel_id r))
                     (map Msg.channel_id pre) = false).
      { apply not_true_is_false. intros H.
        apply existsb_eqb_In, first_seen_In, existsb_eqb_In in H.
        congruence. }
      rewrite E', map_app. simpl. do 2 f_equal.
      rewrite filter_app. simpl. unfold of_channel at 2.
      rewrite String.eqb_refl.
      replace (filter (of_channel (Msg.channel_id r)) pre) with (@nil Msg.row);
        [reflexivity|].
      symmetry. destruct (filter _ pre) as [|x xs] eqn:Ef; [reflexivity|].
      exfalso.
      assert (Hx : In x (filter (of_channel (Msg.channel_id r)) pre))
        by (rewrite Ef; now left).
      apply filter_In in Hx as [Hx Hc]. apply String.eqb_eq in Hc.
      assert (Hin : In (Msg.channel_id r) (map Msg.channel_id pre))
        by (rewrite <- Hc; now apply in_map).
      apply existsb_eqb_In in Hin. congruence.
  - apply first_seen_NoDup.
  - intros k. apply first_seen_In.
Qed.

Lemma aggregate_groups (rows : list Msg.row) (ks : list string) :
  (forall k, In k ks -> In k (map Msg.channel_id rows)) ->
  let out :=
    flat_map aggregate (map (fun k => filter (of_channel k) rows) ks) in
  map ActiveChannel.channel_id out = ks
  /\ forall a, In a out ->
       ActiveChannel.message_count a
       = count_rows (of_channel (ActiveChannel.channel_id a)) rows
       /\ exists r, In r rows /\ same_channel r a.
Proof.
  induction ks as [|k ks IH]; intros Hsub; cbn [map flat_map].
  - split; [reflexivity|intros a []].
  - destruct (of_channel_head k rows) as (r0 & rest & E0 & Ek);
      [apply Hsub; now left|].
    destruct IH as [IH1 IH2]; [intros; apply Hsub; now right|].
    rewrite E0. cbn [aggregate app map ActiveChannel.channel_id].
    split; [now rewrite IH1, Ek|].
    intros a [<-|Ha]; [|now apply IH2].
    cbn [ActiveChannel.message_count ActiveChannel.channel_id].
    split.
    + unfold count_rows. now rewrite Ek, E0.
    + exists r0. split; [|now repeat split].
      assert (H0 : In r0 (filter (of_channel k) rows))
        by (rewrite E0; now left).
      now apply filter_In in H0.
Qed.

Lemma StronglySorted_impl {A : Type} (R R' : A -> A -> Prop) (l : list A) :
  (forall a b, R a b -> R' a b) ->
  StronglySorted R l -> StronglySorted R' l.
Proof.
  intros HR. induction 1 as [|x l _ IH Hx]; constructor; [exact IH|].
  eapply Forall_impl; [|exact Hx]. intros b. apply HR.
Qed.

(** C6.  [get_active_channels] answers with one entry per channel that has
    a row whose [created_at] text is at or after the ISO-8601 text of
    [now - hours]; the entry carries the identity of the channel, read
    from one of those rows, and the number of those rows; the entries are
    in descending order of that number; a channel whose rows are all older
    than the cutoff has no entry. *)
Theorem active_channels_exact (w : world) (db : database) (hours : Z)
  (c : datetime) :
  (forall st, fault w st = None) ->
  minus_hours (now w) hours = Returns c ->
  let recent := filter (since (isoformat c)) (messages db) in
  exists out,
    get_active_channels w db hours = Returns out
    /\ NoDup (map ActiveChannel.channel_id out)
    /\ (forall k, In k (map ActiveChannel.channel_id out) <->
                  exists r, In r (messages db) /\ Msg.channel_id r = k
                            /\ text_le (isoformat c) (Msg.created_at r)
                               = true)
    /\ (forall a, In a out ->
          ActiveChannel.message_count a
          = count_rows (of_channel (ActiveChannel.channel_id a)) recent
          /\ exists r, In r recent /\ same_channel r a)
    /\ StronglySorted count_desc out
    /\ (forall k,
          (forall r, In r (messages db) -> Msg.channel_id r = k ->
                     text_lt (Msg.created_at r) (isoformat c) = true) ->
          ~ In k (map ActiveChannel.channel_id out)).
Proof.
  intros Hw Hc recent.
  set (ks := first_seen (map Msg.channel_id recent)).
  set (raw := flat_map aggregate
                (map (fun k => filter (of_channel k) recent) ks)).
  set (out := order_by by_message_count_desc raw).
  assert (Hperm : Permutation raw out) by apply order_by_perm.
  destruct (aggregate_groups recent ks) as [Hks Hraw];
    [intros k; apply first_seen_In|]. fold raw in Hks, Hraw.
  assert (Hids : forall k, In k (map ActiveChannel.channel_id out) <->
                   exists r, In r (messages db) /\ Msg.channel_id r = k
                             /\ text_le (isoformat c) (Msg.created_at r)
                                = true).
  { intros k.
    assert (Hk : In k (map ActiveChannel.channel_id out) <-> In k ks).
    { rewrite <- Hks.
      split; apply Permutation_in, Permutation_map;
        [symmetry|]; exact Hperm. }
    rewrite Hk. unfold ks. rewrite first_seen_In, in_map_iff.
    split.
    - intros (r & E & Hr). apply filter_In in Hr as [Hr Hs].
      exists r. now repeat split.
    - intros (r & Hr & E & Hs). exists r. split; [exact E|].
      apply filter_In. now split. }
  exists out. split; [|split; [|split; [|split; [|split]]]].
  - unfold get_active_channels.
    rewrite (minus_hours_bind (now w) hours c _ Hc). engine_ok Hw.
    cbn [bind try_read]. now rewrite group_by_channel_spec.
  - apply (Permutation_NoDup
             (Permutation_map ActiveChannel.channel_id Hperm)).
    rewrite Hks. apply first_seen_NoDup.
  - exact Hids.
  - intros a Ha. apply Hraw.
    now apply (Permutation_in _ (Permutation_sym Hperm)).
  - apply (StronglySorted_impl
             (fun a b => by_message_count_desc a b = true)).
    { intros a b. apply Z.leb_le. }
    apply order_by_sorted.
    + intros a b. unfold by_message_count_desc.
      destruct (Z.leb_spec (ActiveChannel.message_count b)
                  (ActiveChannel.message_count a)); [now left|].
      right. apply Z.leb_le. lia.
    + intros x y z. unfold by_message_count_desc.
      rewrite !Z.leb_le. lia.
  - intros k Hold Hin. apply Hids in Hin as (r & Hr & E & Hs).
    specialize (Hold r Hr E). rewrite text_lt_not_le, Hs in Hold.
    discriminate.
Qed.

(** ** The grouping loop of the range query *)

Lemma dict_mem_In (k : string) (d : channel_dict) :
  dict_mem k d = true <-> In k (map fst d).
Proof.
  unfold dict_mem. rewrite existsb_exists, in_map_iff. split.
  - intros (kv & H & E). apply String.eqb_eq in E. now exists kv.
  - intros (kv & E & H). exists kv. split; [exact H|].
    now apply String.eqb_eq.
Qed.

Lemma dict_append_at (k : string) (m : RangeMsg.t)
  (d1 d2 : channel_dict) (g : ChannelData.t) :
  ~ In k (map fst d1) ->
  dict_append k m (d1 ++ (k, g) :: d2) = d1 ++ (k, with_message g m) :: d2.
Proof.
  induction d1 as [|[k' g'] d1 IH]; intros Hk; simpl.
  - now rewrite String.eqb_refl.
  - destruct (String.eqb_spec k' k) as [->|Hne].
    + exfalso. apply Hk. now left.
    + rewrite IH; [reflexivity|]. intros H. apply Hk. now right.
Qed.

Lemma traverse_snoc {A B : Type} (f : A -> result B) (l : list A) (x : A)
  (ys : list B) (y : B) :
  traverse f l = Returns ys -> f x = Returns y ->
  traverse f (l ++ [x]) = Returns (ys ++ [y]).
Proof.
  revert ys. induction l as [|a l IH]; intros ys Hl Hx; simpl in *.
  - injection Hl as <-. now rewrite Hx.
  - destruct (f a) as [b|]; [|discriminate]. cbn [bind] in *.
    destruct (traverse f l) as [bs|]; [|discriminate]. cbn [bind] in *.
    injection Hl as <-. now rewrite (IH bs eq_refl Hx).
Qed.

Lemma of_channel_snoc_same (l : list Msg.row) (r : Msg.row) :
  filter (of_channel (Msg.channel_id r)) (l ++ [r])
  = filter (of_channel (Msg.channel_id r)) l ++ [r].
Proof.
  rewrite filter_app. simpl. unfold of_channel at 2.
  now rewrite String.eqb_refl.
Qed.

Lemma of_channel_none (k : string) (l : list Msg.row) :
  ~ In k (map Msg.channel_id l) -> filter (of_channel k) l = [].
Proof.
  intros Hk. destruct (filter (of_channel k) l) as [|x xs] eqn:E;
    [reflexivity|].
  exfalso. apply Hk.
  assert (Hx : In x (filter (of_channel k) l)) by (rewrite E; now left).
  apply filter_In in Hx as [Hx Hc]. apply String.eqb_eq in Hc.
  rewrite <- Hc. now apply in_map.
Qed.

Lemma grouped_step (pre : list Msg.row) (r : Msg.row) (d : channel_dict)
  (m : RangeMsg.t) :
  grouped pre d -> range_dict r = Returns m ->
  exists d', group_row d r = Returns d' /\ grouped (pre ++ [r]) d'.
Proof.
  intros [Hkeys Hd] Hm. unfold group_row. rewrite Hm. cbn [bind].
  set (k := Msg.channel_id r).
  assert (Hnd : NoDup (map fst d))
    by (rewrite Hkeys; apply first_seen_NoDup).
  assert (Hother : forall k' g', k' <> k -> In (k', g') d ->
            (exists r0 rest,
                filter (of_channel k') (pre ++ [r]) = r0 :: rest
                /\ named_after r0 g')
            /\ traverse range_dict (filter (of_channel k') (pre ++ [r]))
               = Returns (ChannelData.messages g')).
  { intros k' g' Hne Hin.
    rewrite of_channel_snoc_other by (fold k; congruence).
    now apply Hd. }
  destruct (dict_mem k d) eqn:Emem.
  - (* the channel already has a group *)
    apply dict_mem_In in Emem as Hin.
    apply in_map_iff in Hin as ([k0 g] & Ek & Hin). cbn in Ek. subst k0.
    apply in_split in Hin as Hsplit. destruct Hsplit as (d1 & d2 & Ed).
    rewrite Ed, map_app in Hnd. cbn [map fst] in Hnd.
    apply NoDup_remove in Hnd as [_ Hnot].
    assert (Hn1 : ~ In k (map fst d1))
      by (intros H; apply Hnot, in_or_app; now left).
    assert (Hn2 : ~ In k (map fst d2))
      by (intros H; apply Hnot, in_or_app; now right).
    exists (d1 ++ (k, with_message g m) :: d2).
    split; [now rewrite Ed, dict_append_at|]. split.
    + rewrite (map_app (@fst string ChannelData.t)). cbn [map fst].
      rewrite (map_app Msg.channel_id). cbn [map].
      rewrite first_seen_snoc. fold k.
      replace (existsb (String.eqb k) (map Msg.channel_id pre)) with true.
      * rewrite app_nil_r, <- Hkeys, Ed, map_app. reflexivity.
      * symmetry. apply existsb_eqb_In, first_seen_In.
        rewrite <- Hkeys. now apply dict_mem_In.
    + intros k' g' Hin'.
      apply in_app_or in Hin' as [Hin'|[Hin'|Hin']].
      * apply Hother.
        -- intros ->. apply Hn1. now apply (in_map fst) in Hin'.
        -- rewrite Ed. apply in_or_app. now left.
      * injection Hin' as <- <-.
        destruct (Hd k g Hin) as [(r0 & rest & E0 & Hname) Htr].
        unfold k. rewrite of_channel_snoc_same. fold k. split.
        -- exists r0, (rest ++ [r]). now rewrite E0.
        -- cbn [with_message ChannelData.messages].
           now apply traverse_snoc.
      * apply Hother.
        -- intros ->. apply Hn2. now apply (in_map fst) in Hin'.
        -- rewrite Ed. apply in_or_app. right. now right.
  - (* a new group is opened *)
    assert (Hnew : ~ In k (map fst d)).
    { intros H. apply dict_mem_In in H. congruence. }
    assert (Hpre : ~ In k (map Msg.channel_id pre)).
    { intros H. apply Hnew. rewrite Hkeys. now apply first_seen_In. }
    set (g := ChannelData.mk k (Msg.channel_name r) (Msg.guild_id r)
                (Msg.guild_name r) []).
    exists (d ++ [(k, with_message g m)]).
    split; [now rewrite dict_append_at|]. split.
    + rewrite (map_app (@fst string ChannelData.t)). cbn [map fst].
      rewrite (map_app Msg.channel_id). cbn [map].
      rewrite first_seen_snoc. fold k.
      replace (existsb (String.eqb k) (map Msg.channel_id pre)) with false.
      * now rewrite Hkeys.
      * symmetry. apply not_true_is_false. intros H.
        now apply existsb_eqb_In in H.
    + intros k' g' Hin'.
      apply in_app_or in Hin' as [Hin'|[Hin'|[]]].
      * apply Hother; [|exact Hin'].
        intros ->. apply Hnew. now apply (in_map fst) in Hin'.
      * injection Hin' as <- <-.
        unfold k. rewrite of_channel_snoc_same. fold k.
        rewrite (of_channel_none k pre Hpre). cbn [app]. split.
        -- exists r, []. split; [reflexivity|]. now repeat split.
        -- cbn. now rewrite Hm.
Qed.

Lemma group_rows_snoc (d : channel_dict) (l : list Msg.row) (r : Msg.row) :
  group_rows d (l ++ [r])
  = (d' <- group_rows d l ;; group_row d' r)%py.
Proof.
  revert d. induction l as [|a l IH]; intros d; simpl.
  - now destruct (group_row d r).
  - destruct (group_row d a) as [d1|]; cbn [bind]; [apply IH|reflexivity].
Qed.

Lemma range_dict_listed (r : Msg.row) :
  well_stamped r -> exists m, range_dict r = Returns m.
Proof.
  intros H. destruct (well_stamped_parses r H) as (t & Ht & _).
  unfold range_dict. rewrite Ht. cbn [bind]. now eexists.
Qed.

Lemma range_dict_spec (r : Msg.row) (m : RangeMsg.t) :
  range_dict r = Returns m -> listed_as r m.
Proof.
  unfold range_dict, listed_as.
  destruct (fromisoformat (Msg.created_at r)) as [t|]; [|discriminate].
  cbn [bind]. intros [= <-]. now repeat split.
Qed.

Lemma traverse_spec {A B : Type} (f : A -> result B) (P : A -> B -> Prop)
  (l : list A) (ys : list B) :
  (forall x y, f x = Returns y -> P x y) ->
  traverse f l = Returns ys -> Forall2 P l ys.
Proof.
  intros HP. revert ys. induction l as [|a l IH]; intros ys; simpl.
  - intros [= <-]. constructor.
  - destruct (f a) as [b|] eqn:Ea; [|discriminate]. cbn [bind].
    destruct (traverse f l) as [bs|]; [|discriminate]. cbn [bind].
    intros [= <-]. constructor; [now apply HP|now apply IH].
Qed.

Lemma group_rows_grouped (rows : list Msg.row) :
  Forall well_stamped rows ->
  exists d, group_rows [] rows = Returns d /\ grouped rows d.
Proof.
  induction rows as [|r pre IH] using rev_ind; intros Hst.
  - exists []. split; [reflexivity|]. split; [reflexivity|intros k g []].
  - apply Forall_app in Hst as [Hpre Hr]. inversion_clear Hr as [|? ? Hr' _].
    destruct (IH Hpre) as (d & Ed & Hg).
    destruct (range_dict_listed r Hr') as (m & Hm).
    destruct (grouped_step pre r d m Hg Hm) as (d' & Ed' & Hg').
    exists d'. split; [|exact Hg'].
    now rewrite group_rows_snoc, Ed.
Qed.

Lemma by_channel_then_created_at_spec (a b : Msg.row) :
  by_channel_then_created_at a b = true <-> channel_then_created_at_le a b.
Proof.
  unfold by_channel_then_created_at, channel_then_created_at_le.
  rewrite text_lt_spec.
  destruct (String.compare (Msg.channel_id a) (Msg.channel_id b)) eqn:E.
  - apply string_compare_eq in E. split; [now right|].
    now intros [H|[_ H]].
  - split; [now left|reflexivity].
  - split; [discriminate|]. intros [H|[H _]]; [discriminate|].
    apply string_compare_eq in H. congruence.
Qed.

Lemma by_channel_then_created_at_total (a b : Msg.row) :
  by_channel_then_created_at a b = true
  \/ by_channel_then_created_at b a = true.
Proof.
  unfold by_channel_then_created_at.
  rewrite (String.compare_antisym (Msg.channel_id a) (Msg.channel_id b)).
  destruct (String.compare (Msg.channel_id b) (Msg.channel_id a));
    cbn [CompOpp]; auto using text_le_total.
Qed.

Lemma by_channel_then_created_at_trans (a b c : Msg.row) :
  by_channel_then_created_at a b = true ->
  by_channel_then_created_at b c = true ->
  by_channel_then_created_at a c = true.
Proof.
  rewrite !by_channel_then_created_at_spec.
  unfold channel_then_created_at_le. rewrite !text_lt_spec.
  intros [H1|[E1 H1]] [H2|[E2 H2]].
  - left. eapply string_compare_lt_trans; eassumption.
  - left. now rewrite <- E2.
  - left. now rewrite E1.
  - right. split; [congruence|]. eapply text_le_trans; eassumption.
Qed.

Lemma StronglySorted_filter {A : Type} (R : A -> A -> Prop)
  (p : A -> bool) (l : list A) :
  StronglySorted R l -> StronglySorted R (filter p l).
Proof.
  induction 1 as [|x l _ IH Hx]; simpl; [constructor|].
  destruct (p x); [|exact IH]. constructor; [exact IH|].
  apply Forall_forall. intros y [Hy _]%filter_In.
  revert y Hy. now apply Forall_forall.
Qed.

Lemma StronglySorted_impl_in {A : Type} (R R' : A -> A -> Prop)
  (l : list A) :
  (forall a b, In a l -> In b l -> R a b -> R' a b) ->
  StronglySorted R l -> StronglySorted R' l.
Proof.
  intros HR Hs. induction Hs as [|x l _ IH Hx]; constructor.
  - apply IH. intros a b Ha Hb. apply HR; now right.
  - apply Forall_forall. intros y Hy. apply HR; [now left|now right|].
    revert y Hy. now apply Forall_forall.
Qed.

Lemma StronglySorted_map {A B : Type} (f : A -> B) (R : B -> B -> Prop)
  (l : list A) :
  StronglySorted (fun a b => R (f a) (f b)) l -> StronglySorted R (map f l).
Proof.
  induction 1 as [|x l _ IH Hx]; simpl; constructor; [exact IH|].
  apply Forall_forall. intros y (a & <- & Ha)%in_map_iff.
  revert a Ha. now apply Forall_forall.
Qed.

Lemma first_seen_ascending (l : list string) :
  StronglySorted (fun a b => text_le a b = true) l ->
  StronglySorted (fun a b => text_lt a b = true) (first_seen l).
Proof.
  induction 1 as [|x l _ IH Hx]; simpl; constructor.
  - now apply StronglySorted_filter.
  - apply Forall_forall. intros y [Hy Hne]%filter_In.
    rewrite first_seen_In in Hy.
    assert (Hle : text_le x y = true).
    { rewrite Forall_forall in Hx. now apply Hx. }
    apply negb_true_iff, String.eqb_neq in Hne.
    apply text_lt_spec. apply text_le_spec in Hle.
    destruct (String.compare x y) eqn:E; [|reflexivity|congruence].
    apply string_compare_eq in E. congruence.
Qed.

Lemma in_range_spec (lo hi : string) (r : Msg.row) :
  in_range lo hi r = true <->
  text_le lo (Msg.created_at r) = true
  /\ text_le (Msg.created_at r) hi = true.
Proof. unfold in_range, between. apply andb_true_iff. Qed.

(** C2.  [get_messages_for_time_range] compares the ISO-8601 texts of its
    bounds as they are, without the five-hour shift of the timeframe
    query, and groups the matching rows by channel: the keys are the
    channels in the order in which the scan, sorted by (channel_id,
    created_at), first meets them, hence ascending; each group carries the
    identity of its channel and its messages in ascending order of
    [created_at]. *)
Theorem time_range_groups (w : world) (db : database)
  (start_time end_time : datetime) :
  (forall st, fault w st = None) ->
  Forall well_stamped (messages db) ->
  let lo := isoformat start_time in
  let hi := isoformat end_time in
  exists scan d,
    get_messages_for_time_range w db start_time end_time = Returns d
    /\ Permutation scan (filter (in_range lo hi) (messages db))
    /\ (forall r, In r scan <->
                  In r (messages db)
                  /\ text_le lo (Msg.created_at r) = true
                  /\ text_le (Msg.created_at r) hi = true)
    /\ StronglySorted channel_then_created_at_le scan
    /\ map fst d = first_seen (map Msg.channel_id scan)
    /\ StronglySorted (fun a b => text_lt a b = true) (map fst d)
    /\ forall k g, In (k, g) d ->
         ChannelData.channel_id g = k
         /\ (exists r0 rest, filter (of_channel k) scan = r0 :: rest
                             /\ named_after r0 g)
         /\ Forall2 listed_as (filter (of_channel k) scan)
              (ChannelData.messages g)
         /\ StronglySorted created_at_le (filter (of_channel k) scan).
Proof.
  intros Hw Hdb lo hi.
  set (sel := filter (in_range lo hi) (messages db)).
  set (scan := order_by by_channel_then_created_at sel).
  assert (Hperm : Permutation scan sel)
    by (symmetry; apply order_by_perm).
  assert (Hin : forall r, In r scan <->
                  In r (messages db)
                  /\ text_le lo (Msg.created_at r) = true
                  /\ text_le (Msg.created_at r) hi = true).
  { intros r. rewrite <- in_range_spec, <- filter_In. fold sel.
    split; apply Permutation_in; [|symmetry]; exact Hperm. }
  assert (Hstamp : Forall well_stamped scan).
  { apply Forall_forall. intros r Hr. apply Hin in Hr as [Hr _].
    revert r Hr. now apply Forall_forall. }
  assert (Hsorted : StronglySorted channel_then_created_at_le scan).
  { apply (StronglySorted_impl
             (fun a b => by_channel_then_created_at a b = true)).
    - intros a b. apply by_channel_then_created_at_spec.
    - apply order_by_sorted.
      + apply by_channel_then_created_at_total.
      + apply by_channel_then_created_at_trans. }
  destruct (group_rows_grouped scan Hstamp) as (d & Ed & Hkeys & Hd).
  exists scan, d. split; [|split; [|split; [|split; [|split; [|split]]]]].
  - unfold get_messages_for_time_range. engine_ok Hw. cbn [bind].
    fold lo hi sel scan. now rewrite Ed.
  - exact Hperm.
  - exact Hin.
  - exact Hsorted.
  - exact Hkeys.
  - rewrite Hkeys. apply first_seen_ascending, StronglySorted_map.
    eapply StronglySorted_impl; [|exact Hsorted].
    intros a b [H|[-> _]]; [now apply text_lt_le|apply text_le_refl].
  - intros k g Hg. destruct (Hd k g Hg) as [(r0 & rest & E0 & Hname) Htr].
    split; [|split; [|split]].
    + destruct Hname as [-> _].
      assert (H0 : In r0 (filter (of_channel k) scan))
        by (rewrite E0; now left).
      apply filter_In in H0 as [_ H0]. now apply String.eqb_eq in H0.
    + now exists r0, rest.
    + eapply traverse_spec; [|exact Htr]. apply range_dict_spec.
    + apply (StronglySorted_impl_in channel_then_created_at_le).
      * intros a b [_ Ha]%filter_In [_ Hb]%filter_In.
        apply String.eqb_eq in Ha, Hb.
        intros [H|[_ H]]; [|exact H].
        apply text_lt_spec in H. rewrite Ha, Hb in H.
        now rewrite string_compare_refl in H.
      * now apply StronglySorted_filter.
Qed.

(** ** [json]: names survive the round trip *)

Local Open Scope N_scope.

Ltac nlia := zify; Z.to_euclidean_division_equations; lia.

Lemma hexval_hexdigit (d : N) : d < 16 -> hexval (hexdigit d) = Some d.
Proof.
  intros H. rewrite <- (N2Nat.id d).
  assert (Hn : (N.to_nat d < 16)%nat) by lia.
  revert Hn. generalize (N.to_nat d). intros n Hn.
  do 16 (destruct n as [|n]; [reflexivity|]). lia.
Qed.

Lemma decode_hex4 (u : N) :
  u < 65536 ->
  match hex4 u with
  | [h1; h2; h3; h4] => _decode_uXXXX h1 h2 h3 h4 = Some u
  | _ => False
  end.
Proof.
  intros H. unfold hex4, _decode_uXXXX.
  rewrite !hexval_hexdigit by (apply N.mod_lt; lia).
  f_equal. rewrite !N.shiftr_div_pow2.
  change (2 ^ 12) with 4096. change (2 ^ 8) with 256. change (2 ^ 4) with 16.
  nlia.
Qed.

Lemma scan_u_escape (u : N) (p : option N) (cur : list N)
  (done : list ustr) (rest : list ascii) :
  u < 65536 ->
  scan (InString p) cur done (u_escape u ++ rest)
  = scan (fst (after_escape u p cur)) (snd (after_escape u p cur)) done rest.
Proof.
  intros H. pose proof (decode_hex4 u H) as Hd.
  unfold u_escape. destruct (hex4 u) as [|h1 [|h2 [|h3 [|h4 [|? ?]]]]];
    try contradiction.
  cbn [app scan].
  change (N_of_ascii "\" =? 34) with false.
  change (N_of_ascii "\" =? 92) with true.
  change (N_of_ascii "u" =? 117) with true.
  cbv iota. rewrite Hd. unfold after_escape.
  destruct p as [h|].
  - destruct (is_low u); [reflexivity|]. now destruct (is_high u).
  - now destruct (is_high u).
Qed.

Lemma scan_plain (c : N) (p : option N) (cur : list N)
  (done : list ustr) (rest : list ascii) :
  32 <= c <= 126 -> c <> 34 -> c <> 92 ->
  scan (InString p) cur done (ascii_of_N c :: rest)
  = scan (InString None) (c :: flush p cur) done rest.
Proof.
  intros H H1 H2. cbn [scan]. rewrite N_ascii_embedding by lia.
  apply N.eqb_neq in H1, H2. rewrite H1, H2.
  replace (c <? 32) with false by (symmetry; apply N.ltb_ge; lia).
  reflexivity.
Qed.

Lemma scan_backslash (e ch : N) (p : option N) (cur : list N)
  (done : list ustr) (rest : list ascii) :
  e < 256 -> e <> 117 -> backslash e = Some ch ->
  scan (InString p) cur done ("\"%char :: ascii_of_N e :: rest)
  = scan (InString None) (ch :: flush p cur) done rest.
Proof.
  intros H H1 Hb. cbn [scan].
  change (N_of_ascii "\" =? 34) with false.
  change (N_of_ascii "\" =? 92) with true.
  cbv iota. rewrite N_ascii_embedding by lia.
  apply N.eqb_neq in H1. now rewrite H1, Hb.
Qed.

Lemma scan_quote (p : option N) (cur : list N) (done : list ustr)
  (rest : list ascii) :
  scan (InString p) cur done (quote :: rest)
  = scan AfterValue [] (rev (flush p cur) :: done) rest.
Proof. reflexivity. Qed.

Lemma lor_shiftl_low (a b k : N) :
  b < 2 ^ k -> N.lor (N.shiftl a k) b = a * 2 ^ k + b.
Proof.
  intros H.
  assert (Hz : N.land (N.shiftl a k) b = 0).
  { apply N.bits_inj. intros i. rewrite N.land_spec, N.bits_0.
    destruct (N.ltb_spec i k) as [Hi|Hi].
    - now rewrite N.shiftl_spec_low.
    - rewrite <- (N.mod_small b (2 ^ k)) by exact H.
      rewrite N.mod_pow2_bits_high by exact Hi. apply andb_false_r. }
  rewrite <- N.lxor_lor by exact Hz.
  rewrite <- N.add_nocarry_lxor by exact Hz.
  now rewrite N.shiftl_mul_pow2.
Qed.

Lemma surrogate_pair (c : N) :
  65536 <= c < 1114112 ->
  let n := c - 65536 in
  let s1 := N.lor 55296 (N.land (N.shiftr n 10) 1023) in
  let s2 := N.lor 56320 (N.land n 1023) in
  s1 = 55296 + n / 1024 /\ s2 = 56320 + n mod 1024.
Proof.
  intros H n s1 s2.
  assert (Hn : n < 1048576) by (unfold n; lia).
  assert (H1 : N.land (N.shiftr n 10) 1023 = n / 1024).
  { change 1023 with (N.ones 10). rewrite N.land_ones, N.shiftr_div_pow2.
    change (2 ^ 10) with 1024. apply N.mod_small.
    nlia. }
  assert (H2 : N.land n 1023 = n mod 1024).
  { change 1023 with (N.ones 10). now rewrite N.land_ones. }
  unfold s1, s2. rewrite H1, H2.
  change 55296 with (N.shiftl 54 10). change 56320 with (N.shiftl 55 10).
  rewrite !lor_shiftl_low.
  - split; reflexivity.
  - change (2 ^ 10) with 1024. apply N.mod_lt. lia.
  - change (2 ^ 10) with 1024.
    nlia.
Qed.

Ltac special e c :=
  match goal with
  | |- scan (InString ?p) ?cur ?done (_ ++ ?rest) = _ =>
      exact (scan_backslash e c p cur done rest
               ltac:(reflexivity) ltac:(discriminate) eq_refl)
  end.

Lemma scan_escape_char (c : N) (p : option N) (cur : list N)
  (done : list ustr) (rest : list ascii) :
  code_point c -> (p <> None -> is_low c = false) ->
  scan (InString p) cur done (escape_char c ++ rest)
  = scan (InString (if is_high c then Some c else None))
      (if is_high c then flush p cur else c :: flush p cur) done rest.
Proof.
  unfold code_point. intros Hc Hp. unfold escape_char.
  destruct (N.eqb_spec c 92) as [->|H92]; [special 92 92|].
  destruct (N.eqb_spec c 34) as [->|H34]; [special 34 34|].
  destruct (N.eqb_spec c 8) as [->|H8]; [special 98 8|].
  destruct (N.eqb_spec c 12) as [->|H12]; [special 102 12|].
  destruct (N.eqb_spec c 10) as [->|H10]; [special 110 10|].
  destruct (N.eqb_spec c 13) as [->|H13]; [special 114 13|].
  destruct (N.eqb_spec c 9) as [->|H9]; [special 116 9|].
  destruct ((32 <=? c) && (c <=? 126)) eqn:Hprint.
  - apply andb_true_iff in Hprint as [Hlo Hhi].
    apply N.leb_le in Hlo, Hhi. cbn [app].
    rewrite scan_plain by lia.
    replace (is_high c) with false; [reflexivity|].
    symmetry. unfold is_high. apply andb_false_iff. left.
    apply N.leb_gt. lia.
  - destruct (N.ltb_spec c 65536) as [Hbmp|Hsup].
    + rewrite scan_u_escape by exact Hbmp. unfold after_escape.
      destruct p as [h|]; cbn [flush].
      * rewrite Hp by discriminate. now destruct (is_high c).
      * now destruct (is_high c).
    + destruct (surrogate_pair c (conj Hsup Hc)) as [E1 E2].
      cbv zeta. rewrite E1, E2. clear E1 E2 Hp Hprint.
      remember (c - 65536) as n eqn:En.
      assert (Hq : n / 1024 < 1024).
      { nlia. }
      assert (Hr : n mod 1024 < 1024) by (apply N.mod_lt; lia).
      rewrite <- app_assoc.
      rewrite scan_u_escape by nlia.
      assert (A1 : after_escape (55296 + n / 1024) p cur
                   = (InString (Some (55296 + n / 1024)), flush p cur)).
      { unfold after_escape.
        replace (is_low (55296 + n / 1024)) with false
          by (symmetry; unfold is_low; apply andb_false_iff; left;
              apply N.leb_gt; lia).
        replace (is_high (55296 + n / 1024)) with true
          by (symmetry; unfold is_high; apply andb_true_iff;
              split; apply N.leb_le; nlia).
        now destruct p. }
      rewrite A1. cbn [fst snd].
      rewrite scan_u_escape by nlia.
      unfold after_escape.
      replace (is_low (56320 + n mod 1024)) with true
        by (symmetry; unfold is_low; apply andb_true_iff;
            split; apply N.leb_le; nlia).
      cbn [fst snd].
      replace (is_high c) with false
        by (symmetry; unfold is_high; apply andb_false_iff; right;
            apply N.leb_gt; lia).
      replace (55296 + n / 1024 - 55296) with (n / 1024) by nlia.
      replace (56320 + n mod 1024 - 56320) with (n mod 1024) by nlia.
      rewrite lor_shiftl_low by exact Hr.
      replace (65536 + (n / 1024 * 2 ^ 10 + n mod 1024)) with c;
        [reflexivity|].
      change (2 ^ 10) with 1024.
      nlia.
Qed.

Lemma pair_free_tail (c : N) (s : ustr) :
  pair_free (c :: s) = true -> pair_free s = true.
Proof. cbn [pair_free]. now intros [_ H]%andb_true_iff. Qed.

Lemma pair_free_head (c b : N) (s : ustr) :
  pair_free (c :: b :: s) = true -> is_high c = true -> is_low b = false.
Proof.
  cbn [pair_free]. intros [H _]%andb_true_iff Hc.
  rewrite Hc in H. now apply negb_true_iff in H.
Qed.

Lemma scan_string (s : ustr) :
  forall (p : option N) (cur : list N) (done : list ustr)
         (rest : list ascii),
    Forall code_point s -> pair_free s = true ->
    (forall b r, p <> None -> s = b :: r -> is_low b = false) ->
    scan (InString p) cur done (flat_map escape_char s ++ quote :: rest)
    = scan AfterValue [] ((rev (flush p cur) ++ s) :: done) rest.
Proof.
  induction s as [|c s IH]; intros p cur done rest Hcp Hpf Hp.
  - cbn [flat_map app]. now rewrite scan_quote, app_nil_r.
  - inversion_clear Hcp as [|? ? Hc Hs].
    cbn [flat_map]. rewrite <- app_assoc.
    rewrite scan_escape_char;
      [|exact Hc|intros Hne; now apply (Hp c s)].
    rewrite IH; [|exact Hs|now apply pair_free_tail in Hpf|].
    + do 2 f_equal. destruct (is_high c); cbn [flush rev];
        now rewrite <- app_assoc.
    + intros b r Hne ->. destruct (is_high c) eqn:Eh; [|now elim Hne].
      now apply (pair_free_head c b r).
Qed.

Lemma join_array_tail (s : ustr) (names : list ustr) :
  join (chars ", ") (map encode_basestring_ascii (s :: names)) ++ chars "]"
  = encode_basestring_ascii s ++ array_tail names.
Proof.
  revert s. induction names as [|t names IH]; intros s.
  - reflexivity.
  - change (join (chars ", ") (map encode_basestring_ascii (s :: t :: names)))
      with (encode_basestring_ascii s ++ chars ", "
            ++ join (chars ", ") (map encode_basestring_ascii (t :: names))).
    rewrite <- !app_assoc, IH. unfold array_tail. cbn [flat_map].
    now rewrite <- !app_assoc.
Qed.

Lemma scan_encoded (s : ustr) (done : list ustr) (rest : list ascii) :
  Forall code_point s -> pair_free s = true ->
  scan (InString None) [] done
    (flat_map escape_char s ++ quote :: rest)
  = scan AfterValue [] (s :: done) rest.
Proof.
  intros H1 H2. rewrite scan_string; [reflexivity|exact H1|exact H2|].
  intros b r Hne. now elim Hne.
Qed.

Lemma scan_array_tail (names : list ustr) (done : list ustr) :
  names_ok names ->
  scan AfterValue [] done (array_tail names) = Returns (rev done ++ names).
Proof.
  revert done. induction names as [|s names IH]; intros done Hok.
  - cbn. now rewrite app_nil_r.
  - inversion_clear Hok as [|? ? [H1 H2] Hrest].
    unfold array_tail. cbn [flat_map]. unfold encode_basestring_ascii.
    rewrite <- !app_assoc. cbn [chars list_ascii_of_string app].
    change (scan AfterValue [] done
              (","%char :: " "%char :: quote
               :: (flat_map escape_char s
                   ++ quote :: array_tail names))
            = Returns (rev done ++ s :: names)).
    change (scan (InString None) [] done
              (flat_map escape_char s ++ quote :: array_tail names)
            = Returns (rev done ++ s :: names)).
    rewrite scan_encoded by assumption.
    rewrite IH by exact Hrest. cbn [rev]. now rewrite <- app_assoc.
Qed.

Lemma json_encode_names (names : list ustr) :
  json_encode (PyList (map PyStr names))
  = Returns (chars "[" ++ join (chars ", ")
                            (map encode_basestring_ascii names)
             ++ chars "]").
Proof.
  cbn [json_encode].
  assert (E : (fix each (l : list pyobj) : result (list (list ascii)) :=
                 match l with
                 | [] => Returns []
                 | x :: r =>
                     (cx <- json_encode x ;; cr <- each r ;;
                      Returns (cx :: cr))%py
                 end) (map PyStr names)
              = Returns (map encode_basestring_ascii names)).
  { induction names as [|s names IH]; [reflexivity|].
    cbn [map json_encode bind]. now rewrite IH. }
  now rewrite E.
Qed.

Theorem names_round_trip (names : list ustr) :
  names_ok names ->
  exists text,
    json_dumps_names names = Returns text
    /\ json_loads_names text = Returns names.
Proof.
  intros Hok. unfold json_dumps_names, json_dumps.
  rewrite json_encode_names. cbn [bind]. eexists. split; [reflexivity|].
  unfold json_loads_names, chars at 1.
  rewrite list_ascii_of_string_of_list_ascii.
  destruct names as [|s names].
  - reflexivity.
  - rewrite join_array_tail.
    inversion_clear Hok as [|? ? [H1 H2] Hrest].
    unfold encode_basestring_ascii. rewrite <- !app_assoc.
    change (scan (InString None) [] []
              (flat_map escape_char s ++ quote :: array_tail names)
            = Returns (s :: names)).
    rewrite scan_encoded by assumption.
    now rewrite scan_array_tail.
Qed.

Local Close Scope N_scope.

(** ** Summaries: the metadata column *)

Lemma json_dumps_names_returns (names : list ustr) :
  exists text, json_dumps_names names = Returns text.
Proof.
  unfold json_dumps_names, json_dumps. rewrite json_encode_names.
  cbn [bind]. now eexists.
Qed.

(** C9.  Storing a summary with an empty [metadata] dictionary does in
    every respect what storing it without [metadata] does, whatever the
    engine does.  The call either answers [False] and leaves the database
    as it was, or answers [True] and has appended one row whose [metadata]
    column holds [NULL].  On a working engine it is the latter: the call
    answers [True], and the appended row, which is the summary that was
    passed, has a [NULL] in its [metadata] column. *)
Theorem empty_metadata_stored_as_null (w : world) (db : database)
  (channel_id channel_name : string) (date : datetime)
  (summary_text : string) (message_count : Z) (active_users : list ustr)
  (guild_id guild_name : option string) :
  let with_empty :=
    store_channel_summary w db channel_id channel_name date summary_text
      message_count active_users guild_id guild_name (Some []) in
  let without :=
    store_channel_summary w db channel_id channel_name date summary_text
      message_count active_users guild_id guild_name None in
  with_empty = without
  /\ (fst with_empty = Returns false /\ snd with_empty = db
      \/ fst with_empty = Returns true
         /\ exists row,
              channel_summaries (snd with_empty)
              = channel_summaries db ++ [row]
              /\ Summary.metadata row = None)
  /\ ((forall st, fault w st = None) ->
      fst with_empty = Returns true
      /\ exists row,
           channel_summaries (snd with_empty)
           = channel_summaries db ++ [row]
           /\ Summary.metadata row = None
           /\ Summary.channel_id row = channel_id
           /\ Summary.channel_name row = channel_name
           /\ Summary.summary_text row = summary_text
           /\ Summary.message_count row = message_count
           /\ Summary.active_users row
              = Z.of_nat (List.length active_users)).
Proof.
  cbv zeta. split; [reflexivity|].
  unfold store_channel_summary. cbn [truthy].
  destruct (json_dumps_names_returns active_users) as (t & ->).
  cbn [bind]. unfold get_connection, execute, commit, attempt.
  split.
  - destruct (fault w Connect); [now left|].
    destruct (fault w (Execute 0)); [now left|].
    destruct (fault w Commit); [now left|].
    right. cbn. split; [reflexivity|]. eexists. split; reflexivity.
  - intros Hw. rewrite (Hw Connect), (Hw (Execute 0)), (Hw Commit).
    cbn. split; [reflexivity|]. eexists. repeat split.
Qed.

(** ** The invariants of a reachable database *)

Lemma store_message_cases (w : world) (db : database)
  (message_id author_id author_name channel_id channel_name content : string)
  (created_at : datetime) (guild_id guild_name : option string)
  (is_bot is_command : bool) (command_type : option string) :
  let call :=
    store_message w db message_id author_id author_name channel_id
      channel_name content created_at guild_id guild_name is_bot is_command
      command_type in
  call = (Returns false, db)
  \/ existsb (has_id message_id) (messages db) = false
     /\ call
        = (Returns true,
           mk_database
             (messages db
              ++ [Msg.mk message_id author_id author_name channel_id
                    channel_name guild_id guild_name content
                    (isoformat created_at) (if is_bot then 1 else 0)
                    (if is_command then 1 else 0) command_type])
             (channel_summaries db) (summary_seq db)).
Proof.
  cbv zeta. unfold store_message, INSERT_MESSAGE. cbn [Msg.id].
  unfold get_connection, execute, commit, attempt.
  destruct (fault w Connect) as [[]|]; try (now left).
  destruct (fault w (Execute 0)) as [[]|]; try (now left).
  destruct (existsb (has_id message_id) (messages db)); [now left|].
  destruct (fault w Commit) as [[]|]; try (now left).
  now right.
Qed.

Lemma store_channel_summary_messages (w : world) (db : database)
  (channel_id channel_name : string) (date : datetime)
  (summary_text : string) (message_count : Z) (active_users : list ustr)
  (guild_id guild_name : option string)
  (metadata : option (list (ustr * pyobj))) :
  messages
    (snd (store_channel_summary w db channel_id channel_name date
            summary_text message_count active_users guild_id guild_name
            metadata))
  = messages db.
Proof.
  unfold store_channel_summary.
  destruct (json_dumps_names active_users); [|reflexivity]. cbn [bind].
  destruct (if truthy metadata
            then (t <- json_dumps (as_pyobj metadata) ;; Returns (Some t))%py
            else Returns None); [|reflexivity].
  cbn [bind]. unfold get_connection, execute, commit, attempt.
  destruct (fault w Connect); [reflexivity|].
  destruct (fault w (Execute 0)); [reflexivity|].
  now destruct (fault w Commit).
Qed.

Lemma delete_messages_older_than_messages (w : world) (db : database)
  (cutoff_time : datetime) :
  let db' := snd (delete_messages_older_than w db cutoff_time) in
  db' = db
  \/ messages db'
     = filter (fun r => negb (older_than (isoformat cutoff_time) r))
         (messages db).
Proof.
  cbv zeta. unfold delete_messages_older_than.
  unfold get_connection, execute, commit, attempt.
  destruct (fault w Connect); [now left|].
  destruct (fault w (Execute 0)); [now left|].
  destruct (fault w (Execute 1)); [now left|].
  destruct (fault w Commit); [now left|]. now right.
Qed.

Lemma existsb_has_id (i : string) (l : list Msg.row) :
  existsb (has_id i) l = false -> ~ In i (map Msg.id l).
Proof.
  intros H (r & E & Hr)%in_map_iff.
  assert (Ht : existsb (has_id i) l = true).
  { apply existsb_exists. exists r. split; [exact Hr|].
    now apply String.eqb_eq. }
  congruence.
Qed.

Lemma NoDup_snoc {A : Type} (l : list A) (x : A) :
  NoDup l -> ~ In x l -> NoDup (l ++ [x]).
Proof.
  intros Hl Hx. apply NoDup_app; [exact Hl|repeat constructor; intros []|].
  intros y Hy [<-|[]]. contradiction.
Qed.

Lemma unique_ids_filter (keep : Msg.row -> bool) (rows : list Msg.row) :
  NoDup (map Msg.id rows) -> NoDup (map Msg.id (filter keep rows)).
Proof.
  induction rows as [|r rows IH]; cbn [filter map]; [constructor|].
  intros H. inversion_clear H as [|? ? Hr Hrows].
  destruct (keep r); [|now apply IH].
  cbn [map]. constructor; [|now apply IH].
  intros (r' & E & Hin)%in_map_iff. apply Hr. rewrite <- E.
  apply in_map. now apply filter_In in Hin.
Qed.

(** X14.  In a database built by the operations of the module every row
    was stamped by [store_message], and no [id] occurs twice. *)
Theorem reachable_invariant (db : database) :
  reachable db ->
  Forall well_stamped (messages db) /\ NoDup (map Msg.id (messages db)).
Proof.
  induction 1 as [|w db mid aid an cid cn ct at_ gid gn ib ic cty Hv Hr IH
                  |w db cid cn dt st mc au gid gn md Hr IH
                  |w db ct Hr IH].
  - split; constructor.
  - destruct IH as [IH1 IH2].
    destruct (store_message_cases w db mid aid an cid cn ct at_ gid gn
                ib ic cty) as [E|[Hnew E]]; cbv zeta in E; rewrite E;
      cbn [snd messages]; [now split|].
    split.
    + apply Forall_app. split; [exact IH1|]. constructor; [|constructor].
      now exists at_.
    + rewrite map_app. cbn [map Msg.id].
      apply NoDup_snoc; [exact IH2|now apply existsb_has_id].
  - now rewrite store_channel_summary_messages.
  - destruct (delete_messages_older_than_messages w db ct) as [E|E];
      cbv zeta in E; rewrite E; [exact IH|].
    destruct IH as [IH1 IH2]. split.
    + apply Forall_forall. intros r [Hr' _]%filter_In.
      rewrite Forall_forall in IH1. now apply IH1.
    + now apply unique_ids_filter.
Qed.

(** ** Failures become sentinels *)

Lemma try_read_returns {A : Type} (body : result A) (sentinel : exn -> A) :
  returned (try_read body sentinel) = true.
Proof. now destruct body. Qed.




(** ** Summaries: the list of active users *)

(** C7, as amended.  When no name holds a high surrogate directly followed
    by a low surrogate, a successful [store_channel_summary] appends a row
    whose [active_users] is the length of the list and whose
    [active_users_list] text is read back by [json.loads] as the list
    itself. *)
Theorem active_users_round_trip (w : world) (db db' : database)
  (channel_id channel_name : string) (date : datetime)
  (summary_text : string) (message_count : Z) (active_users : list ustr)
  (guild_id guild_name : option string)
  (metadata : option (list (ustr * pyobj))) :
  names_ok active_users ->
  store_channel_summary w db channel_id channel_name date summary_text
    message_count active_users guild_id guild_name metadata
  = (Returns true, db') ->
  exists row,
    channel_summaries db' = channel_summaries db ++ [row]
    /\ Summary.active_users row = Z.of_nat (List.length active_users)
    /\ json_loads_names (Summary.active_users_list row)
       = Returns active_users.
Proof.
  intros Hok. destruct (names_round_trip active_users Hok) as (text & Hd & Hl).
  unfold store_channel_summary. rewrite Hd. cbn [bind].
  destruct (if truthy metadata
            then (t <- json_dumps (as_pyobj metadata) ;; Returns (Some t))%py
            else Returns None) as [mj|]; [|discriminate].
  cbn [bind]. unfold get_connection, execute, commit, attempt.
  destruct (fault w Connect); [discriminate|].
  destruct (fault w (Execute 0)); [discriminate|].
  destruct (fault w Commit); [discriminate|].
  cbn [bind try_write INSERT_CHANNEL_SUMMARY]. intros [= <-].
  eexists. split; [reflexivity|]. split; [reflexivity|exact Hl].
Qed.

(** C7 as stated fails: the one name made of the two code points U+D83D
    and U+DE00 is stored successfully, and its text is read back as the
    single code point U+1F600. *)
Lemma surrogate_pair_names_change :
  exists db' row,
    store_channel_summary sample_world empty_database "c1" "general"
      sample_day "summary" 1 [[55357; 56832]%N] None None None
    = (Returns true, db')
    /\ channel_summaries db' = [row]
    /\ Summary.active_users row = 1
    /\ json_loads_names (Summary.active_users_list row)
       = Returns [[128512%N]]
    /\ json_loads_names (Summary.active_users_list row)
       <> Returns [[55357; 56832]%N].
Proof.
  do 2 eexists. split; [reflexivity|]. cbn [channel_summaries].
  split; [reflexivity|]. split; [reflexivity|].
  split; [reflexivity|]. vm_compute. discriminate.
Qed.

Lemma active_users_round_trip_witness :
  exists row,
    channel_summaries
      (snd (store_channel_summary sample_world sample_db "c1" "general"
              sample_day "summary" 3
              [ustr_of "ann"; ustr_of "bob"; ustr_of "cy"]
              (Some "g1") (Some "guild") None))
    = [row]
    /\ Summary.active_users row = 3
    /\ json_loads_names (Summary.active_users_list row)
       = Returns [ustr_of "ann"; ustr_of "bob"; ustr_of "cy"].
Proof.
  apply (active_users_round_trip sample_world sample_db _ "c1" "general"
           sample_day "summary" 3
           [ustr_of "ann"; ustr_of "bob"; ustr_of "cy"]
           (Some "g1") (Some "guild") None).
  - repeat constructor.
  - reflexivity.
Defined.

(** ** The statements on the sample data *)

Lemma sample_stamped : Forall well_stamped (messages sample_db).
Proof.
  repeat constructor.
  - exists (mk_datetime 2024 3 10 10 0 0 0 None). now split.
  - exists (mk_datetime 2024 3 10 16 30 0 250000 None). now split.
  - exists (mk_datetime 2024 3 10 17 0 0 0 None). now split.
  - exists (mk_datetime 2024 3 8 9 0 0 0 None). now split.
Defined.

Lemma timeframe_query_exact_witness :
  exists out,
    get_channel_messages_for_timeframe sample_world sample_db "c1"
      (mk_datetime 2024 3 10 5 0 0 0 None)
      (mk_datetime 2024 3 10 12 0 0 0 None)
    = Returns out
    /\ List.length out = 2%nat.
Proof.
  destruct (timeframe_query_exact sample_world sample_db "c1"
              (mk_datetime 2024 3 10 5 0 0 0 None)
              (mk_datetime 2024 3 10 12 0 0 0 None)
              (mk_datetime 2024 3 10 10 0 0 0 None)
              (mk_datetime 2024 3 10 17 0 0 0 None))
    as (rows & out & Hget & _ & Hperm & _ & Hout).
  - intros st. reflexivity.
  - exact sample_stamped.
  - reflexivity.
  - reflexivity.
  - exists out. split; [exact Hget|].
    rewrite <- (Forall2_length Hout).
    exact (Permutation_length Hperm).
Defined.

Lemma time_range_groups_witness :
  exists d,
    get_messages_for_time_range sample_world sample_db
      (mk_datetime 2024 3 10 0 0 0 0 None)
      (mk_datetime 2024 3 10 23 59 59 0 None)
    = Returns d
    /\ map fst d = ["c1"; "c2"].
Proof.
  destruct (time_range_groups sample_world sample_db
              (mk_datetime 2024 3 10 0 0 0 0 None)
              (mk_datetime 2024 3 10 23 59 59 0 None))
    as (scan & d & Hget & _ & _ & _ & Hkeys & _).
  - intros st. reflexivity.
  - exact sample_stamped.
  - exists d. split; [exact Hget|].
    vm_compute in Hget. injection Hget as <-. reflexivity.
Defined.

Lemma store_message_unique_id_witness :
  store_message sample_world sample_db "m1" "u9" "dave" "c2" "random"
    "again" (mk_datetime 2024 3 10 17 30 0 0 None) None None false false
    None
  = (Returns false, sample_db)
  /\ fst (store_message sample_world sample_db "m5" "u9" "dave" "c2"
            "random" "fresh" (mk_datetime 2024 3 10 17 30 0 0 None) None
            None false false None)
     = Returns true.
Proof.
  split.
  - apply (proj1 (store_message_unique_id sample_world sample_db "m1" "u9"
                    "dave" "c2" "random" "again"
                    (mk_datetime 2024 3 10 17 30 0 0 None) None None false
                    false None)).
    reflexivity.
  - rewrite (proj2 (store_message_unique_id sample_world sample_db "m5"
                      "u9" "dave" "c2" "random" "fresh"
                      (mk_datetime 2024 3 10 17 30 0 0 None) None None
                      false false None)).
    + reflexivity.
    + reflexivity.
    + intros st. reflexivity.
Defined.

Lemma delete_older_than_exact_witness :
  (exists n db',
      delete_messages_older_than sample_world sample_db
        (mk_datetime 2024 3 9 0 0 0 0 None)
      = (Returns n, db')
      /\ n = 1)
  /\ delete_messages_older_than failing_world sample_db
       (mk_datetime 2024 3 9 0 0 0 0 None)
     = (Returns 0, sample_db).
Proof.
  split.
  - destruct (proj1 (delete_older_than_exact sample_world sample_db
                       (mk_datetime 2024 3 9 0 0 0 0 None)))
      as (n & db' & Hdel & _ & _ & _ & Hn & _).
    + intros st. reflexivity.
    + exists n, db'. split; [exact Hdel|exact Hn].
  - apply (proj2 (delete_older_than_exact failing_world sample_db
                    (mk_datetime 2024 3 9 0 0 0 0 None))).
    exists Commit. split; [cbn; tauto|discriminate].
Defined.

Lemma day_is_timeframe_of_bounds_witness :
  get_channel_messages_for_day sample_world sample_db "c1" sample_day
  = get_channel_messages_for_timeframe sample_world sample_db "c1"
      (mk_datetime 2024 3 10 0 0 0 0 None)
      (mk_datetime 2024 3 10 23 59 59 999999 None).
Proof.
  apply (day_is_timeframe_of_bounds sample_world sample_db "c1" sample_day).
  reflexivity.
Defined.

Lemma day_ignores_time_of_day_witness :
  get_channel_messages_for_day sample_world sample_db "c1"
    (mk_datetime 2024 3 10 0 0 0 0 None)
  = get_channel_messages_for_day sample_world sample_db "c1"
      (mk_datetime 2024 3 10 23 15 7 42 (Some 60)).
Proof.
  apply day_ignores_time_of_day; reflexivity.
Defined.

Lemma empty_metadata_stored_as_null_witness :
  fst (store_channel_summary sample_world empty_database "c1" "general"
         sample_day "summary" 2 [ustr_of "alice"; ustr_of "bot"] None None
         (Some []))
  = Returns true
  /\ exists row,
       channel_summaries
         (snd (store_channel_summary sample_world empty_database "c1"
                 "general" sample_day "summary" 2
                 [ustr_of "alice"; ustr_of "bot"] None None (Some [])))
       = [] ++ [row]
       /\ Summary.metadata row = None
       /\ Summary.channel_id row = "c1"
       /\ Summary.channel_name row = "general"
       /\ Summary.summary_text row = "summary"
       /\ Summary.message_count row = 2
       /\ Summary.active_users row = 2.
Proof.
  destruct (empty_metadata_stored_as_null sample_world empty_database "c1"
              "general" sample_day "summary" 2
              [ustr_of "alice"; ustr_of "bot"] None None)
    as (_ & _ & H).
  apply H. intros st. reflexivity.
Defined.

Lemma active_channels_exact_witness :
  exists out,
    get_active_channels sample_world sample_db 24 = Returns out
    /\ map ActiveChannel.channel_id out = ["c1"; "c2"]
    /\ map ActiveChannel.message_count out = [2; 1].
Proof.
  destruct (active_channels_exact sample_world sample_db 24
              (mk_datetime 2024 3 9 18 0 0 0 None))
    as (out & Hget & _).
  - intros st. reflexivity.
  - reflexivity.
  - exists out. split; [exact Hget|].
    vm_compute in Hget. injection Hget as <-. split; reflexivity.
Defined.

(** ** The operations on the sample data *)

Example isoformat_without_microseconds :
  isoformat (mk_datetime 2024 2 29 20 0 0 0 None) = "2024-02-29T20:00:00".
Proof. reflexivity. Qed.

Example isoformat_aware :
  isoformat (mk_datetime 2024 1 2 3 4 5 7 (Some 0))
  = "2024-01-02T03:04:05.000007+00:00".
Proof. reflexivity. Qed.

Example five_hours_later_crosses_the_month :
  plus_hours (mk_datetime 2024 2 29 20 0 0 0 None) 5
  = Returns (mk_datetime 2024 3 1 1 0 0 0 None).
Proof. reflexivity. Qed.

Example five_hours_later_overflows :
  plus_hours (mk_datetime 9999 12 31 19 0 0 0 None) 5 = Raises OverflowError.
Proof. reflexivity. Qed.

Example timeframe_on_overflow :
  get_channel_messages_for_timeframe sample_world sample_db "c1"
    (mk_datetime 2024 3 10 0 0 0 0 None)
    (mk_datetime 9999 12 31 19 0 0 0 None)
  = Returns [].
Proof. reflexivity. Qed.

Example names_as_json :
  json_dumps_names [ustr_of "a"; ustr_of "b"]
  = Returns
      (string_of_list_ascii
         (chars "[" ++ [quote] ++ chars "a" ++ [quote] ++ chars ", "
          ++ [quote] ++ chars "b" ++ [quote] ++ chars "]")).
Proof. reflexivity. Qed.

Example emoji_as_json :
  json_dumps_names [[128512%N]]
  = Returns
      (string_of_list_ascii
         (chars "[" ++ [quote] ++ chars "\ud83d\ude00" ++ [quote]
          ++ chars "]")).
Proof. reflexivity. Qed.

(** The same bounds select different rows in the two range queries: the
    window 05:00 to 12:00 is moved to 10:00 to 17:00 by the first and
    taken as it is by the second. *)
Example shift_asymmetry :
  (exists out,
      get_channel_messages_for_timeframe sample_world sample_db "c1"
        (mk_datetime 2024 3 10 5 0 0 0 None)
        (mk_datetime 2024 3 10 12 0 0 0 None)
      = Returns out
      /\ map TimeframeMsg.content out = ["hello"; "!help"])
  /\ (exists d g,
         get_messages_for_time_range sample_world sample_db
           (mk_datetime 2024 3 10 5 0 0 0 None)
           (mk_datetime 2024 3 10 12 0 0 0 None)
         = Returns d
         /\ d = [("c1", g)]
         /\ map RangeMsg.content (ChannelData.messages g) = ["hello"]).
Proof.
  split.
  - eexists. split; reflexivity.
  - do 2 eexists. split; [reflexivity|]. split; reflexivity.
Qed.

(** * Further properties *)

Lemma filter_all {A : Type} (l : list A) : filter (fun _ => true) l = l.
Proof. induction l as [|x l IH]; simpl; congruence. Qed.

Lemma get_message_count_ok (w : world) (db : database) :
  (forall st, fault w st = None) ->
  get_message_count w db = Returns (Z.of_nat (List.length (messages db))).
Proof.
  intros Hw. unfold get_message_count. engine_ok Hw. cbn [bind try_read].
  unfold count_rows. now rewrite filter_all.
Qed.

Lemma get_user_message_count_ok (w : world) (db : database) (u : string) :
  (forall st, fault w st = None) ->
  get_user_message_count w db u
  = Returns (count_rows (by_author u) (messages db)).
Proof.
  intros Hw. unfold get_user_message_count. engine_ok Hw. reflexivity.
Qed.

Lemma count_rows_snoc {A : Type} (p : A -> bool) (l : list A) (x : A) :
  count_rows p (l ++ [x]) = count_rows p l + (if p x then 1 else 0).
Proof.
  unfold count_rows. rewrite filter_app, length_app. cbn [filter].
  destruct (p x); cbn [List.length]; lia.
Qed.

(** X1.  A successful [store_message] raises the answer of
    [get_message_count] by one; one that fails leaves it as it was. *)
Theorem store_message_raises_count_by_one (w w' : world) (db : database)
  (message_id author_id author_name channel_id channel_name content : string)
  (created_at : datetime) (guild_id guild_name : option string)
  (is_bot is_command : bool) (command_type : option string) :
  (forall st, fault w' st = None) ->
  let call :=
    store_message w db message_id author_id author_name channel_id
      channel_name content created_at guild_id guild_name is_bot is_command
      command_type in
  exists n b,
    get_message_count w' db = Returns n
    /\ fst call = Returns b
    /\ get_message_count w' (snd call) = Returns (if b then n + 1 else n).
Proof.
  intros Hw'. cbv zeta.
  destruct (store_message_cases w db message_id author_id author_name
              channel_id channel_name content created_at guild_id
              guild_name is_bot is_command command_type) as [E|[_ E]];
    cbv zeta in E; rewrite E; cbn [fst snd];
    rewrite !get_message_count_ok by exact Hw'.
  - exists (Z.of_nat (List.length (messages db))), false. now repeat split.
  - exists (Z.of_nat (List.length (messages db))), true.
    repeat split. cbn [messages]. rewrite length_app. cbn [List.length].
    f_equal. lia.
Qed.

(** X2.  A successful [store_message] raises the answer of
    [get_user_message_count] by one for the author of the message and
    leaves it for every other user; one that fails leaves every count. *)
Theorem store_message_counts_for_its_author (w w' : world) (db : database)
  (message_id author_id author_name channel_id channel_name content : string)
  (created_at : datetime) (guild_id guild_name : option string)
  (is_bot is_command : bool) (command_type : option string)
  (user_id : string) :
  (forall st, fault w' st = None) ->
  let call :=
    store_message w db message_id author_id author_name channel_id
      channel_name content created_at guild_id guild_name is_bot is_command
      command_type in
  exists n b,
    get_user_message_count w' db user_id = Returns n
    /\ fst call = Returns b
    /\ get_user_message_count w' (snd call) user_id
       = Returns (if b && String.eqb author_id user_id then n + 1 else n).
Proof.
  intros Hw'. cbv zeta.
  destruct (store_message_cases w db message_id author_id author_name
              channel_id channel_name content created_at guild_id
              guild_name is_bot is_command command_type) as [E|[_ E]];
    cbv zeta in E; rewrite E; cbn [fst snd];
    rewrite !get_user_message_count_ok by exact Hw'.
  - exists (count_rows (by_author user_id) (messages db)), false.
    now repeat split.
  - exists (count_rows (by_author user_id) (messages db)), true.
    repeat split. cbn [messages andb]. rewrite count_rows_snoc.
    unfold by_author at 2. cbn [Msg.author_id].
    now destruct (String.eqb author_id user_id); rewrite ?Z.add_0_r.
Qed.

Lemma total_app (a b : list Z) : total (a ++ b) = total a + total b.
Proof. induction a as [|x a IH]; simpl; lia. Qed.

Lemma total_perm (a b : list Z) : Permutation a b -> total a = total b.
Proof. induction 1; simpl; lia. Qed.

Lemma total_indicator (a : string) (ks : list string) :
  NoDup ks -> In a ks ->
  total (map (fun k => if String.eqb a k then 1 else 0) ks) = 1.
Proof.
  induction 1 as [|k ks Hk Hnd IH]; intros Hin; [destruct Hin|].
  cbn [map total fold_right]. fold (total (map (fun k0 => if String.eqb a k0 then 1 else 0) ks)).
  destruct (String.eqb_spec a k) as [->|Hne].
  - assert (Hz : total (map (fun k0 => if String.eqb k k0 then 1 else 0) ks) = 0).
    { clear IH Hin Hnd. induction ks as [|k' ks IH]; [reflexivity|].
      cbn [map total fold_right].
      fold (total (map (fun k0 => if String.eqb k k0 then 1 else 0) ks)).
      destruct (String.eqb_spec k k') as [->|_].
      - exfalso. apply Hk. now left.
      - rewrite IH; [lia|]. intros H. apply Hk. now right. }
    lia.
  - destruct Hin as [->|Hin]; [congruence|]. rewrite IH by exact Hin. lia.
Qed.

Lemma partition_total {A : Type} (key : A -> string) (l : list A)
  (ks : list string) :
  NoDup ks -> (forall x, In x l -> In (key x) ks) ->
  total (map (fun k => count_rows (fun x => String.eqb (key x) k) l) ks)
  = Z.of_nat (List.length l).
Proof.
  intros Hnd. induction l as [|x l IH]; intros Hsub.
  - clear Hsub Hnd. induction ks as [|k ks IHk]; [reflexivity|].
    cbn [map]. unfold total in *. cbn [fold_right]. now rewrite IHk.
  - assert (E : map (fun k => count_rows (fun y => String.eqb (key y) k) (x :: l)) ks
              = map (fun k => (if String.eqb (key x) k then 1 else 0)
                              + count_rows (fun y => String.eqb (key y) k) l) ks).
    { apply map_ext. intros k. unfold count_rows. cbn [filter].
      destruct (String.eqb (key x) k); cbn [List.length]; lia. }
    rewrite E.
    assert (S : forall (f g : string -> Z) (ks : list string),
               total (map (fun k => f k + g k) ks)
               = total (map f ks) + total (map g ks)).
    { intros f g ks0. unfold total.
      induction ks0 as [|k ks0 IH0]; cbn [map fold_right]; [reflexivity|].
      rewrite IH0. lia. }
    rewrite S, IH by (intros y Hy; apply Hsub; now right).
    rewrite total_indicator; [|exact Hnd|apply Hsub; now left].
    cbn [List.length]. lia.
Qed.

Lemma count_rows_bounds {A : Type} (p : A -> bool) (l : list A) :
  0 <= count_rows p l <= Z.of_nat (List.length l).
Proof.
  unfold count_rows. pose proof (filter_length_le p l). lia.
Qed.

(** X3.  Over a list without repetition that holds every author, the
    answers of [get_user_message_count] add up to the answer of
    [get_message_count], and none exceeds it. *)
Theorem user_counts_sum_to_total (w : world) (db : database)
  (users : list string) :
  (forall st, fault w st = None) ->
  NoDup users ->
  (forall r, In r (messages db) -> In (Msg.author_id r) users) ->
  exists n counts,
    get_message_count w db = Returns n
    /\ traverse (get_user_message_count w db) users = Returns counts
    /\ total counts = n
    /\ Forall (fun k => 0 <= k <= n) counts.
Proof.
  intros Hw Hnd Hcover.
  exists (Z.of_nat (List.length (messages db))),
         (map (fun u => count_rows (by_author u) (messages db)) users).
  split; [now apply get_message_count_ok|]. split; [|split].
  - clear Hnd Hcover. induction users as [|u users IH]; [reflexivity|].
    cbn [traverse map]. rewrite get_user_message_count_ok by exact Hw.
    cbn [bind]. now rewrite IH.
  - exact (partition_total Msg.author_id (messages db) users Hnd Hcover).
  - apply Forall_forall. intros k (u & <- & _)%in_map_iff.
    apply count_rows_bounds.
Qed.

(** X4.  On a working engine the message counts that
    [get_active_channels] reports add up to the number of rows whose
    [created_at] text is at or after the text of [now - hours], and each
    reported count is at least one. *)
Theorem active_channel_counts_sum_to_window (w : world) (db : database)
  (hours : Z) (c : datetime) :
  (forall st, fault w st = None) ->
  minus_hours (now w) hours = Returns c ->
  exists out,
    get_active_channels w db hours = Returns out
    /\ total (map ActiveChannel.message_count out)
       = count_rows (since (isoformat c)) (messages db)
    /\ Forall (fun a => 1 <= ActiveChannel.message_count a) out.
Proof.
  intros Hw Hc.
  set (recent := filter (since (isoformat c)) (messages db)).
  set (ks := first_seen (map Msg.channel_id recent)).
  set (raw := flat_map aggregate
                (map (fun k => filter (of_channel k) recent) ks)).
  destruct (aggregate_groups recent ks) as [Hks Hraw];
    [intros k; apply first_seen_In|]. fold raw in Hks, Hraw.
  assert (Hperm : Permutation raw (order_by by_message_count_desc raw))
    by apply order_by_perm.
  exists (order_by by_message_count_desc raw). split; [|split].
  - unfold get_active_channels.
    rewrite (minus_hours_bind (now w) hours c _ Hc). engine_ok Hw.
    cbn [bind try_read]. now rewrite group_by_channel_spec.
  - rewrite <- (total_perm _ _ (Permutation_map _ Hperm)).
    assert (E : map ActiveChannel.message_count raw
                = map (fun k => count_rows (of_channel k) recent) ks).
    { rewrite <- Hks, map_map. apply map_ext_in. intros a Ha.
      now apply Hraw. }
    rewrite E.
    exact (partition_total Msg.channel_id recent ks (first_seen_NoDup _)
             (fun r Hr => proj2 (first_seen_In _ _) (in_map _ _ _ Hr))).
  - apply Forall_forall. intros a Ha.
    apply (Permutation_in _ (Permutation_sym Hperm)) in Ha.
    destruct (Hraw a Ha) as [-> (r & Hr & Hsame & _)].
    unfold count_rows.
    assert (Hin : In r (filter (of_channel (ActiveChannel.channel_id a)) recent)).
    { apply filter_In. split; [exact Hr|]. unfold of_channel.
      apply String.eqb_eq. congruence. }
    destruct (filter _ recent); [destruct Hin|]. cbn [List.length]. lia.
Qed.

Lemma days_before_year_mono (y : Z) :
  1 <= y -> 0 <= _days_before_year y /\
  (y <= 9998 -> _days_before_year y <= 3651329).
Proof.
  intros H. unfold _days_before_year.
  split; [|intros H']; Z.to_euclidean_division_equations; lia.
Qed.

Lemma month_end_9999 (m : Z) :
  1 <= m <= 11 ->
  _days_before_month 9999 m + _days_in_month 9999 m <= 334.
Proof.
  intros H.
  assert (Hc : In m [1;2;3;4;5;6;7;8;9;10;11]) by (cbn; lia).
  assert (Hall : forallb
                   (fun k => _days_before_month 9999 k
                             + _days_in_month 9999 k <=? 334)
                   [1;2;3;4;5;6;7;8;9;10;11] = true) by reflexivity.
  rewrite forallb_forall in Hall. apply Z.leb_le. now apply Hall.
Qed.

Lemma toordinal_range (d : datetime) :
  valid_datetime d = true ->
  1 <= toordinal d
  /\ (year d <= 9998 -> toordinal d <= 3651695)
  /\ (year d = 9999 -> month d <= 11 -> toordinal d <= 3652028)
  /\ (year d = 9999 -> month d = 12 -> toordinal d = 3652028 + day d).
Proof.
  intros Hv.
  apply valid_datetime_spec in Hv as (Hy & Hm & Hd & _).
  pose proof (days_in_month_le (year d) (month d)) as Hdim.
  pose proof (days_before_month_bounds (year d) (month d) Hm) as Hdbm.
  pose proof (days_before_year_mono (year d) ltac:(lia)) as [Hy0 Hy1].
  unfold toordinal, _ymd2ord.
  split; [lia|]. split; [intros; specialize (Hy1 ltac:(lia)); lia|].
  split.
  - intros E Hm11. rewrite E in *.
    change (_days_before_year 9999) with 3651694.
    pose proof (month_end_9999 (month d) ltac:(lia)). lia.
  - intros E Em. rewrite E, Em. reflexivity.
Qed.

Lemma time_of_day_range (d : datetime) :
  valid_datetime d = true -> 0 <= time_of_day d < US_PER_DAY.
Proof.
  intros Hv.
  apply valid_datetime_spec in Hv as (_ & _ & _ & Hh & Hn & Hs & Hu & _).
  unfold time_of_day, US_PER_DAY, US_PER_SECOND. lia.
Qed.

(** [datetime.__add__] succeeds exactly when the sum stays within the
    calendar. *)
Lemma datetime_add_returns (d : datetime) (td : Z) :
  returned (datetime_add d td)
  = (US_PER_DAY <=? instant d + td)
    && (instant d + td <? (_MAXORDINAL + 1) * US_PER_DAY).
Proof.
  unfold datetime_add.
  set (total := ((toordinal d * 24 + hour d) * 60 + minute d) * 60
                * US_PER_SECOND + second d * US_PER_SECOND
                + microsecond d + td).
  assert (E : instant d + td = total).
  { unfold instant, time_of_day, total, US_PER_DAY, US_PER_SECOND. lia. }
  rewrite E.
  assert (Hb : (0 <? total / US_PER_DAY) && (total / US_PER_DAY <=? _MAXORDINAL)
               = (US_PER_DAY <=? total)
                 && (total <? (_MAXORDINAL + 1) * US_PER_DAY)).
  { unfold US_PER_DAY, US_PER_SECOND, _MAXORDINAL.
    apply eq_true_iff_eq.
    rewrite !andb_true_iff, Z.ltb_lt, !Z.leb_le, Z.ltb_lt.
    Z.to_euclidean_division_equations. lia. }
  rewrite <- Hb.
  destruct ((0 <? total / US_PER_DAY) && (total / US_PER_DAY <=? _MAXORDINAL));
    [|reflexivity].
  now destruct (_ord2ymd (total / US_PER_DAY)) as [[y m] dd].
Qed.

Lemma returned_bind_try_read {A B : Type} (r : result A)
  (k : A -> result B) (s : exn -> B) :
  returned (x <- r ;; try_read (k x) s)%py = returned r.
Proof. destruct r as [a|e]; [apply try_read_returns|reflexivity]. Qed.

(** X5.  [get_channel_messages_for_week] raises [OverflowError] exactly
    when its argument lies after 9999-12-25T00:00:00, the last start of a
    week that ends within the calendar; for every other valid argument it
    returns. *)
Theorem week_raises_only_in_last_week (w : world) (db : database)
  (channel_id : string) (start_date : datetime) :
  valid_datetime start_date = true ->
  (if after_last_full_week start_date
   then get_channel_messages_for_week w db channel_id start_date
        = Raises OverflowError
   else returned (get_channel_messages_for_week w db channel_id start_date)
        = true).
Proof.
  intros Hv.
  pose proof (toordinal_range start_date Hv) as (Ho1 & Ho2 & Ho3 & Ho4).
  pose proof (time_of_day_range start_date Hv) as Ht.
  apply valid_datetime_spec in Hv as (Hy & Hm & Hd & _).
  unfold get_channel_messages_for_week.
  change (timedelta 6 23 59 59 999999) with (Returns 604799999999).
  cbn [bind].
  pose proof (datetime_add_returns start_date 604799999999) as Hr.
  unfold instant, US_PER_DAY, US_PER_SECOND, _MAXORDINAL in Hr, Ht.
  unfold after_last_full_week.
  destruct (Z.eqb_spec (year start_date) 9999) as [Ey|Ny]; cbn [andb].
  - destruct (Z.eqb_spec (month start_date) 12) as [Em|Nm]; cbn [andb].
    + specialize (Ho4 Ey Em).
      destruct ((26 <=? day start_date)
                || ((day start_date =? 25) && (0 <? time_of_day start_date)))
        eqn:Elate.
      * assert (Hf : returned (datetime_add start_date 604799999999) = false).
        { rewrite Hr. apply andb_false_iff. right. apply Z.ltb_ge.
          apply orb_true_iff in Elate as [H|H].
          - apply Z.leb_le in H. lia.
          - apply andb_true_iff in H as [H1 H2].
            apply Z.eqb_eq in H1. apply Z.ltb_lt in H2. lia. }
        unfold datetime_add in *.
        destruct ((0 <? _) && (_ <=? _MAXORDINAL)); [|reflexivity].
        now destruct (_ord2ymd _) as [[y m] dd].
      * assert (Ht' : returned (datetime_add start_date 604799999999) = true).
        { rewrite Hr. apply orb_false_iff in Elate as [H1 H2].
          apply Z.leb_gt in H1.
          apply andb_true_iff. split; [apply Z.leb_le; lia|].
          apply Z.ltb_lt.
          apply andb_false_iff in H2 as [H2|H2].
          - apply Z.eqb_neq in H2. lia.
          - apply Z.ltb_ge in H2. lia. }
        destruct (datetime_add start_date 604799999999) as [e|];
          [apply try_read_returns|discriminate].
    + assert (Ht' : returned (datetime_add start_date 604799999999) = true).
      { rewrite Hr. specialize (Ho3 Ey ltac:(lia)).
        apply andb_true_iff. split; [apply Z.leb_le|apply Z.ltb_lt]; lia. }
      destruct (datetime_add start_date 604799999999) as [e|];
        [apply try_read_returns|discriminate].
  - assert (Ht' : returned (datetime_add start_date 604799999999) = true).
    { rewrite Hr. specialize (Ho2 ltac:(lia)).
      apply andb_true_iff. split; [apply Z.leb_le|apply Z.ltb_lt]; lia. }
    destruct (datetime_add start_date 604799999999) as [e|];
      [apply try_read_returns|discriminate].
Qed.

Lemma raises_of_not_returned {A : Type} (r : result A) :
  returned r = false -> exists e, r = Raises e.
Proof. destruct r as [a|e]; [discriminate|now exists e]. Qed.

(** A window that reaches outside the calendar yields no channel. *)
Theorem active_channels_window_outside_calendar (w : world) (db : database)
  (hours : Z) :
  instant (now w) - hours * 3600 * US_PER_SECOND < US_PER_DAY
  \/ (_MAXORDINAL + 1) * US_PER_DAY
     <= instant (now w) - hours * 3600 * US_PER_SECOND ->
  get_active_channels w db hours = Returns [].
Proof.
  intros Hout. unfold get_active_channels, timedelta.
  destruct (Z.abs _ <=? 999999999); [|reflexivity]. cbn [bind].
  assert (Hr : returned (datetime_sub (now w)
                           ((((0 * 24 + hours) * 60 + 0) * 60 + 0)
                            * US_PER_SECOND + 0)) = false).
  { unfold datetime_sub. rewrite datetime_add_returns.
    replace (- ((((0 * 24 + hours) * 60 + 0) * 60 + 0) * US_PER_SECOND + 0))
      with (- (hours * 3600 * US_PER_SECOND)) by lia.
    apply andb_false_iff.
    destruct Hout as [H|H]; [left; apply Z.leb_gt|right; apply Z.ltb_ge]; lia. }
  apply raises_of_not_returned in Hr as [e ->]. reflexivity.
Qed.

(** X6.  When [start + 5 h] or [end + 5 h] lies beyond the year 9999
    the timeframe query answers with the empty list: the [OverflowError]
    of the shift is caught. *)
Theorem timeframe_outside_calendar (w : world) (db : database)
  (channel_id : string) (start_date end_date : datetime) :
  (_MAXORDINAL + 1) * US_PER_DAY <= instant start_date + 5 * 3600 * US_PER_SECOND
  \/ (_MAXORDINAL + 1) * US_PER_DAY
     <= instant end_date + 5 * 3600 * US_PER_SECOND ->
  get_channel_messages_for_timeframe w db channel_id start_date end_date
  = Returns [].
Proof.
  intros Hout. unfold get_channel_messages_for_timeframe.
  change (timedelta 0 5 0 0 0) with (Returns (5 * 3600 * US_PER_SECOND)).
  cbn [bind].
  destruct Hout as [H|H].
  - assert (Hr : returned (datetime_add start_date (5 * 3600 * US_PER_SECOND))
                 = false).
    { rewrite datetime_add_returns. apply andb_false_iff. right.
      now apply Z.ltb_ge. }
    apply raises_of_not_returned in Hr as [e ->]. reflexivity.
  - destruct (datetime_add start_date (5 * 3600 * US_PER_SECOND)) as [s|];
      [|reflexivity]. cbn [bind].
    assert (Hr : returned (datetime_add end_date (5 * 3600 * US_PER_SECOND))
                 = false).
    { rewrite datetime_add_returns. apply andb_false_iff. right.
      now apply Z.ltb_ge. }
    apply raises_of_not_returned in Hr as [e ->]. reflexivity.
Qed.

Lemma py_bool_flag (b : bool) : py_bool (if b then 1 else 0) = b.
Proof. now destruct b. Qed.

Lemma Forall2_In_l {A B : Type} (R : A -> B -> Prop) (l : list A)
  (l' : list B) (x : A) :
  Forall2 R l l' -> In x l -> exists y, In y l' /\ R x y.
Proof.
  induction 1 as [|a b l l' Hab _ IH]; intros Hin; [destruct Hin|].
  destruct Hin as [<-|Hin].
  - exists b. split; [now left|exact Hab].
  - destruct (IH Hin) as (y & Hy & Hxy). exists y. split; [now right|exact Hxy].
Qed.

(** X7.  A message stored under a new id, with a stamp whose text lies
    between the texts of [start + 5 h] and [end + 5 h], is among the
    messages that the timeframe query then shows for its channel, with its
    author name, content, stamp and flags. *)
Theorem stored_message_is_shown (w w' : world) (db : database)
  (message_id author_id author_name channel_id channel_name content : string)
  (created_at : datetime) (guild_id guild_name : option string)
  (is_bot is_command : bool) (command_type : option string)
  (start_date end_date s e : datetime) :
  (forall st, fault w st = None) ->
  (forall st, fault w' st = None) ->
  Forall well_stamped (messages db) ->
  existsb (has_id message_id) (messages db) = false ->
  valid_datetime created_at = true ->
  plus_hours start_date 5 = Returns s ->
  plus_hours end_date 5 = Returns e ->
  text_le (isoformat s) (isoformat created_at) = true ->
  text_le (isoformat created_at) (isoformat e) = true ->
  let db' :=
    snd (store_message w db message_id author_id author_name channel_id
           channel_name content created_at guild_id guild_name is_bot
           is_command command_type) in
  exists out,
    get_channel_messages_for_timeframe w' db' channel_id start_date end_date
    = Returns out
    /\ In (TimeframeMsg.mk author_name content created_at is_bot is_command)
         out.
Proof.
  intros Hw Hw' Hdb Hnew Hv Hs He Hlo Hhi db'.
  set (row := Msg.mk message_id author_id author_name channel_id
                channel_name guild_id guild_name content
                (isoformat created_at) (if is_bot then 1 else 0)
                (if is_command then 1 else 0) command_type).
  assert (Edb : messages db' = messages db ++ [row]).
  { unfold db', store_message, INSERT_MESSAGE. cbn [Msg.id].
    rewrite Hnew. engine_ok Hw. reflexivity. }
  set (sel := filter (in_timeframe channel_id (isoformat s) (isoformat e))
                (messages db')).
  set (rows := order_by by_created_at sel).
  assert (Hperm : Permutation sel rows) by apply order_by_perm.
  assert (Hrow : In row rows).
  { apply (Permutation_in _ Hperm), filter_In. split.
    - rewrite Edb. apply in_or_app. right. now left.
    - apply in_timeframe_spec. now repeat split. }
  assert (Hstamp : Forall well_stamped rows).
  { apply Forall_forall. intros r Hr.
    apply (Permutation_in _ (Permutation_sym Hperm)), filter_In in Hr
      as [Hr _].
    rewrite Edb in Hr. apply in_app_or in Hr as [Hr|[<-|[]]].
    - rewrite Forall_forall in Hdb. now apply Hdb.
    - now exists created_at. }
  destruct (traverse_Forall2 timeframe_dict shown_as rows) as (out & Ho & Hout).
  { eapply Forall_impl; [|exact Hstamp]. apply timeframe_dict_shown. }
  exists out. split.
  - unfold get_channel_messages_for_timeframe.
    rewrite (plus_hours_bind start_date 5 s _ Hs).
    rewrite (plus_hours_bind end_date 5 e _ He).
    engine_ok Hw'. cbn [bind]. fold sel rows. now rewrite Ho.
  - destruct (Forall2_In_l _ _ _ _ Hout Hrow) as (m & Hm & Hshown).
    destruct Hshown as (H1 & H2 & H3 & H4 & H5).
    unfold row in H1, H2, H3, H4, H5.
    cbn [Msg.author_name Msg.content Msg.created_at Msg.is_bot
         Msg.is_command] in *.
    rewrite fromisoformat_isoformat in H3 by exact Hv.
    injection H3 as H3. rewrite py_bool_flag in H4, H5.
    destruct m as [a c t b1 b2]. cbn in *. now subst.
Qed.

Lemma delete_ok (w : world) (db : database) (cutoff_time : datetime) :
  (forall st, fault w st = None) ->
  delete_messages_older_than w db cutoff_time
  = (Returns (count_rows (older_than (isoformat cutoff_time)) (messages db)),
     mk_database
       (filter (fun r => negb (older_than (isoformat cutoff_time) r))
          (messages db))
       (channel_summaries db) (summary_seq db)).
Proof.
  intros Hw. unfold delete_messages_older_than. engine_ok Hw. reflexivity.
Qed.

Lemma filter_filter_weaker {A : Type} (p q : A -> bool) (l : list A) :
  (forall x, q x = true -> p x = true) ->
  filter q (filter p l) = filter q l.
Proof.
  intros H. induction l as [|x l IH]; simpl; [reflexivity|].
  destruct (p x) eqn:Ep; simpl; rewrite IH; [reflexivity|].
  destruct (q x) eqn:Eq; [|reflexivity].
  apply H in Eq. congruence.
Qed.

(** X8.  Pruning with a cutoff and then with a later one leaves the rows
    that pruning once with the later one leaves, and the two numbers
    reported add up to the one. *)
Theorem pruning_twice_is_pruning_once (w1 w2 w : world) (db : database)
  (c1 c2 : datetime) :
  (forall st, fault w1 st = None) ->
  (forall st, fault w2 st = None) ->
  (forall st, fault w st = None) ->
  text_le (isoformat c1) (isoformat c2) = true ->
  let db1 := snd (delete_messages_older_than w1 db c1) in
  let n1 := fst (delete_messages_older_than w1 db c1) in
  let db2 := snd (delete_messages_older_than w2 db1 c2) in
  let n2 := fst (delete_messages_older_than w2 db1 c2) in
  db2 = snd (delete_messages_older_than w db c2)
  /\ exists k1 k2 k,
       n1 = Returns k1 /\ n2 = Returns k2
       /\ fst (delete_messages_older_than w db c2) = Returns k
       /\ k1 + k2 = k.
Proof.
  intros H1 H2 H Hle. cbv zeta.
  rewrite (delete_ok w1 db c1 H1). cbn [fst snd].
  rewrite (delete_ok w2 _ c2 H2), (delete_ok w db c2 H).
  cbn [fst snd messages channel_summaries summary_seq].
  assert (Hweak : forall r,
             negb (older_than (isoformat c2) r) = true ->
             negb (older_than (isoformat c1) r) = true).
  { intros r. unfold older_than. rewrite !text_lt_not_le, !negb_involutive.
    intros Hr. now apply (text_le_trans _ (isoformat c2)). }
  split.
  - f_equal. now apply filter_filter_weaker.
  - do 3 eexists. repeat split. unfold count_rows.
    pose proof (filter_length_split (older_than (isoformat c1)) (messages db))
      as L1.
    pose proof (filter_length_split (older_than (isoformat c2)) (messages db))
      as L2.
    pose proof (filter_length_split (older_than (isoformat c2))
                  (filter (fun r => negb (older_than (isoformat c1) r))
                     (messages db))) as L3.
    rewrite (filter_filter_weaker _ _ _ Hweak) in L3. lia.
Qed.

(** X9.  The answer of [get_message_count] after a pruning is the answer
    before it less the number that the pruning reported. *)
Theorem pruning_lowers_count_by_reported (w w' : world) (db : database)
  (cutoff_time : datetime) :
  (forall st, fault w' st = None) ->
  exists n k,
    fst (delete_messages_older_than w db cutoff_time) = Returns k
    /\ get_message_count w' db = Returns n
    /\ get_message_count w'
         (snd (delete_messages_older_than w db cutoff_time))
       = Returns (n - k)
    /\ 0 <= k <= n.
Proof.
  intros Hw'.
  assert (Hc : forall d, get_message_count w' d
                         = Returns (Z.of_nat (List.length (messages d)))).
  { intros d. unfold get_message_count. engine_ok Hw'. cbn [bind try_read].
    unfold count_rows. f_equal. f_equal. f_equal.
    induction (messages d) as [|x l IH]; simpl; congruence. }
  rewrite !Hc.
  unfold delete_messages_older_than, get_connection, execute, commit, attempt.
  destruct (fault w Connect);
    [exists (Z.of_nat (List.length (messages db))), 0; cbn;
     repeat split; try f_equal; lia|].
  destruct (fault w (Execute 0));
    [exists (Z.of_nat (List.length (messages db))), 0; cbn;
     repeat split; try f_equal; lia|].
  destruct (fault w (Execute 1));
    [exists (Z.of_nat (List.length (messages db))), 0; cbn;
     repeat split; try f_equal; lia|].
  destruct (fault w Commit);
    [exists (Z.of_nat (List.length (messages db))), 0; cbn;
     repeat split; try f_equal; lia|].
  cbn [bind try_write fst snd messages].
  exists (Z.of_nat (List.length (messages db))),
         (count_rows (older_than (isoformat cutoff_time)) (messages db)).
  pose proof (filter_length_split (older_than (isoformat cutoff_time))
                (messages db)) as L.
  unfold count_rows. repeat split; try f_equal; lia.
Qed.

Lemma Forall2_In_r {A B : Type} (R : A -> B -> Prop) (l : list A)
  (l' : list B) (y : B) :
  Forall2 R l l' -> In y l' -> exists x, In x l /\ R x y.
Proof.
  induction 1 as [|a b l l' Hab _ IH]; intros Hin; [destruct Hin|].
  destruct Hin as [<-|Hin].
  - exists a. split; [now left|exact Hab].
  - destruct (IH Hin) as (x & Hx & Hxy). exists x. split; [now right|exact Hxy].
Qed.

(** X10.  After a pruning that succeeded, the timeframe query shows no
    message stamped before the cutoff. *)
Theorem pruned_messages_are_not_shown (w w' : world) (db : database)
  (cutoff_time : datetime) (channel_id : string)
  (start_date end_date : datetime) :
  (forall st, fault w st = None) ->
  Forall well_stamped (messages db) ->
  let db' := snd (delete_messages_older_than w db cutoff_time) in
  exists out,
    get_channel_messages_for_timeframe w' db' channel_id start_date end_date
    = Returns out
    /\ Forall (fun m => text_lt (isoformat (TimeframeMsg.created_at m))
                          (isoformat cutoff_time) = false) out.
Proof.
  intros Hw Hdb db'.
  assert (Edb : messages db'
                = filter (fun r => negb (older_than (isoformat cutoff_time) r))
                    (messages db)).
  { unfold db'. now rewrite (delete_ok w db cutoff_time Hw). }
  unfold get_channel_messages_for_timeframe.
  destruct (timedelta 0 5 0 0 0) as [span|];
    [|exists []; split; [reflexivity|constructor]]. cbn [bind].
  destruct (datetime_add start_date span) as [s|];
    [|exists []; split; [reflexivity|constructor]]. cbn [bind].
  destruct (datetime_add end_date span) as [e|];
    [|exists []; split; [reflexivity|constructor]]. cbn [bind].
  unfold get_connection, execute, attempt.
  destruct (fault w' Connect);
    [exists []; split; [reflexivity|constructor]|]. cbn [bind].
  destruct (fault w' (Execute 0));
    [exists []; split; [reflexivity|constructor]|]. cbn [bind].
  set (rows := order_by by_created_at
                 (filter (in_timeframe channel_id (isoformat s) (isoformat e))
                    (messages db'))).
  assert (Hrows : forall r, In r rows ->
            well_stamped r
            /\ text_lt (Msg.created_at r) (isoformat cutoff_time) = false).
  { intros r Hr.
    apply (Permutation_in _ (Permutation_sym (order_by_perm _ _))) in Hr.
    apply filter_In in Hr as [Hr _]. rewrite Edb in Hr.
    apply filter_In in Hr as [Hr Hold]. split.
    - rewrite Forall_forall in Hdb. now apply Hdb.
    - now apply negb_true_iff in Hold. }
  destruct (traverse_Forall2 timeframe_dict shown_as rows) as (out & Ho & Hout).
  { apply Forall_forall. intros r Hr. apply timeframe_dict_shown.
    now apply Hrows. }
  exists out. rewrite Ho. split; [reflexivity|].
  apply Forall_forall. intros m Hm.
  destruct (Forall2_In_r _ _ _ _ Hout Hm) as (r & Hr & Hshown).
  destruct (Hrows r Hr) as [(d & Hv & Ed) Hold].
  destruct Hshown as (_ & _ & Hparse & _).
  rewrite Ed, (fromisoformat_isoformat d Hv) in Hparse.
  injection Hparse as <-. now rewrite <- Ed.
Qed.

(** Bounds in the wrong order select nothing. *)
Theorem timeframe_reversed_bounds (w : world) (db : database)
  (channel_id : string) (start_date end_date s e : datetime) :
  plus_hours start_date 5 = Returns s ->
  plus_hours end_date 5 = Returns e ->
  text_lt (isoformat e) (isoformat s) = true ->
  get_channel_messages_for_timeframe w db channel_id start_date end_date
  = Returns [].
Proof.
  intros Hs He Hrev. unfold get_channel_messages_for_timeframe.
  rewrite (plus_hours_bind start_date 5 s _ Hs).
  rewrite (plus_hours_bind end_date 5 e _ He).
  unfold get_connection, execute, attempt.
  destruct (fault w Connect); [reflexivity|]. cbn [bind].
  destruct (fault w (Execute 0)); [reflexivity|]. cbn [bind].
  replace (filter (in_timeframe channel_id (isoformat s) (isoformat e))
             (messages db)) with (@nil Msg.row); [reflexivity|].
  symmetry. induction (messages db) as [|r l IH]; [reflexivity|].
  cbn [filter]. rewrite IH.
  destruct (in_timeframe channel_id (isoformat s) (isoformat e) r) eqn:E;
    [|reflexivity].
  apply in_timeframe_spec in E as (_ & Hlo & Hhi).
  pose proof (text_le_trans _ _ _ Hlo Hhi) as Hle.
  rewrite text_lt_not_le, Hle in Hrev. discriminate.
Qed.

Lemma json_encode_dict_unserialisable (kv : list (ustr * pyobj)) (k : ustr) :
  In (k, PyObject) kv -> exists e, json_encode (PyDict kv) = Raises e.
Proof.
  intros Hin. cbn [json_encode].
  assert (E : exists e,
             (fix each (kv : list (ustr * pyobj))
                : result (list (list ascii)) :=
                match kv with
                | [] => Returns []
                | (k, v) :: r =>
                    (cv <- json_encode v ;; cr <- each r ;;
                     Returns ((encode_basestring_ascii k ++ chars ": " ++ cv)
                              :: cr))%py
                end) kv = Raises e).
  { induction kv as [|[k' v] kv IH]; [destruct Hin|].
    destruct Hin as [[= -> ->]|Hin].
    - now exists TypeError.
    - destruct (json_encode v) as [cv|e]; [|now exists e]. cbn [bind].
      destruct (IH Hin) as (e & ->). now exists e. }
  destruct E as (e & ->). now exists e.
Qed.

(** X11.  Metadata holding a value that [json.dumps] cannot serialise
    makes [store_channel_summary] answer [False] and store nothing. *)
Theorem unserialisable_metadata_is_refused (w : world) (db : database)
  (channel_id channel_name : string) (date : datetime)
  (summary_text : string) (message_count : Z) (active_users : list ustr)
  (guild_id guild_name : option string)
  (kv : list (ustr * pyobj)) (k : ustr) :
  In (k, PyObject) kv ->
  store_channel_summary w db channel_id channel_name date summary_text
    message_count active_users guild_id guild_name (Some kv)
  = (Returns false, db).
Proof.
  intros Hin. unfold store_channel_summary.
  destruct (json_dumps_names active_users); [|reflexivity]. cbn [bind].
  assert (Ht : truthy (Some kv) = true) by (destruct kv; [destruct Hin|reflexivity]).
  rewrite Ht. unfold json_dumps. cbn [as_pyobj].
  destruct (json_encode_dict_unserialisable kv k Hin) as (e & ->).
  reflexivity.
Qed.

Lemma store_channel_summary_cases (w : world) (db : database)
  (channel_id channel_name : string) (date : datetime)
  (summary_text : string) (message_count : Z) (active_users : list ustr)
  (guild_id guild_name : option string)
  (metadata : option (list (ustr * pyobj))) :
  let call :=
    store_channel_summary w db channel_id channel_name date summary_text
      message_count active_users guild_id guild_name metadata in
  call = (Returns false, db)
  \/ exists row,
       call
       = (Returns true,
          mk_database (messages db) (channel_summaries db ++ [row])
            (summary_seq db + 1))
       /\ Summary.id row = summary_seq db + 1
       /\ Summary.channel_id row = channel_id
       /\ Summary.date row = strftime_ymd date
       /\ Summary.summary_text row = summary_text
       /\ Summary.message_count row = message_count
       /\ Summary.active_users row = Z.of_nat (List.length active_users)
       /\ Summary.created_at row = isoformat (now w).
Proof.
  cbv zeta. unfold store_channel_summary.
  destruct (json_dumps_names active_users) as [t|]; [|now left].
  cbn [bind].
  destruct (if truthy metadata
            then (t <- json_dumps (as_pyobj metadata) ;; Returns (Some t))%py
            else Returns None) as [mj|]; [|now left].
  cbn [bind]. unfold get_connection, execute, commit, attempt.
  destruct (fault w Connect); [now left|].
  destruct (fault w (Execute 0)); [now left|].
  destruct (fault w Commit); [now left|].
  right. eexists. split; [reflexivity|]. now repeat split.
Qed.

(** X12.  In a database built by the operations of the module the
    summaries carry the ids 1, 2, 3, ... in the order of their insertion,
    and the AUTOINCREMENT counter is their number. *)
Theorem summaries_are_numbered_in_order (db : database) :
  reachable db ->
  consecutive_from_one (map Summary.id (channel_summaries db))
  /\ summary_seq db = Z.of_nat (List.length (channel_summaries db)).
Proof.
  unfold consecutive_from_one.
  induction 1 as [|w db mid aid an cid cn ct at_ gid gn ib ic cty Hv Hr IH
                  |w db cid cn dt st mc au gid gn md Hr IH
                  |w db ct Hr IH].
  - split; reflexivity.
  - destruct (store_message_cases w db mid aid an cid cn ct at_ gid gn
                ib ic cty) as [E|[_ E]]; cbv zeta in E; rewrite E; exact IH.
  - destruct IH as [IH1 IH2].
    destruct (store_channel_summary_cases w db cid cn dt st mc au gid gn md)
      as [E|(row & E & Hid & _)]; cbv zeta in E; rewrite E;
      cbn [snd channel_summaries summary_seq]; [now split|].
    rewrite !length_map in *. split.
    + rewrite map_app, length_app. cbn [map List.length].
      rewrite Nat.add_comm. cbn [Nat.add]. rewrite seq_S, map_app.
      cbn [map]. rewrite <- IH1. f_equal. f_equal. rewrite Hid, IH2. lia.
    + rewrite length_app. cbn [List.length]. lia.
  - unfold delete_messages_older_than, get_connection, execute, commit,
      attempt.
    destruct (fault w Connect); [exact IH|].
    destruct (fault w (Execute 0)); [exact IH|].
    destruct (fault w (Execute 1)); [exact IH|].
    destruct (fault w Commit); exact IH.
Qed.

(** X13.  A [store_message] or a [store_channel_summary] that answers
    [False], and a [delete_messages_older_than] that answers 0, leave the
    database as it was. *)
Theorem reported_failure_changes_nothing (w : world) (db : database) :
  (forall mid aid an cid cn ct at_ gid gn ib ic cty,
      fst (store_message w db mid aid an cid cn ct at_ gid gn ib ic cty)
      = Returns false ->
      snd (store_message w db mid aid an cid cn ct at_ gid gn ib ic cty)
      = db)
  /\ (forall cid cn dt st mc au gid gn md,
        fst (store_channel_summary w db cid cn dt st mc au gid gn md)
        = Returns false ->
        snd (store_channel_summary w db cid cn dt st mc au gid gn md) = db)
  /\ (forall c,
        fst (delete_messages_older_than w db c) = Returns 0 ->
        snd (delete_messages_older_than w db c) = db).
Proof.
  split; [|split].
  - intros mid aid an cid cn ct at_ gid gn ib ic cty.
    destruct (store_message_cases w db mid aid an cid cn ct at_ gid gn
                ib ic cty) as [E|[_ E]]; cbv zeta in E; rewrite E;
      [reflexivity|discriminate].
  - intros cid cn dt st mc au gid gn md.
    destruct (store_channel_summary_cases w db cid cn dt st mc au gid gn md)
      as [E|(row & E & _)]; cbv zeta in E; rewrite E;
      [reflexivity|discriminate].
  - intros c. unfold delete_messages_older_than, get_connection, execute,
      commit, attempt.
    destruct (fault w Connect); [reflexivity|].
    destruct (fault w (Execute 0)); [reflexivity|].
    destruct (fault w (Execute 1)); [reflexivity|].
    destruct (fault w Commit); [reflexivity|].
    cbn [bind try_write fst snd]. intros [= Hn].
    unfold count_rows in Hn.
    assert (Hnone : filter (older_than (isoformat c)) (messages db) = [])
      by (destruct (filter _ (messages db)); [reflexivity|discriminate]).
    assert (Hall : filter (fun r => negb (older_than (isoformat c) r))
                     (messages db) = messages db).
    { induction (messages db) as [|r l IH]; [reflexivity|].
      cbn [filter] in *. destruct (older_than (isoformat c) r);
        [discriminate|]. cbn [negb]. now rewrite IH. }
    rewrite Hall. now destruct db.
Qed.

(** Each write touches its own table only, and never rewrites a row. *)
Theorem writes_keep_the_other_rows (w : world) (db : database) :
  (forall mid aid an cid cn ct at_ gid gn ib ic cty,
      let db' :=
        snd (store_message w db mid aid an cid cn ct at_ gid gn ib ic cty) in
      channel_summaries db' = channel_summaries db
      /\ summary_seq db' = summary_seq db
      /\ exists added, messages db' = messages db ++ added
                       /\ (List.length added <= 1)%nat)
  /\ (forall cid cn dt st mc au gid gn md,
        let db' :=
          snd (store_channel_summary w db cid cn dt st mc au gid gn md) in
        messages db' = messages db
        /\ exists added,
             channel_summaries db' = channel_summaries db ++ added
             /\ (List.length added <= 1)%nat)
  /\ (forall c,
        let db' := snd (delete_messages_older_than w db c) in
        channel_summaries db' = channel_summaries db
        /\ summary_seq db' = summary_seq db
        /\ exists keep, messages db' = filter keep (messages db)).
Proof.
  split; [|split]; cbv zeta.
  - intros mid aid an cid cn ct at_ gid gn ib ic cty.
    destruct (store_message_cases w db mid aid an cid cn ct at_ gid gn
                ib ic cty) as [E|[_ E]]; cbv zeta in E; rewrite E;
      cbn [snd messages channel_summaries summary_seq];
      repeat split; eexists.
    + split; [symmetry; apply app_nil_r|]. cbn. lia.
    + split; [reflexivity|]. cbn. lia.
  - intros cid cn dt st mc au gid gn md.
    destruct (store_channel_summary_cases w db cid cn dt st mc au gid gn md)
      as [E|(row & E & _)]; cbv zeta in E; rewrite E;
      cbn [snd messages channel_summaries]; split; try reflexivity;
      eexists.
    + split; [symmetry; apply app_nil_r|]. cbn. lia.
    + split; [reflexivity|]. cbn. lia.
  - intros c. unfold delete_messages_older_than, get_connection, execute,
      commit, attempt.
    assert (Hid : exists keep : Msg.row -> bool,
               messages db = filter keep (messages db)).
    { exists (fun _ => true).
      induction (messages db) as [|r l IH]; simpl; congruence. }
    destruct (fault w Connect); [now repeat split|].
    destruct (fault w (Execute 0)); [now repeat split|].
    destruct (fault w (Execute 1)); [now repeat split|].
    destruct (fault w Commit); [now repeat split|].
    cbn. repeat split. now eexists.
Qed.

Lemma naive_stamped_well (r : Msg.row) : naive_stamped r -> well_stamped r.
Proof. intros (d & Hv & _ & E). now exists d. Qed.

Lemma Forall2_sorted {A B : Type} (P : A -> B -> Prop)
  (R : A -> A -> Prop) (R' : B -> B -> Prop) (l : list A) (l' : list B) :
  (forall a b a' b', In a l -> In b l -> P a a' -> P b b' -> R a b ->
                     R' a' b') ->
  Forall2 P l l' -> StronglySorted R l -> StronglySorted R' l'.
Proof.
  intros H F. induction F as [|a a' l l' Haa F IH]; intros S;
    [constructor|].
  apply StronglySorted_inv in S as [S Ha].
  constructor.
  - apply IH; [|exact S]. intros x y x' y' Hx Hy. apply H; now right.
  - apply Forall_forall. intros b' Hb'.
    destruct (Forall2_In_r _ _ _ _ F Hb') as (b & Hb & Pb).
    apply (H a b a' b'); [now left|now right|exact Haa|exact Pb|].
    rewrite Forall_forall in Ha. now apply Ha.
Qed.

(** X17.  Over naive stamps the timeframe query answers in the order of
    time: no message is shown before one with an earlier stamp. *)
Theorem timeframe_is_chronological (w : world) (db : database)
  (channel_id : string) (start_date end_date : datetime) :
  Forall naive_stamped (messages db) ->
  exists out,
    get_channel_messages_for_timeframe w db channel_id start_date end_date
    = Returns out
    /\ StronglySorted
         (fun a b => not_after (TimeframeMsg.created_at a)
                       (TimeframeMsg.created_at b)) out.
Proof.
  intros Hdb.
  unfold get_channel_messages_for_timeframe.
  destruct (timedelta 0 5 0 0 0) as [span|];
    [|exists []; split; [reflexivity|constructor]]. cbn [bind].
  destruct (datetime_add start_date span) as [s|];
    [|exists []; split; [reflexivity|constructor]]. cbn [bind].
  destruct (datetime_add end_date span) as [e|];
    [|exists []; split; [reflexivity|constructor]]. cbn [bind].
  unfold get_connection, execute, attempt.
  destruct (fault w Connect);
    [exists []; split; [reflexivity|constructor]|]. cbn [bind].
  destruct (fault w (Execute 0));
    [exists []; split; [reflexivity|constructor]|]. cbn [bind].
  set (rows := order_by by_created_at
                 (filter (in_timeframe channel_id (isoformat s) (isoformat e))
                    (messages db))).
  assert (Hrows : forall r, In r rows -> naive_stamped r).
  { intros r Hr.
    apply (Permutation_in _ (Permutation_sym (order_by_perm _ _))) in Hr.
    apply filter_In in Hr as [Hr _].
    rewrite Forall_forall in Hdb. now apply Hdb. }
  destruct (traverse_Forall2 timeframe_dict shown_as rows) as (out & Ho & Hout).
  { apply Forall_forall. intros r Hr. apply timeframe_dict_shown.
    now apply naive_stamped_well, Hrows. }
  exists out. rewrite Ho. split; [reflexivity|].
  apply (Forall2_sorted shown_as
           (fun a b => by_created_at a b = true) _ rows out);
    [|exact Hout|apply order_by_sorted;
                 [intros a b; apply text_le_total
                 |intros a b c; apply text_le_trans]].
  intros a b a' b' Ha Hb (_ & _ & Pa & _) (_ & _ & Pb & _) Hle.
  destruct (Hrows a Ha) as (da & Va & Ta & Ea).
  destruct (Hrows b Hb) as (d_b & Vb & Tb & Eb).
  rewrite Ea, (fromisoformat_isoformat da Va) in Pa. injection Pa as <-.
  rewrite Eb, (fromisoformat_isoformat d_b Vb) in Pb. injection Pb as <-.
  unfold by_created_at in Hle. rewrite Ea, Eb in Hle.
  now apply text_le_naive.
Qed.

Lemma month_and_day_spec (leapyear : bool) (n : Z) :
  0 <= n <= 364 + (if leapyear then 1 else 0) ->
  month_and_day_ok leapyear n = true.
Proof.
  intros H.
  assert (Hall : forallb (fun k => month_and_day_ok true k
                                   && (month_and_day_ok false k
                                       || (k =? 365)))
                   (map Z.of_nat (seq 0 366)) = true)
    by (vm_compute; reflexivity).
  rewrite forallb_forall in Hall.
  specialize (Hall n).
  assert (Hin : In n (map Z.of_nat (seq 0 366))).
  { apply in_map_iff. exists (Z.to_nat n). split; [lia|].
    apply in_seq. destruct leapyear; lia. }
  apply Hall in Hin. apply andb_true_iff in Hin as [Ht Hf].
  destruct leapyear; [exact Ht|].
  apply orb_true_iff in Hf as [Hf|Hf]; [exact Hf|]. lia.
Qed.

Lemma ord2ymd_unfold (n : Z) :
  _ord2ymd n =
  let n0 := n - 1 in
  let n400 := n0 / 146097 in
  let r400 := n0 mod 146097 in
  let n100 := r400 / 36524 in
  let r100 := r400 mod 36524 in
  let n4 := r100 / 1461 in
  let r4 := r100 mod 1461 in
  let n1 := r4 / 365 in
  let r1 := r4 mod 365 in
  let y := n400 * 400 + 1 + (n100 * 100 + n4 * 4 + n1) in
  if (n1 =? 4) || (n100 =? 4) then (y - 1, 12, 31)
  else
    let '(m, d) :=
      month_and_day ((n1 =? 3) && (negb (n4 =? 24) || (n100 =? 3))) r1 in
    (y, m, d).
Proof.
  unfold _ord2ymd, month_and_day.
  change _DI400Y with 146097. change _DI100Y with 36524.
  change _DI4Y with 1461. cbv zeta.
  destruct ((_ =? 4) || (_ =? 4)); [reflexivity|].
  match goal with |- context [if ?c then _ else _] => destruct c end;
    reflexivity.
Qed.

Lemma is_leap_spec (n400 n100 n4 n1 : Z) :
  0 <= n100 <= 3 -> 0 <= n4 <= 24 -> 0 <= n1 <= 3 ->
  _is_leap (n400 * 400 + 1 + (n100 * 100 + n4 * 4 + n1))
  = (n1 =? 3) && (negb (n4 =? 24) || (n100 =? 3)).
Proof.
  intros H100 H4 H1. unfold _is_leap.
  apply eq_true_iff_eq.
  rewrite !andb_true_iff, !orb_true_iff, !negb_true_iff, !Z.eqb_eq,
    !Z.eqb_neq.
  Z.to_euclidean_division_equations. lia.
Qed.

(** [_ord2ymd] inverts [_ymd2ord] and yields a date of the calendar. *)
Lemma ord2ymd_spec (n : Z) :
  1 <= n ->
  let '(y, m, d) := _ord2ymd n in
  _ymd2ord y m d = n
  /\ 1 <= y /\ (n <= _MAXORDINAL -> y <= 9999)
  /\ 1 <= m <= 12 /\ 1 <= d <= _days_in_month y m.
Proof.
  intros Hn. rewrite ord2ymd_unfold. cbv zeta.
  set (n0 := n - 1).
  set (n400 := n0 / 146097). set (r400 := n0 mod 146097).
  set (n100 := r400 / 36524). set (r100 := r400 mod 36524).
  set (n4 := r100 / 1461). set (r4 := r100 mod 1461).
  set (n1 := r4 / 365). set (r1 := r4 mod 365).
  assert (H400 : n0 = 146097 * n400 + r400 /\ 0 <= r400 < 146097)
    by (unfold n400, r400; Z.to_euclidean_division_equations; lia).
  assert (H100 : r400 = 36524 * n100 + r100 /\ 0 <= r100 < 36524)
    by (unfold n100, r100; Z.to_euclidean_division_equations; lia).
  assert (H4 : r100 = 1461 * n4 + r4 /\ 0 <= r4 < 1461)
    by (unfold n4, r4; Z.to_euclidean_division_equations; lia).
  assert (H1 : r4 = 365 * n1 + r1 /\ 0 <= r1 < 365)
    by (unfold n1, r1; Z.to_euclidean_division_equations; lia).
  assert (En0 : n0 = n - 1) by reflexivity.
  clearbody n0 n400 r400 n100 r100 n4 r4 n1 r1.
  assert (Hn0 : 0 <= n400) by lia.
  destruct ((n1 =? 4) || (n100 =? 4)) eqn:Hlast.
  - assert (Hy : exists k,
               n400 * 400 + 1 + (n100 * 100 + n4 * 4 + n1) - 1 = 4 * k
               /\ 1 <= k
               /\ (k mod 25 <> 0 \/ k mod 100 = 0)
               /\ n = 1461 * k - (k - 1) / 25 + (k - 1) / 100
               /\ (n <= _MAXORDINAL -> 4 * k <= 9999)).
    { apply orb_true_iff in Hlast as [E|E]; apply Z.eqb_eq in E.
      - exists (n400 * 100 + n100 * 25 + n4 + 1).
        unfold _MAXORDINAL. repeat split; try lia;
          Z.to_euclidean_division_equations; lia.
      - exists (n400 * 100 + 100).
        unfold _MAXORDINAL. repeat split; try lia;
          Z.to_euclidean_division_equations; lia. }
    destruct Hy as (k & -> & Hk & Hleap & En & Hmax).
    assert (Hl : _is_leap (4 * k) = true).
    { unfold _is_leap. rewrite andb_true_iff, orb_true_iff, negb_true_iff,
        !Z.eqb_eq, Z.eqb_neq. Z.to_euclidean_division_equations. lia. }
    unfold _ymd2ord, _days_before_month, _days_in_month, _days_before_year.
    rewrite Hl. cbv zeta.
    change (_DAYS_BEFORE_MONTH 12) with 334.
    change ((2 <? 12) && true) with true.
    change ((12 =? 2) && true) with false.
    change (_DAYS_IN_MONTH 12) with 31.
    repeat split; try lia. Z.to_euclidean_division_equations. lia.
  - apply orb_false_iff in Hlast as [E1 E100].
    apply Z.eqb_neq in E1, E100.
    assert (B100 : 0 <= n100 <= 3) by lia.
    assert (B4 : 0 <= n4 <= 24) by lia.
    assert (B1 : 0 <= n1 <= 3) by lia.
    rewrite <- (is_leap_spec n400 n100 n4 n1 B100 B4 B1).
    set (y := n400 * 400 + 1 + (n100 * 100 + n4 * 4 + n1)).
    pose proof (month_and_day_spec (_is_leap y) r1
                  ltac:(destruct (_is_leap y); lia)) as Hmd.
    unfold month_and_day_ok in Hmd.
    destruct (month_and_day (_is_leap y) r1) as [m d].
    repeat (apply andb_true_iff in Hmd as [Hmd ?]).
    repeat match goal with
           | E : (_ <=? _) = true |- _ => apply Z.leb_le in E
           | E : (_ =? _) = true |- _ => apply Z.eqb_eq in E
           end.
    assert (Ey : _days_before_year y = n0 - r1).
    { unfold _days_before_year, y. cbv zeta.
      Z.to_euclidean_division_equations. lia. }
    assert (Edim : _days_in_month y m
                   = _DAYS_IN_MONTH m
                     + (if (m =? 2) && _is_leap y then 1 else 0)).
    { unfold _days_in_month.
      destruct ((m =? 2) && _is_leap y) eqn:E; [|lia].
      apply andb_true_iff in E as [E _]. apply Z.eqb_eq in E. now subst m. }
    unfold _ymd2ord, _days_before_month. rewrite Ey, Edim.
    assert (By : 1 <= y /\ (n <= _MAXORDINAL -> y <= 9999))
      by (unfold _MAXORDINAL, y; lia).
    clearbody y. repeat split; lia.
Qed.

Lemma valid_datetime_intro (d : datetime) :
  1 <= year d <= 9999 -> 1 <= month d <= 12 ->
  1 <= day d <= _days_in_month (year d) (month d) ->
  0 <= hour d <= 23 -> 0 <= minute d <= 59 -> 0 <= second d <= 59 ->
  0 <= microsecond d <= 999999 ->
  match tzinfo d with
  | None => True
  | Some off => -1440 < off < 1440
  end ->
  valid_datetime d = true.
Proof.
  intros Hy Hm Hd Hh Hn Hs Hu Ht. unfold valid_datetime, MINYEAR, MAXYEAR.
  repeat (apply andb_true_iff; split); try (apply Z.leb_le; lia).
  destruct (tzinfo d); [|reflexivity].
  apply andb_true_iff. split; apply Z.ltb_lt; lia.
Qed.

(** [datetime.__add__] moves the instant by the [timedelta], keeps the
    [tzinfo] and yields a value the constructor accepts. *)
Lemma datetime_add_instant (d d' : datetime) (td : Z) :
  valid_datetime d = true ->
  datetime_add d td = Returns d' ->
  valid_datetime d' = true
  /\ instant d' = instant d + td
  /\ tzinfo d' = tzinfo d.
Proof.
  intros Hv. unfold datetime_add.
  set (total := ((toordinal d * 24 + hour d) * 60 + minute d) * 60
                * US_PER_SECOND + second d * US_PER_SECOND
                + microsecond d + td).
  assert (E : instant d + td = total).
  { unfold instant, time_of_day, total, US_PER_DAY, US_PER_SECOND. lia. }
  rewrite E. clearbody total.
  destruct ((0 <? total / US_PER_DAY) && (total / US_PER_DAY <=? _MAXORDINAL))
    eqn:Hr; [|discriminate].
  apply andb_true_iff in Hr as [H0 H1].
  apply Z.ltb_lt in H0. apply Z.leb_le in H1.
  pose proof (ord2ymd_spec (total / US_PER_DAY) ltac:(lia)) as Hs.
  destruct (_ord2ymd (total / US_PER_DAY)) as [[y m] dd].
  destruct Hs as (Eo & Hy1 & Hy2 & Hm & Hd).
  specialize (Hy2 H1).
  intros [= <-].
  apply valid_datetime_spec in Hv as (_ & _ & _ & _ & _ & _ & _ & Ht).
  split; [|split; [|reflexivity]].
  - apply valid_datetime_intro; cbn [year month day hour minute second
                                       microsecond tzinfo];
      try assumption; try lia;
      unfold US_PER_DAY, US_PER_SECOND;
      Z.to_euclidean_division_equations; lia.
  - unfold instant, toordinal, time_of_day.
    cbn [year month day hour minute second microsecond].
    rewrite Eo. unfold US_PER_DAY, US_PER_SECOND.
    Z.to_euclidean_division_equations. lia.
Qed.

Lemma year_length (y : Z) :
  _days_before_year (y + 1)
  = _days_before_year y + 365 + (if _is_leap y then 1 else 0).
Proof.
  unfold _days_before_year, _is_leap. cbv zeta.
  destruct (y mod 4 =? 0) eqn:E4; destruct (y mod 100 =? 0) eqn:E100;
    destruct (y mod 400 =? 0) eqn:E400; cbn [andb orb negb];
    rewrite ?Z.eqb_eq, ?Z.eqb_neq in *;
    Z.to_euclidean_division_equations; lia.
Qed.

Lemma days_before_year_le (a b : Z) :
  a <= b -> _days_before_year a <= _days_before_year b.
Proof.
  intros H. unfold _days_before_year. cbv zeta.
  Z.to_euclidean_division_equations. lia.
Qed.

Lemma months_In (m : Z) : 1 <= m <= 12 -> In m months.
Proof. intros H. unfold months. cbn. lia. Qed.

Lemma month_fits (y m d : Z) :
  1 <= m <= 12 -> d <= _days_in_month y m ->
  _days_before_month y m + d <= 365 + (if _is_leap y then 1 else 0).
Proof.
  intros Hm Hd. unfold _days_before_month, _days_in_month in *.
  assert (Hall : forallb (fun leap => forallb (fun a =>
             _DAYS_BEFORE_MONTH a
             + (if (2 <? a) && leap then 1 else 0)
             + (if (a =? 2) && leap then 29 else _DAYS_IN_MONTH a)
             <=? 365 + (if leap then 1 else 0))
             months) [true; false] = true) by reflexivity.
  rewrite forallb_forall in Hall.
  specialize (Hall (_is_leap y)
                ltac:(destruct (_is_leap y); cbn; tauto)).
  rewrite forallb_forall in Hall.
  specialize (Hall m (months_In m Hm)).
  apply Z.leb_le in Hall. lia.
Qed.

Lemma month_before (y m m' d : Z) :
  1 <= m -> m < m' -> m' <= 12 -> d <= _days_in_month y m ->
  _days_before_month y m + d <= _days_before_month y m'.
Proof.
  intros H1 H2 H3 Hd.
  unfold _days_before_month, _days_in_month in *.
  assert (Hall : forallb (fun leap => forallb (fun a => forallb (fun b =>
             (b <=? a)
             || (_DAYS_BEFORE_MONTH a
                 + (if (2 <? a) && leap then 1 else 0)
                 + (if (a =? 2) && leap then 29 else _DAYS_IN_MONTH a)
                 <=? _DAYS_BEFORE_MONTH b
                     + (if (2 <? b) && leap then 1 else 0)))
             months) months) [true; false] = true) by reflexivity.
  rewrite forallb_forall in Hall.
  specialize (Hall (_is_leap y)
                ltac:(destruct (_is_leap y); cbn; tauto)).
  rewrite forallb_forall in Hall.
  specialize (Hall m (months_In m ltac:(lia))).
  rewrite forallb_forall in Hall.
  specialize (Hall m' (months_In m' ltac:(lia))).
  apply orb_true_iff in Hall as [Hall|Hall];
    [apply Z.leb_le in Hall; lia|].
  apply Z.leb_le in Hall. lia.
Qed.

Lemma toordinal_lt (d1 d2 : datetime) :
  valid_datetime d1 = true -> valid_datetime d2 = true ->
  year d1 < year d2
  \/ year d1 = year d2
     /\ (month d1 < month d2
         \/ month d1 = month d2 /\ day d1 < day d2) ->
  toordinal d1 < toordinal d2.
Proof.
  intros H1 H2 Hlt.
  apply valid_datetime_spec in H1 as (Hy1 & Hm1 & Hd1 & _).
  apply valid_datetime_spec in H2 as (Hy2 & Hm2 & Hd2 & _).
  unfold toordinal, _ymd2ord.
  destruct Hlt as [Hy|[Ey [Hm|[Em Hd]]]].
  - pose proof (month_fits (year d1) (month d1) (day d1) Hm1 ltac:(lia)).
    pose proof (year_length (year d1)).
    pose proof (days_before_year_le (year d1 + 1) (year d2) ltac:(lia)).
    pose proof (days_before_month_bounds (year d2) (month d2) Hm2).
    lia.
  - rewrite Ey in *.
    pose proof (month_before (year d2) (month d1) (month d2) (day d1)
                  ltac:(lia) Hm ltac:(lia) ltac:(lia)).
    lia.
  - rewrite Ey, Em. lia.
Qed.

(** The order of the calendar fields is the order of the instants. *)
Lemma chronological_compare_instant (d1 d2 : datetime) :
  valid_datetime d1 = true -> valid_datetime d2 = true ->
  chronological_compare d1 d2 = (instant d1 ?= instant d2).
Proof.
  intros H1 H2.
  pose proof (toordinal_lt d1 d2 H1 H2) as L12.
  pose proof (toordinal_lt d2 d1 H2 H1) as L21.
  pose proof (time_of_day_range d1 H1) as R1.
  pose proof (time_of_day_range d2 H2) as R2.
  assert (Eo : year d1 = year d2 -> month d1 = month d2 -> day d1 = day d2 ->
               toordinal d1 = toordinal d2)
    by (unfold toordinal; now intros -> -> ->).
  apply valid_datetime_spec in H1 as (_ & _ & _ & Hh1 & Hn1 & Hs1 & Hu1 & _).
  apply valid_datetime_spec in H2 as (_ & _ & _ & Hh2 & Hn2 & Hs2 & Hu2 & _).
  unfold chronological_compare, fields. cbn [lex_compare].
  symmetry. unfold instant, US_PER_DAY, US_PER_SECOND in *.
  destruct (Z.compare_spec (year d1) (year d2)) as [Ey|Hy|Hy];
    [|apply Z.compare_lt_iff; specialize (L12 ltac:(lia)); lia
     |apply Z.compare_gt_iff; specialize (L21 ltac:(lia)); lia].
  destruct (Z.compare_spec (month d1) (month d2)) as [Em|Hm|Hm];
    [|apply Z.compare_lt_iff; specialize (L12 ltac:(lia)); lia
     |apply Z.compare_gt_iff; specialize (L21 ltac:(lia)); lia].
  destruct (Z.compare_spec (day d1) (day d2)) as [Ed|Hd|Hd];
    [|apply Z.compare_lt_iff; specialize (L12 ltac:(lia)); lia
     |apply Z.compare_gt_iff; specialize (L21 ltac:(lia)); lia].
  rewrite (Eo Ey Em Ed). clear L12 L21 Eo.
  unfold time_of_day, US_PER_SECOND in *.
  destruct (Z.compare_spec (hour d1) (hour d2));
    [|apply Z.compare_lt_iff; lia|apply Z.compare_gt_iff; lia].
  destruct (Z.compare_spec (minute d1) (minute d2));
    [|apply Z.compare_lt_iff; lia|apply Z.compare_gt_iff; lia].
  destruct (Z.compare_spec (second d1) (second d2));
    [|apply Z.compare_lt_iff; lia|apply Z.compare_gt_iff; lia].
  destruct (Z.compare_spec (microsecond d1) (microsecond d2));
    [apply Z.compare_eq_iff|apply Z.compare_lt_iff|apply Z.compare_gt_iff];
    lia.
Qed.

(** For naive values the order of the ISO-8601 texts is the order of the
    instants. *)
Lemma text_le_instant (d1 d2 : datetime) :
  valid_datetime d1 = true -> valid_datetime d2 = true ->
  tzinfo d1 = None -> tzinfo d2 = None ->
  text_le (isoformat d1) (isoformat d2) = (instant d1 <=? instant d2).
Proof.
  intros H1 H2 T1 T2. apply eq_true_iff_eq.
  rewrite (text_le_naive d1 d2 H1 H2 T1 T2), Z.leb_le.
  rewrite (chronological_compare_instant d1 d2 H1 H2).
  rewrite <- Z.compare_le_iff. reflexivity.
Qed.

Lemma text_lt_instant (d1 d2 : datetime) :
  valid_datetime d1 = true -> valid_datetime d2 = true ->
  tzinfo d1 = None -> tzinfo d2 = None ->
  text_lt (isoformat d1) (isoformat d2) = (instant d1 <? instant d2).
Proof.
  intros H1 H2 T1 T2.
  rewrite text_lt_not_le, (text_le_instant d2 d1 H2 H1 T2 T1).
  rewrite Z.ltb_antisym. reflexivity.
Qed.

Lemma stamp_instant_naive (r : Msg.row) :
  naive_stamped r ->
  exists d, valid_datetime d = true /\ tzinfo d = None
            /\ Msg.created_at r = isoformat d
            /\ stamp_instant r = Some (instant d).
Proof.
  intros (d & Hv & Ht & E). exists d. repeat split; try assumption.
  unfold stamp_instant. now rewrite E, (fromisoformat_isoformat d Hv).
Qed.

Lemma in_timeframe_window (c : string) (s e : datetime) (r : Msg.row) :
  valid_datetime s = true -> valid_datetime e = true ->
  tzinfo s = None -> tzinfo e = None ->
  naive_stamped r ->
  in_timeframe c (isoformat s) (isoformat e) r
  = in_window c (instant s) (instant e) r.
Proof.
  intros Hs He Ts Te Hr.
  destruct (stamp_instant_naive r Hr) as (d & Hv & Td & E & Ei).
  unfold in_timeframe, in_window, between. rewrite Ei, E.
  now rewrite (text_le_instant s d Hs Hv Ts Td),
    (text_le_instant d e Hv He Td Te).
Qed.

Lemma older_than_instant (c : datetime) (r : Msg.row) :
  valid_datetime c = true -> tzinfo c = None -> naive_stamped r ->
  older_than (isoformat c) r = stamped_before (instant c) r.
Proof.
  intros Hc Tc Hr.
  destruct (stamp_instant_naive r Hr) as (d & Hv & Td & E & Ei).
  unfold older_than, stamped_before. rewrite Ei, E.
  apply (text_lt_instant d c Hv Hc Td Tc).
Qed.

Lemma since_instant (c : datetime) (r : Msg.row) :
  valid_datetime c = true -> tzinfo c = None -> naive_stamped r ->
  since (isoformat c) r = stamped_since (instant c) r.
Proof.
  intros Hc Tc Hr.
  destruct (stamp_instant_naive r Hr) as (d & Hv & Td & E & Ei).
  unfold since, stamped_since. rewrite Ei, E.
  apply (text_le_instant c d Hc Hv Tc Td).
Qed.

Lemma filter_agree {A : Type} (P : A -> Prop) (p q : A -> bool)
  (l : list A) :
  Forall P l -> (forall x, P x -> p x = q x) -> filter p l = filter q l.
Proof.
  intros H E. induction H as [|x l Hx _ IH]; [reflexivity|].
  cbn [filter]. now rewrite (E x Hx), IH.
Qed.

Lemma timedelta_hours (h : Z) :
  -23999999976 <= h <= 23999999999 ->
  timedelta 0 h 0 0 0 = Returns (h * 3600 * US_PER_SECOND).
Proof.
  intros H. unfold timedelta. cbv zeta.
  replace (Z.abs _ <=? 999999999) with true.
  - f_equal. unfold US_PER_SECOND. ring.
  - symmetry. apply Z.leb_le. unfold US_PER_DAY, US_PER_SECOND.
    Z.to_euclidean_division_equations. lia.
Qed.

Lemma datetime_add_exists (d : datetime) (td : Z) :
  valid_datetime d = true ->
  US_PER_DAY <= instant d + td < END_OF_CALENDAR ->
  exists s, datetime_add d td = Returns s
            /\ valid_datetime s = true
            /\ instant s = instant d + td
            /\ tzinfo s = tzinfo d.
Proof.
  intros Hv Hr.
  pose proof (datetime_add_returns d td) as R.
  replace ((US_PER_DAY <=? instant d + td)
           && (instant d + td <? (_MAXORDINAL + 1) * US_PER_DAY))
    with true in R.
  - destruct (datetime_add d td) as [s|] eqn:E; [|discriminate].
    exists s. split; [reflexivity|].
    now apply (datetime_add_instant d s td).
  - symmetry. apply andb_true_iff.
    unfold END_OF_CALENDAR in Hr.
    split; [apply Z.leb_le|apply Z.ltb_lt]; lia.
Qed.

Lemma instant_lower (d : datetime) :
  valid_datetime d = true -> US_PER_DAY <= instant d.
Proof.
  intros Hv. pose proof (toordinal_range d Hv) as [H _].
  pose proof (time_of_day_range d Hv). unfold instant.
  unfold US_PER_DAY, US_PER_SECOND in *. lia.
Qed.

Lemma plus_five_hours (d : datetime) :
  valid_datetime d = true ->
  instant d + FIVE_HOURS < END_OF_CALENDAR ->
  exists s, plus_hours d 5 = Returns s
            /\ valid_datetime s = true
            /\ instant s = instant d + FIVE_HOURS
            /\ tzinfo s = tzinfo d.
Proof.
  intros Hv Hr. unfold plus_hours.
  rewrite (timedelta_hours 5) by lia. cbn [bind].
  apply datetime_add_exists; [exact Hv|].
  pose proof (instant_lower d Hv).
  unfold FIVE_HOURS, US_PER_SECOND in *. lia.
Qed.

(** The timeframe query on a working engine, as the rows it reads. *)
Lemma timeframe_rows (w : world) (db : database) (channel_id : string)
  (start_date end_date s e : datetime) :
  (forall st, fault w st = None) ->
  Forall well_stamped (messages db) ->
  plus_hours start_date 5 = Returns s ->
  plus_hours end_date 5 = Returns e ->
  exists out,
    get_channel_messages_for_timeframe w db channel_id start_date end_date
    = Returns out
    /\ Forall2 shown_as
         (order_by by_created_at
            (filter (in_timeframe channel_id (isoformat s) (isoformat e))
               (messages db)))
         out.
Proof.
  intros Hw Hdb Hs He.
  set (rows := order_by by_created_at
                 (filter (in_timeframe channel_id (isoformat s) (isoformat e))
                    (messages db))).
  destruct (traverse_Forall2 timeframe_dict shown_as rows) as (out & Ho & Hout).
  { apply Forall_forall. intros r Hr. apply timeframe_dict_shown.
    apply (Permutation_in _ (Permutation_sym (order_by_perm _ _))) in Hr.
    apply filter_In in Hr as [Hr _].
    rewrite Forall_forall in Hdb. now apply Hdb. }
  exists out. split; [|exact Hout].
  unfold get_channel_messages_for_timeframe.
  rewrite (plus_hours_bind start_date 5 s _ Hs).
  rewrite (plus_hours_bind end_date 5 e _ He).
  engine_ok Hw. cbn [bind]. fold rows. now rewrite Ho.
Qed.

(** The timeframe query between naive bounds over naive stamps, by
    instants. *)
Lemma timeframe_by_instants (w : world) (db : database)
  (channel_id : string) (start_date end_date : datetime) :
  (forall st, fault w st = None) ->
  Forall naive_stamped (messages db) ->
  valid_datetime start_date = true -> valid_datetime end_date = true ->
  tzinfo start_date = None -> tzinfo end_date = None ->
  instant start_date + FIVE_HOURS < END_OF_CALENDAR ->
  instant end_date + FIVE_HOURS < END_OF_CALENDAR ->
  exists out,
    get_channel_messages_for_timeframe w db channel_id start_date end_date
    = Returns out
    /\ Forall2 shown_as
         (order_by by_created_at
            (filter (in_window channel_id (instant start_date + FIVE_HOURS)
                       (instant end_date + FIVE_HOURS))
               (messages db)))
         out.
Proof.
  intros Hw Hdb Vs Ve Ts Te Rs Re.
  destruct (plus_five_hours start_date Vs Rs) as (s & Hs & Vs' & Is & Ts').
  destruct (plus_five_hours end_date Ve Re) as (e & He & Ve' & Ie & Te').
  rewrite Ts in Ts'. rewrite Te in Te'.
  destruct (timeframe_rows w db channel_id start_date end_date s e Hw
              ltac:(eapply Forall_impl; [apply naive_stamped_well|exact Hdb])
              Hs He) as (out & Ho & Hout).
  exists out. split; [exact Ho|].
  rewrite <- Is, <- Ie.
  rewrite <- (filter_agree naive_stamped
                (in_timeframe channel_id (isoformat s) (isoformat e))
                (in_window channel_id (instant s) (instant e))
                (messages db) Hdb); [exact Hout|].
  intros r Hr. now apply in_timeframe_window.
Qed.

Lemma shown_as_functional (r : Msg.row) (m m' : TimeframeMsg.t) :
  shown_as r m -> shown_as r m' -> m = m'.
Proof.
  destruct m, m'. unfold shown_as. cbn.
  intros (-> & -> & E1 & -> & ->) (-> & -> & E2 & -> & ->).
  rewrite E1 in E2. now injection E2 as ->.
Qed.

Lemma Forall2_length_eq {A B : Type} (R : A -> B -> Prop) (l : list A)
  (l' : list B) : Forall2 R l l' -> List.length l = List.length l'.
Proof. induction 1; cbn; congruence. Qed.

(** X18.  Between naive bounds and over naive stamps, the timeframe query
    shows the rows of the channel whose instant lies from [start + 5 h] to
    [end + 5 h], both included, and no other. *)
Theorem timeframe_shows_window (w : world) (db : database)
  (channel_id : string) (start_date end_date : datetime) :
  (forall st, fault w st = None) ->
  Forall naive_stamped (messages db) ->
  valid_datetime start_date = true -> valid_datetime end_date = true ->
  tzinfo start_date = None -> tzinfo end_date = None ->
  instant start_date + FIVE_HOURS < END_OF_CALENDAR ->
  instant end_date + FIVE_HOURS < END_OF_CALENDAR ->
  let shown :=
    in_window channel_id (instant start_date + FIVE_HOURS)
      (instant end_date + FIVE_HOURS) in
  exists out,
    get_channel_messages_for_timeframe w db channel_id start_date end_date
    = Returns out
    /\ (forall m, In m out <->
                  exists r, In r (messages db) /\ shown r = true
                            /\ shown_as r m)
    /\ Z.of_nat (List.length out) = count_rows shown (messages db).
Proof.
  intros Hw Hdb Vs Ve Ts Te Rs Re shown.
  destruct (timeframe_by_instants w db channel_id start_date end_date
              Hw Hdb Vs Ve Ts Te Rs Re) as (out & Ho & Hout).
  fold shown in Hout.
  exists out. split; [exact Ho|]. split.
  - intros m. split.
    + intros Hm. destruct (Forall2_In_r _ _ _ _ Hout Hm) as (r & Hr & Hs).
      exists r.
      apply (Permutation_in _ (Permutation_sym (order_by_perm _ _))) in Hr.
      apply filter_In in Hr as [Hr Hp]. now split.
    + intros (r & Hr & Hp & Hs).
      assert (Hin : In r (order_by by_created_at
                            (filter shown (messages db)))).
      { apply (Permutation_in _ (order_by_perm _ _)), filter_In.
        now split. }
      destruct (Forall2_In_l _ _ _ _ Hout Hin) as (m' & Hm' & Hs').
      now rewrite (shown_as_functional r m m' Hs Hs').
  - rewrite <- (Forall2_length_eq _ _ _ Hout).
    unfold count_rows.
    now rewrite <- (Permutation_length (order_by_perm by_created_at _)).
Qed.

Lemma instant_day_start (date : datetime) :
  instant (day_start date) = toordinal date * US_PER_DAY.
Proof. unfold instant, toordinal, time_of_day, day_start. cbn. lia. Qed.

Lemma instant_day_end (date : datetime) :
  instant (day_end date) = (toordinal date + 1) * US_PER_DAY - 1.
Proof.
  unfold instant, toordinal, time_of_day, day_end, US_PER_DAY, US_PER_SECOND.
  cbn [year month day hour minute second microsecond]. lia.
Qed.

Lemma day_as_timeframe (w : world) (db : database) (channel_id : string)
  (date : datetime) :
  valid_datetime date = true ->
  get_channel_messages_for_day w db channel_id date
  = get_channel_messages_for_timeframe w db channel_id
      (day_start date) (day_end date).
Proof.
  intros H. destruct (valid_day_bounds date H) as [Hs He].
  unfold get_channel_messages_for_day, datetime_new.
  fold (day_start date) (day_end date). now rewrite Hs, He.
Qed.

(** The day query by instants. *)
Lemma day_by_instants (w : world) (db : database) (channel_id : string)
  (date : datetime) :
  (forall st, fault w st = None) ->
  Forall naive_stamped (messages db) ->
  valid_datetime date = true ->
  toordinal date < _MAXORDINAL ->
  exists out,
    get_channel_messages_for_day w db channel_id date = Returns out
    /\ Forall2 shown_as
         (order_by by_created_at
            (filter
               (in_window channel_id
                  (toordinal date * US_PER_DAY + FIVE_HOURS)
                  ((toordinal date + 1) * US_PER_DAY + FIVE_HOURS - 1))
               (messages db)))
         out.
Proof.
  intros Hw Hdb Hv Hlast.
  destruct (valid_day_bounds date Hv) as [Vs Ve].
  rewrite (day_as_timeframe w db channel_id date Hv).
  destruct (timeframe_by_instants w db channel_id (day_start date)
              (day_end date) Hw Hdb Vs Ve eq_refl eq_refl) as (out & Ho & Hout).
  - rewrite instant_day_start.
    unfold END_OF_CALENDAR, FIVE_HOURS, US_PER_DAY, US_PER_SECOND. lia.
  - rewrite instant_day_end.
    unfold END_OF_CALENDAR, FIVE_HOURS, US_PER_DAY, US_PER_SECOND. lia.
  - exists out. split; [exact Ho|].
    rewrite instant_day_start, instant_day_end in Hout.
    replace ((toordinal date + 1) * US_PER_DAY + FIVE_HOURS - 1)
      with ((toordinal date + 1) * US_PER_DAY - 1 + FIVE_HOURS) by lia.
    exact Hout.
Qed.

(** X19.  Over naive stamps the day query of a day D shows, in the order
    of their stamps, exactly the rows of the channel stamped from 05:00:00
    of D up to, and not including, 05:00:00 of the next day. *)
Theorem day_shows_window (w : world) (db : database) (channel_id : string)
  (date : datetime) :
  (forall st, fault w st = None) ->
  Forall naive_stamped (messages db) ->
  valid_datetime date = true ->
  toordinal date < _MAXORDINAL ->
  let midnight := toordinal date * US_PER_DAY in
  exists out,
    get_channel_messages_for_day w db channel_id date = Returns out
    /\ Forall2 shown_as
         (order_by by_created_at
            (filter
               (fun r =>
                  String.eqb (Msg.channel_id r) channel_id
                  && match stamp_instant r with
                     | Some t =>
                         (midnight + FIVE_HOURS <=? t)
                         && (t <? midnight + US_PER_DAY + FIVE_HOURS)
                     | None => false
                     end)
               (messages db)))
         out.
Proof.
  intros Hw Hdb Hv Hlast midnight.
  destruct (day_by_instants w db channel_id date Hw Hdb Hv Hlast)
    as (out & Ho & Hout).
  exists out. split; [exact Ho|].
  erewrite filter_ext; [exact Hout|].
  intros r. unfold in_window, midnight. f_equal.
  destruct (stamp_instant r) as [t|]; [|reflexivity]. f_equal.
  apply eq_true_iff_eq. rewrite Z.ltb_lt, Z.leb_le. lia.
Qed.

Lemma week_span : timedelta 6 23 59 59 999999 = Returns (7 * US_PER_DAY - 1).
Proof. reflexivity. Qed.

(** The week query by instants. *)
Lemma week_by_instants (w : world) (db : database) (channel_id : string)
  (start_date : datetime) :
  (forall st, fault w st = None) ->
  Forall naive_stamped (messages db) ->
  valid_datetime start_date = true -> tzinfo start_date = None ->
  instant start_date + 7 * US_PER_DAY + FIVE_HOURS <= END_OF_CALENDAR ->
  exists out,
    get_channel_messages_for_week w db channel_id start_date = Returns out
    /\ Forall2 shown_as
         (order_by by_created_at
            (filter
               (in_window channel_id (instant start_date + FIVE_HOURS)
                  (instant start_date + 7 * US_PER_DAY + FIVE_HOURS - 1))
               (messages db)))
         out.
Proof.
  intros Hw Hdb Hv Ht Hr.
  pose proof (instant_lower start_date Hv) as Hlo.
  assert (H5 : 0 < FIVE_HOURS) by reflexivity.
  assert (Hd : 0 < US_PER_DAY) by reflexivity.
  destruct (datetime_add_exists start_date (7 * US_PER_DAY - 1) Hv
              ltac:(lia)) as (e & He & Ve & Ie & Te).
  rewrite (week_is_timeframe w db channel_id start_date e)
    by (rewrite week_span; exact He).
  destruct (timeframe_by_instants w db channel_id start_date e Hw Hdb Hv Ve
              Ht ltac:(congruence) ltac:(lia) ltac:(lia))
    as (out & Ho & Hout).
  exists out. split; [exact Ho|].
  rewrite Ie in Hout.
  replace (instant start_date + 7 * US_PER_DAY + FIVE_HOURS - 1)
    with (instant start_date + (7 * US_PER_DAY - 1) + FIVE_HOURS) by lia.
  exact Hout.
Qed.

(** X20.  Over naive stamps the week query shows, in the order of their
    stamps, exactly the rows of the channel stamped within the seven days
    that begin five hours after its naive argument. *)
Theorem week_shows_window (w : world) (db : database) (channel_id : string)
  (start_date : datetime) :
  (forall st, fault w st = None) ->
  Forall naive_stamped (messages db) ->
  valid_datetime start_date = true -> tzinfo start_date = None ->
  instant start_date + 7 * US_PER_DAY + FIVE_HOURS <= END_OF_CALENDAR ->
  let first := instant start_date + FIVE_HOURS in
  exists out,
    get_channel_messages_for_week w db channel_id start_date = Returns out
    /\ Forall2 shown_as
         (order_by by_created_at
            (filter
               (fun r =>
                  String.eqb (Msg.channel_id r) channel_id
                  && match stamp_instant r with
                     | Some t =>
                         (first <=? t) && (t <? first + 7 * US_PER_DAY)
                     | None => false
                     end)
               (messages db)))
         out.
Proof.
  intros Hw Hdb Hv Ht Hr first.
  destruct (week_by_instants w db channel_id start_date Hw Hdb Hv Ht Hr)
    as (out & Ho & Hout).
  exists out. split; [exact Ho|].
  erewrite filter_ext; [exact Hout|].
  intros r. unfold in_window, first. f_equal.
  destruct (stamp_instant r) as [t|]; [|reflexivity]. f_equal.
  apply eq_true_iff_eq. rewrite Z.ltb_lt, Z.leb_le. lia.
Qed.

Lemma shown_window_incl (c : string) (lo hi lo' hi' : Z)
  (rows : list Msg.row) (out out' : list TimeframeMsg.t) :
  lo' <= lo -> hi <= hi' ->
  Forall2 shown_as
    (order_by by_created_at (filter (in_window c lo hi) rows)) out ->
  Forall2 shown_as
    (order_by by_created_at (filter (in_window c lo' hi') rows)) out' ->
  incl out out'.
Proof.
  intros Hlo Hhi F F' m Hm.
  destruct (Forall2_In_r _ _ _ _ F Hm) as (r & Hr & Hs).
  apply (Permutation_in _ (Permutation_sym (order_by_perm _ _))) in Hr.
  apply filter_In in Hr as [Hr Hp].
  assert (Hin : In r (order_by by_created_at
                        (filter (in_window c lo' hi') rows))).
  { apply (Permutation_in _ (order_by_perm _ _)), filter_In.
    split; [exact Hr|].
    unfold in_window in *. apply andb_true_iff in Hp as [-> Hp].
    destruct (stamp_instant r) as [t|]; [|discriminate].
    apply andb_true_iff in Hp as [H1 H2].
    apply Z.leb_le in H1, H2. cbn [andb].
    apply andb_true_iff. split; apply Z.leb_le; lia. }
  destruct (Forall2_In_l _ _ _ _ F' Hin) as (m' & Hm' & Hs').
  now rewrite (shown_as_functional r m m' Hs Hs').
Qed.

(** X21.  On a working engine and over naive stamps, for a valid naive
    [start_date] such that [start_date + 7 days + 5 h] lies within the
    calendar, and a valid [date] whose day lies wholly within the seven
    days that begin at [start_date]: every message that the day query
    shows for [date] is shown by the week query of [start_date].  The
    start has to be naive: see [aware_week_start_misses_the_day]. *)
Theorem day_within_week (w : world) (db : database) (channel_id : string)
  (start_date date : datetime) :
  (forall st, fault w st = None) ->
  Forall naive_stamped (messages db) ->
  valid_datetime start_date = true -> tzinfo start_date = None ->
  valid_datetime date = true ->
  instant start_date + 7 * US_PER_DAY + FIVE_HOURS <= END_OF_CALENDAR ->
  instant start_date <= toordinal date * US_PER_DAY ->
  (toordinal date + 1) * US_PER_DAY <= instant start_date + 7 * US_PER_DAY ->
  exists of_day of_week,
    get_channel_messages_for_day w db channel_id date = Returns of_day
    /\ get_channel_messages_for_week w db channel_id start_date
       = Returns of_week
    /\ incl of_day of_week.
Proof.
  intros Hw Hdb Hv Ht Hd Hr H1 H2.
  assert (Hlast : toordinal date < _MAXORDINAL).
  { assert (0 < FIVE_HOURS) by reflexivity.
    unfold END_OF_CALENDAR, US_PER_DAY, US_PER_SECOND in *. lia. }
  destruct (day_by_instants w db channel_id date Hw Hdb Hd Hlast)
    as (of_day & Eday & Fday).
  destruct (week_by_instants w db channel_id start_date Hw Hdb Hv Ht Hr)
    as (of_week & Eweek & Fweek).
  exists of_day, of_week. split; [exact Eday|]. split; [exact Eweek|].
  refine (shown_window_incl channel_id _ _ _ _ (messages db) _ _
            _ _ Fday Fweek); lia.
Qed.

(** With an aware [start_date] the lower bound of the week query carries
    an offset and sorts after a naive stamp of the same wall clock: the
    row stamped 05:00:00 is shown for the day and not for the week. *)
Example aware_week_start_misses_the_day :
  let db :=
    mk_database
      [Msg.mk "m1" "u1" "alice" "c1" "general" None None "early"
         "2024-03-04T05:00:00" 0 0 None]
      [] 0 in
  get_channel_messages_for_day sample_world db "c1"
    (mk_datetime 2024 3 4 0 0 0 0 None)
  = Returns [TimeframeMsg.mk "alice" "early"
               (mk_datetime 2024 3 4 5 0 0 0 None) false false]
  /\ get_channel_messages_for_week sample_world db "c1"
       (mk_datetime 2024 3 4 0 0 0 0 (Some 0))
     = Returns [].
Proof. split; reflexivity. Qed.

(** X22.  With a naive cutoff and over naive stamps, pruning removes the
    rows stamped before the cutoff, keeps the others in place and reports
    the number removed. *)
Theorem pruning_by_instant (w : world) (db : database)
  (cutoff_time : datetime) :
  (forall st, fault w st = None) ->
  Forall naive_stamped (messages db) ->
  valid_datetime cutoff_time = true -> tzinfo cutoff_time = None ->
  delete_messages_older_than w db cutoff_time
  = (Returns (count_rows (stamped_before (instant cutoff_time))
                (messages db)),
     mk_database
       (filter (stamped_since (instant cutoff_time)) (messages db))
       (channel_summaries db) (summary_seq db)).
Proof.
  intros Hw Hdb Hv Ht. rewrite (delete_ok w db cutoff_time Hw).
  unfold count_rows.
  rewrite (filter_agree naive_stamped
             (older_than (isoformat cutoff_time))
             (stamped_before (instant cutoff_time)) (messages db) Hdb)
    by (intros r Hr; now apply older_than_instant).
  rewrite (filter_agree naive_stamped
             (fun r => negb (older_than (isoformat cutoff_time) r))
             (stamped_since (instant cutoff_time)) (messages db) Hdb).
  - reflexivity.
  - intros r Hr. rewrite (older_than_instant cutoff_time r Hv Ht Hr).
    destruct (stamp_instant_naive r Hr) as (d & _ & _ & _ & Ei).
    unfold stamped_before, stamped_since. rewrite Ei.
    now rewrite Z.leb_antisym.
Qed.

Lemma minus_hours_exists (d : datetime) (h : Z) :
  valid_datetime d = true ->
  US_PER_DAY <= instant d - h * 3600 * US_PER_SECOND < END_OF_CALENDAR ->
  exists c, minus_hours d h = Returns c
            /\ valid_datetime c = true
            /\ instant c = instant d - h * 3600 * US_PER_SECOND
            /\ tzinfo c = tzinfo d.
Proof.
  intros Hv Hr.
  pose proof (instant_lower d Hv) as Hlo.
  assert (Hhi : instant d < END_OF_CALENDAR).
  { pose proof (toordinal_range d Hv) as (_ & H1 & H2 & H3).
    pose proof (time_of_day_range d Hv).
    apply valid_datetime_spec in Hv as (Hy & Hm & Hd & _).
    pose proof (days_in_month_le (year d) (month d)).
    assert (toordinal d <= _MAXORDINAL).
    { unfold _MAXORDINAL.
      destruct (Z.eq_dec (year d) 9999) as [E|E]; [|lia].
      destruct (Z.eq_dec (month d) 12) as [E'|E']; [|lia].
      specialize (H3 E E'). rewrite E, E' in *.
      change (_days_in_month 9999 12) with 31 in Hd. lia. }
    unfold instant, END_OF_CALENDAR, US_PER_DAY, US_PER_SECOND in *. lia. }
  unfold minus_hours, datetime_sub.
  rewrite (timedelta_hours h)
    by (unfold END_OF_CALENDAR, _MAXORDINAL, US_PER_DAY, US_PER_SECOND in *;
        lia).
  cbn [bind].
  destruct (datetime_add_exists d (- (h * 3600 * US_PER_SECOND)) Hv
              ltac:(lia)) as (c & Hc & Vc & Ic & Tc).
  exists c. repeat split; try assumption; lia.
Qed.

Lemma filter_and {A : Type} (p q : A -> bool) (l : list A) :
  filter p (filter q l) = filter (fun x => p x && q x) l.
Proof.
  induction l as [|x l IH]; [reflexivity|]. cbn [filter].
  destruct (q x); cbn [filter]; rewrite ?andb_true_r, ?andb_false_r;
    [destruct (p x)|]; now rewrite IH.
Qed.

(** X23.  With a naive clock and over naive stamps, [get_active_channels]
    lists the channels that have a row stamped at or after the instant
    [hours] before now, each with the number of such rows. *)
Theorem active_channels_by_instant (w : world) (db : database) (hours : Z) :
  (forall st, fault w st = None) ->
  Forall naive_stamped (messages db) ->
  valid_datetime (now w) = true -> tzinfo (now w) = None ->
  let cutoff := instant (now w) - hours * 3600 * US_PER_SECOND in
  US_PER_DAY <= cutoff < END_OF_CALENDAR ->
  exists out,
    get_active_channels w db hours = Returns out
    /\ (forall k, In k (map ActiveChannel.channel_id out) <->
                  exists r, In r (messages db) /\ Msg.channel_id r = k
                            /\ stamped_since cutoff r = true)
    /\ (forall a, In a out ->
          ActiveChannel.message_count a
          = count_rows
              (fun r => of_channel (ActiveChannel.channel_id a) r
                        && stamped_since cutoff r)
              (messages db)).
Proof.
  intros Hw Hdb Hv Ht cutoff Hr.
  destruct (minus_hours_exists (now w) hours Hv Hr) as (c & Hc & Vc & Ic & Tc).
  rewrite Ht in Tc. fold cutoff in Ic.
  set (recent := filter (stamped_since cutoff) (messages db)).
  set (ks := first_seen (map Msg.channel_id recent)).
  set (raw := flat_map aggregate
                (map (fun k => filter (of_channel k) recent) ks)).
  set (out := order_by by_message_count_desc raw).
  assert (Hperm : Permutation raw out) by apply order_by_perm.
  destruct (aggregate_groups recent ks) as [Hks Hraw];
    [intros k; apply first_seen_In|]. fold raw in Hks, Hraw.
  exists out. split; [|split].
  - unfold get_active_channels.
    rewrite (minus_hours_bind (now w) hours c _ Hc). engine_ok Hw.
    cbn [bind try_read]. rewrite group_by_channel_spec.
    rewrite (filter_agree naive_stamped (since (isoformat c))
               (stamped_since cutoff) (messages db) Hdb); [reflexivity|].
    intros r Hn. rewrite <- Ic. now apply since_instant.
  - intros k.
    assert (Hk : In k (map ActiveChannel.channel_id out) <-> In k ks).
    { rewrite <- Hks.
      split; apply Permutation_in, Permutation_map;
        [symmetry|]; exact Hperm. }
    rewrite Hk. unfold ks. rewrite first_seen_In, in_map_iff.
    split.
    + intros (r & E & Hin). apply filter_In in Hin as [Hin Hs].
      exists r. now repeat split.
    + intros (r & Hin & E & Hs). exists r. split; [exact E|].
      apply filter_In. now split.
  - intros a Ha.
    apply (Permutation_in _ (Permutation_sym Hperm)) in Ha.
    destruct (Hraw a Ha) as [-> _].
    unfold count_rows, recent. now rewrite filter_and.
Qed.

Lemma filter_insert_by {A : Type} (le1 le2 : A -> A -> bool)
  (p : A -> bool) (x : A) (s : list A) :
  (forall a b c, le1 a b = true -> le1 b c = true -> le1 a c = true) ->
  (forall a b, p a = true -> p b = true -> le1 a b = le2 a b) ->
  StronglySorted (fun a b => le1 a b = true) s ->
  filter p (insert_by le1 x s)
  = if p x then insert_by le2 x (filter p s) else filter p s.
Proof.
  intros Htrans Hagree. induction 1 as [|y r Hs IH Hy].
  - cbn. now destruct (p x).
  - cbn [insert_by]. destruct (le1 x y) eqn:Exy.
    + change (filter p (x :: y :: r))
        with (if p x then x :: filter p (y :: r) else filter p (y :: r)).
      destruct (p x) eqn:Px; [|reflexivity].
      assert (Hall : Forall (fun z => le2 x z = true) (filter p (y :: r))).
      { apply Forall_forall. intros z Hz.
        apply filter_In in Hz as [Hz Pz].
        rewrite <- (Hagree x z Px Pz).
        destruct Hz as [<-|Hz]; [exact Exy|].
        apply (Htrans x y z Exy).
        rewrite Forall_forall in Hy. now apply Hy. }
      destruct (filter p (y :: r)) as [|z rest]; [reflexivity|].
      cbn [insert_by]. inversion_clear Hall as [|? ? Hz _]. now rewrite Hz.
    + cbn [filter]. rewrite IH.
      destruct (p y) eqn:Py; destruct (p x) eqn:Px; try reflexivity.
      cbn [insert_by]. now rewrite <- (Hagree x y Px Py), Exy.
Qed.

Lemma filter_order_by {A : Type} (le1 le2 : A -> A -> bool)
  (p : A -> bool) (l : list A) :
  (forall a b, le1 a b = true \/ le1 b a = true) ->
  (forall a b c, le1 a b = true -> le1 b c = true -> le1 a c = true) ->
  (forall a b, p a = true -> p b = true -> le1 a b = le2 a b) ->
  filter p (order_by le1 l) = order_by le2 (filter p l).
Proof.
  intros Htotal Htrans Hagree.
  induction l as [|x l IH]; [reflexivity|].
  cbn [order_by filter].
  rewrite (filter_insert_by le1 le2 p x (order_by le1 l) Htrans Hagree)
    by now apply order_by_sorted.
  rewrite IH. now destruct (p x).
Qed.

(** Within one channel the order of the range query is that of the
    timeframe query. *)
Lemma channel_of_scan (c lo hi : string) (rows : list Msg.row) :
  filter (of_channel c)
    (order_by by_channel_then_created_at (filter (in_range lo hi) rows))
  = order_by by_created_at (filter (in_timeframe c lo hi) rows).
Proof.
  rewrite (filter_order_by by_channel_then_created_at by_created_at).
  - f_equal. rewrite filter_and. apply filter_ext. reflexivity.
  - apply by_channel_then_created_at_total.
  - apply by_channel_then_created_at_trans.
  - intros a b Ha Hb. apply String.eqb_eq in Ha, Hb.
    unfold by_channel_then_created_at, by_created_at.
    now rewrite Ha, Hb, string_compare_refl.
Qed.

Lemma dicts_agree (l : list Msg.row) (ms : list RangeMsg.t)
  (out : list TimeframeMsg.t) :
  traverse range_dict l = Returns ms ->
  traverse timeframe_dict l = Returns out ->
  out = map timeframe_view ms.
Proof.
  revert ms out. induction l as [|r l IH]; intros ms out; cbn [traverse].
  - now intros [= <-] [= <-].
  - unfold range_dict at 1, timeframe_dict at 1.
    destruct (fromisoformat (Msg.created_at r)) as [d|]; [|discriminate].
    cbn [bind].
    destruct (traverse range_dict l) as [ms'|]; [|discriminate].
    destruct (traverse timeframe_dict l) as [out'|]; [|discriminate].
    cbn [bind]. intros [= <-] [= <-].
    cbn [map]. now rewrite (IH ms' out' eq_refl eq_refl).
Qed.

(** The range query on a working engine, as the rows it scans. *)
Lemma range_rows (w : world) (db : database) (start_time end_time : datetime) :
  (forall st, fault w st = None) ->
  Forall well_stamped (messages db) ->
  exists d,
    get_messages_for_time_range w db start_time end_time = Returns d
    /\ grouped
         (order_by by_channel_then_created_at
            (filter (in_range (isoformat start_time) (isoformat end_time))
               (messages db)))
         d.
Proof.
  intros Hw Hdb.
  set (scan := order_by by_channel_then_created_at
                 (filter (in_range (isoformat start_time)
                            (isoformat end_time)) (messages db))).
  destruct (group_rows_grouped scan) as (d & Ed & Hg).
  { apply Forall_forall. intros r Hr.
    apply (Permutation_in _ (Permutation_sym (order_by_perm _ _))) in Hr.
    apply filter_In in Hr as [Hr _].
    rewrite Forall_forall in Hdb. now apply Hdb. }
  exists d. split; [|exact Hg].
  unfold get_messages_for_time_range. engine_ok Hw. cbn [bind].
  fold scan. now rewrite Ed.
Qed.

(** X24.  The group that the range query between [start + 5 h] and
    [end + 5 h] holds for a channel lists the messages that the timeframe
    query between [start] and [end] shows for that channel, in the same
    order; a channel without a group has nothing to show. *)
Theorem range_group_is_timeframe (w : world) (db : database)
  (channel_id : string) (start_date end_date s e : datetime) :
  (forall st, fault w st = None) ->
  Forall well_stamped (messages db) ->
  plus_hours start_date 5 = Returns s ->
  plus_hours end_date 5 = Returns e ->
  exists d out,
    get_messages_for_time_range w db s e = Returns d
    /\ get_channel_messages_for_timeframe w db channel_id start_date end_date
       = Returns out
    /\ (forall g, In (channel_id, g) d ->
                  out = map timeframe_view (ChannelData.messages g))
    /\ (dict_mem channel_id d = false -> out = []).
Proof.
  intros Hw Hdb Hs He.
  destruct (range_rows w db s e Hw Hdb) as (d & Ed & Hkeys & Hd).
  set (rows := order_by by_created_at
                 (filter (in_timeframe channel_id (isoformat s) (isoformat e))
                    (messages db))).
  destruct (traverse_Forall2 timeframe_dict shown_as rows) as (out & Ho & _).
  { apply Forall_forall. intros r Hr. apply timeframe_dict_shown.
    apply (Permutation_in _ (Permutation_sym (order_by_perm _ _))) in Hr.
    apply filter_In in Hr as [Hr _].
    rewrite Forall_forall in Hdb. now apply Hdb. }
  exists d, out. split; [exact Ed|]. split; [|split].
  - unfold get_channel_messages_for_timeframe.
    rewrite (plus_hours_bind start_date 5 s _ Hs).
    rewrite (plus_hours_bind end_date 5 e _ He).
    engine_ok Hw. cbn [bind]. fold rows. now rewrite Ho.
  - intros g Hg. destruct (Hd channel_id g Hg) as [_ Htr].
    rewrite channel_of_scan in Htr. fold rows in Htr.
    exact (dicts_agree rows _ out Htr Ho).
  - intros Hmem.
    assert (Hnone : filter (of_channel channel_id)
                      (order_by by_channel_then_created_at
                         (filter (in_range (isoformat s) (isoformat e))
                            (messages db))) = []).
    { apply of_channel_none. intros Hin.
      apply first_seen_In in Hin. rewrite <- Hkeys in Hin.
      apply dict_mem_In in Hin. congruence. }
    rewrite channel_of_scan in Hnone. fold rows in Hnone.
    rewrite Hnone in Ho. now injection Ho as <-.
Qed.

Lemma traverse_length {A B : Type} (f : A -> result B) (l : list A)
  (ys : list B) :
  traverse f l = Returns ys -> List.length ys = List.length l.
Proof.
  revert ys. induction l as [|a l IH]; intros ys; cbn [traverse].
  - now intros [= <-].
  - destruct (f a) as [b|]; [|discriminate]. cbn [bind].
    destruct (traverse f l) as [bs|]; [|discriminate]. cbn [bind].
    intros [= <-]. cbn [List.length]. now rewrite (IH bs eq_refl).
Qed.

(** X25.  The groups of the range query hold as many messages as there
    are rows between the bounds, and no group is empty. *)
Theorem range_groups_hold_every_row (w : world) (db : database)
  (start_time end_time : datetime) :
  (forall st, fault w st = None) ->
  Forall well_stamped (messages db) ->
  exists d,
    get_messages_for_time_range w db start_time end_time = Returns d
    /\ total_messages d
       = count_rows (in_range (isoformat start_time) (isoformat end_time))
           (messages db)
    /\ Forall (fun kv => ChannelData.messages (snd kv) <> []) d.
Proof.
  intros Hw Hdb.
  destruct (range_rows w db start_time end_time Hw Hdb)
    as (d & Ed & Hkeys & Hd).
  set (sel := filter (in_range (isoformat start_time) (isoformat end_time))
                (messages db)) in *.
  set (scan := order_by by_channel_then_created_at sel) in *.
  exists d. split; [exact Ed|]. split.
  - unfold total_messages.
    assert (E : map (fun kv => Z.of_nat
                       (List.length (ChannelData.messages (snd kv)))) d
                = map (fun k => count_rows
                                  (fun r => String.eqb (Msg.channel_id r) k)
                                  scan)
                    (map fst d)).
    { rewrite map_map. apply map_ext_in. intros [k g] Hin.
      destruct (Hd k g Hin) as [_ Htr]. cbn [fst snd].
      unfold count_rows. f_equal. exact (traverse_length _ _ _ Htr). }
    rewrite E, Hkeys.
    rewrite (partition_total Msg.channel_id scan).
    + unfold count_rows, scan. f_equal. symmetry.
      apply Permutation_length, order_by_perm.
    + apply first_seen_NoDup.
    + intros r Hr. apply first_seen_In. now apply in_map.
  - apply Forall_forall. intros [k g] Hin.
    destruct (Hd k g Hin) as [(r0 & rest & E0 & _) Htr]. cbn [snd].
    intros Hnil. apply traverse_length in Htr.
    rewrite Hnil, E0 in Htr. discriminate.
Qed.

Lemma ascii_only_app (a b : list ascii) :
  ascii_only a -> ascii_only b -> ascii_only (a ++ b).
Proof. intros Ha Hb. apply Forall_app. now split. Qed.

Lemma seven_bit_of_N (n : N) : (n < 128)%N -> seven_bit (ascii_of_N n) = true.
Proof.
  intros H. unfold seven_bit. rewrite N_ascii_embedding by lia.
  now apply N.ltb_lt.
Qed.

Lemma hexdigit_seven_bit (d : N) : seven_bit (hexdigit (d mod 16)) = true.
Proof.
  unfold hexdigit. apply seven_bit_of_N.
  assert (d mod 16 < 16)%N by (apply N.mod_lt; discriminate).
  destruct (d mod 16 <? 10)%N; lia.
Qed.

Lemma u_escape_ascii_only (n : N) : ascii_only (u_escape n).
Proof.
  unfold u_escape, hex4.
  repeat constructor; apply hexdigit_seven_bit.
Qed.

Lemma escape_char_ascii_only (c : N) : ascii_only (escape_char c).
Proof.
  unfold escape_char.
  repeat match goal with
         | |- context [if (c =? ?k)%N then _ else _] =>
             destruct (c =? k)%N; [repeat constructor|]
         end.
  destruct ((32 <=? c) && (c <=? 126))%N eqn:E.
  - apply andb_true_iff in E as [_ E]. apply N.leb_le in E.
    repeat constructor. apply seven_bit_of_N. lia.
  - destruct (c <? 65536)%N; [apply u_escape_ascii_only|].
    cbv zeta. apply Forall_app. split; apply u_escape_ascii_only.
Qed.

Lemma encode_basestring_ascii_only (s : ustr) :
  ascii_only (encode_basestring_ascii s).
Proof.
  unfold encode_basestring_ascii.
  apply Forall_app. split; [repeat constructor|].
  apply Forall_app. split; [|repeat constructor].
  induction s as [|c s IH]; [constructor|].
  cbn [flat_map]. apply Forall_app. split; [apply escape_char_ascii_only|exact IH].
Qed.

Lemma join_ascii_only (sep : list ascii) (items : list (list ascii)) :
  ascii_only sep -> Forall ascii_only items -> ascii_only (join sep items).
Proof.
  intros Hsep. induction 1 as [|x items Hx Hitems IH]; [constructor|].
  cbn [join]. destruct items as [|y items]; [exact Hx|].
  apply Forall_app. split; [exact Hx|].
  apply Forall_app. split; [exact Hsep|exact IH].
Qed.

Lemma digits_ascii_only (d : Decimal.uint) :
  ascii_only (chars (NilEmpty.string_of_uint d)).
Proof.
  unfold ascii_only, chars.
  induction d as [|d IH|d IH|d IH|d IH|d IH|d IH|d IH|d IH|d IH|d IH];
    cbn [NilEmpty.string_of_uint list_ascii_of_string];
    constructor; try reflexivity; exact IH.
Qed.

Lemma string_of_uint_ascii_only (d : Decimal.uint) :
  ascii_only (chars (NilZero.string_of_uint d)).
Proof.
  destruct d; try apply digits_ascii_only. repeat constructor.
Qed.

Lemma int_repr_ascii_only (z : Z) : ascii_only (int_repr z).
Proof.
  unfold int_repr, NilZero.string_of_int.
  destruct (Z.to_int z) as [d|d].
  - apply string_of_uint_ascii_only.
  - cbn. constructor; [reflexivity|apply string_of_uint_ascii_only].
Qed.

(** [json.dumps] writes seven-bit text, whatever the value. *)
Lemma json_encode_ascii_only :
  forall (o : pyobj) (cs : list ascii),
    json_encode o = Returns cs -> ascii_only cs.
Proof.
  fix IH 1. intros [| [|] | z | s | l | kv | ] cs; cbn [json_encode].
  - intros [= <-]. repeat constructor.
  - intros [= <-]. repeat constructor.
  - intros [= <-]. repeat constructor.
  - intros [= <-]. apply int_repr_ascii_only.
  - intros [= <-]. apply encode_basestring_ascii_only.
  - assert (Hl : forall items,
               (fix each (l : list pyobj) : result (list (list ascii)) :=
                  match l with
                  | [] => Returns []
                  | x :: r =>
                      (cx <- json_encode x ;; cr <- each r ;;
                       Returns (cx :: cr))%py
                  end) l = Returns items -> Forall ascii_only items).
    { induction l as [|x r IHr]; intros items.
      - intros [= <-]. constructor.
      - destruct (json_encode x) as [cx|] eqn:Ex; [|discriminate].
        cbn [bind].
        match goal with
        | |- context [bind ?e _] => destruct e as [cr|] eqn:Er
        end; [|discriminate].
        cbn [bind]. intros [= <-].
        constructor; [exact (IH x cx Ex)|now apply IHr]. }
    match goal with
    | |- context [bind ?e _] => destruct e as [items|] eqn:Ei
    end; [|discriminate].
    cbn [bind]. intros [= <-].
    apply (ascii_only_app (chars "[") (join (chars ", ") items ++ chars "]"));
      [repeat constructor|].
    apply ascii_only_app; [|repeat constructor].
    apply join_ascii_only; [repeat constructor|now apply Hl].
  - assert (Hl : forall items,
               (fix each (kv : list (ustr * pyobj))
                  : result (list (list ascii)) :=
                  match kv with
                  | [] => Returns []
                  | (k, v) :: r =>
                      (cv <- json_encode v ;; cr <- each r ;;
                       Returns ((encode_basestring_ascii k ++ chars ": " ++ cv)
                                :: cr))%py
                  end) kv = Returns items -> Forall ascii_only items).
    { induction kv as [|[k v] r IHr]; intros items.
      - intros [= <-]. constructor.
      - destruct (json_encode v) as [cv|] eqn:Ev; [|discriminate].
        cbn [bind].
        match goal with
        | |- context [bind ?e _] => destruct e as [cr|] eqn:Er
        end; [|discriminate].
        cbn [bind]. intros [= <-].
        constructor; [|now apply IHr].
        apply (ascii_only_app (encode_basestring_ascii k)
                 (chars ": " ++ cv)); [apply encode_basestring_ascii_only|].
        apply (ascii_only_app (chars ": ") cv);
          [repeat constructor|exact (IH v cv Ev)]. }
    match goal with
    | |- context [bind ?e _] => destruct e as [items|] eqn:Ei
    end; [|discriminate].
    cbn [bind]. intros [= <-].
    apply (ascii_only_app (chars "{") (join (chars ", ") items ++ chars "}"));
      [repeat constructor|].
    apply ascii_only_app; [|repeat constructor].
    apply join_ascii_only; [repeat constructor|now apply Hl].
  - discriminate.
Qed.

Lemma json_dumps_ascii_only (o : pyobj) (t : string) :
  json_dumps o = Returns t -> ascii_only (chars t).
Proof.
  unfold json_dumps. destruct (json_encode o) as [cs|] eqn:E; [|discriminate].
  cbn [bind]. intros [= <-]. unfold chars.
  rewrite list_ascii_of_string_of_list_ascii.
  exact (json_encode_ascii_only o cs E).
Qed.

(** X26.  The two JSON columns of a stored summary hold seven-bit text
    only, whatever the names and the metadata. *)
Theorem summary_json_is_seven_bit (w : world) (db db' : database)
  (channel_id channel_name : string) (date : datetime)
  (summary_text : string) (message_count : Z) (active_users : list ustr)
  (guild_id guild_name : option string)
  (metadata : option (list (ustr * pyobj))) :
  store_channel_summary w db channel_id channel_name date summary_text
    message_count active_users guild_id guild_name metadata
  = (Returns true, db') ->
  exists row,
    channel_summaries db' = channel_summaries db ++ [row]
    /\ ascii_only (chars (Summary.active_users_list row))
    /\ match Summary.metadata row with
       | Some t => ascii_only (chars t)
       | None => truthy metadata = false
       end.
Proof.
  unfold store_channel_summary.
  destruct (json_dumps_names active_users) as [names|] eqn:En;
    [|discriminate].
  cbn [bind].
  destruct (truthy metadata) eqn:Et.
  - destruct (json_dumps (as_pyobj metadata)) as [t|] eqn:Em;
      [|discriminate].
    cbn [bind]. unfold get_connection, execute, commit, attempt.
    destruct (fault w Connect); [discriminate|].
    destruct (fault w (Execute 0)); [discriminate|].
    destruct (fault w Commit); [discriminate|].
    cbn [bind try_write INSERT_CHANNEL_SUMMARY]. intros [= <-].
    eexists. split; [reflexivity|].
    cbn [Summary.active_users_list Summary.metadata].
    split; [exact (json_dumps_ascii_only _ _ En)
           |exact (json_dumps_ascii_only _ _ Em)].
  - cbn [bind]. unfold get_connection, execute, commit, attempt.
    destruct (fault w Connect); [discriminate|].
    destruct (fault w (Execute 0)); [discriminate|].
    destruct (fault w Commit); [discriminate|].
    cbn [bind try_write INSERT_CHANNEL_SUMMARY]. intros [= <-].
    eexists. split; [reflexivity|].
    cbn [Summary.active_users_list Summary.metadata].
    split; [exact (json_dumps_ascii_only _ _ En)|reflexivity].
Qed.

Lemma aware_stamped_well (r : Msg.row) : aware_stamped r -> well_stamped r.
Proof. intros (d & off & Hv & _ & E). now exists d. Qed.

(** The texts of two values are compared field by field up to the
    seconds; the fraction and the offset decide between equal ones. *)
Lemma isoformat_compare_split (d1 d2 : datetime) :
  valid_datetime d1 = true -> valid_datetime d2 = true ->
  String.compare (isoformat d1) (isoformat d2)
  = match lex_compare
            [year d1; month d1; day d1; hour d1; minute d1; second d1]
            [year d2; month d2; day d2; hour d2; minute d2; second d2] with
    | Eq =>
        chars_compare
          ((if microsecond d1 =? 0 then []
            else ["."%char] ++ pad6 (microsecond d1))
           ++ _format_offset (tzinfo d1))
          ((if microsecond d2 =? 0 then []
            else ["."%char] ++ pad6 (microsecond d2))
           ++ _format_offset (tzinfo d2))
    | c => c
    end.
Proof.
  intros H1 H2.
  apply valid_datetime_spec in H1 as (Hy1 & Hm1 & Hd1 & Hh1 & Hn1 & Hs1 & Hu1 & _).
  apply valid_datetime_spec in H2 as (Hy2 & Hm2 & Hd2 & Hh2 & Hn2 & Hs2 & Hu2 & _).
  pose proof (days_in_month_le (year d1) (month d1)).
  pose proof (days_in_month_le (year d2) (month d2)).
  unfold isoformat. rewrite string_compare_chars.
  unfold isoformat_chars, _format_time.
  rewrite <- !app_assoc.
  cbn [lex_compare].
  rewrite chars_compare_app by reflexivity.
  rewrite pad4_compare by lia.
  destruct (year d1 ?= year d2); [|reflexivity..].
  cbn [app]. rewrite chars_compare_cons.
  rewrite chars_compare_app by reflexivity. rewrite pad2_compare by lia.
  destruct (month d1 ?= month d2); [|reflexivity..].
  cbn [app]. rewrite chars_compare_cons.
  rewrite chars_compare_app by reflexivity. rewrite pad2_compare by lia.
  destruct (day d1 ?= day d2); [|reflexivity..].
  cbn [app]. rewrite chars_compare_cons.
  rewrite chars_compare_app by reflexivity. rewrite pad2_compare by lia.
  destruct (hour d1 ?= hour d2); [|reflexivity..].
  cbn [app]. rewrite chars_compare_cons.
  rewrite chars_compare_app by reflexivity. rewrite pad2_compare by lia.
  destruct (minute d1 ?= minute d2); [|reflexivity..].
  cbn [app]. rewrite chars_compare_cons.
  rewrite chars_compare_app by reflexivity. rewrite pad2_compare by lia.
  destruct (second d1 ?= second d2); reflexivity.
Qed.

Lemma offset_head (off : Z) :
  exists sign rest,
    _format_offset (Some off) = sign :: rest
    /\ Ascii.compare sign "."%char = Lt.
Proof.
  unfold _format_offset. cbv zeta.
  destruct (off <? 0); eexists; eexists; (split; [reflexivity|reflexivity]).
Qed.

(** An aware text against a naive one: equal wall clocks put the aware
    text last. *)
Lemma fraction_offset_compare (a b off : Z) :
  0 <= a <= 999999 -> 0 <= b <= 999999 ->
  chars_compare
    ((if a =? 0 then [] else ["."%char] ++ pad6 a) ++ _format_offset (Some off))
    ((if b =? 0 then [] else ["."%char] ++ pad6 b) ++ [])
  = match a ?= b with
    | Eq => Gt
    | c => c
    end.
Proof.
  intros Ha Hb.
  destruct (offset_head off) as (sign & rest & -> & Hsign).
  destruct (Z.eqb_spec a 0) as [->|Ha0]; destruct (Z.eqb_spec b 0) as [->|Hb0].
  - reflexivity.
  - cbn [app chars_compare]. rewrite Hsign.
    replace (0 ?= b) with Lt; [reflexivity|].
    symmetry. apply Z.compare_lt_iff. lia.
  - cbn [app chars_compare].
    replace (a ?= 0) with Gt; [reflexivity|].
    symmetry. apply Z.compare_gt_iff. lia.
  - cbn [app]. rewrite chars_compare_cons.
    rewrite chars_compare_app by reflexivity.
    rewrite pad6_compare by lia.
    now destruct (a ?= b).
Qed.

Lemma lex_compare_snoc (a b : list Z) (x y : Z) :
  List.length a = List.length b ->
  lex_compare (a ++ [x]) (b ++ [y])
  = match lex_compare a b with
    | Eq => x ?= y
    | c => c
    end.
Proof.
  revert b. induction a as [|u a IH]; intros [|v b] H; cbn in *;
    try discriminate.
  - now destruct (x ?= y).
  - destruct (u ?= v); [apply IH; congruence|reflexivity..].
Qed.

Lemma chars_compare_antisym (a b : list ascii) :
  chars_compare b a = CompOpp (chars_compare a b).
Proof.
  rewrite <- !string_compare_chars. apply String.compare_antisym.
Qed.

Lemma isoformat_compare_aware_naive (d1 d2 : datetime) (off : Z) :
  valid_datetime d1 = true -> valid_datetime d2 = true ->
  tzinfo d1 = Some off -> tzinfo d2 = None ->
  String.compare (isoformat d1) (isoformat d2)
  = match chronological_compare d1 d2 with
    | Eq => Gt
    | c => c
    end.
Proof.
  intros H1 H2 T1 T2. rewrite (isoformat_compare_split d1 d2 H1 H2).
  rewrite T1, T2. change (_format_offset None) with (@nil ascii).
  apply valid_datetime_spec in H1 as (_ & _ & _ & _ & _ & _ & Hu1 & _).
  apply valid_datetime_spec in H2 as (_ & _ & _ & _ & _ & _ & Hu2 & _).
  unfold chronological_compare, fields.
  change [year d1; month d1; day d1; hour d1; minute d1; second d1;
          microsecond d1]
    with ([year d1; month d1; day d1; hour d1; minute d1; second d1]
          ++ [microsecond d1]).
  change [year d2; month d2; day d2; hour d2; minute d2; second d2;
          microsecond d2]
    with ([year d2; month d2; day d2; hour d2; minute d2; second d2]
          ++ [microsecond d2]).
  rewrite lex_compare_snoc by reflexivity.
  destruct (lex_compare _ _); [|reflexivity..].
  apply fraction_offset_compare; lia.
Qed.

Lemma text_le_naive_aware (s d : datetime) (off : Z) :
  valid_datetime s = true -> valid_datetime d = true ->
  tzinfo s = None -> tzinfo d = Some off ->
  text_le (isoformat s) (isoformat d) = (instant s <=? instant d).
Proof.
  intros Hs Hd Ts Td. apply eq_true_iff_eq.
  rewrite text_le_spec, Z.leb_le.
  rewrite String.compare_antisym,
    (isoformat_compare_aware_naive d s off Hd Hs Td Ts),
    (chronological_compare_instant d s Hd Hs).
  destruct (Z.compare_spec (instant d) (instant s)); cbn; split;
    try lia; try congruence; try discriminate.
Qed.

Lemma text_le_aware_naive (d e : datetime) (off : Z) :
  valid_datetime d = true -> valid_datetime e = true ->
  tzinfo d = Some off -> tzinfo e = None ->
  text_le (isoformat d) (isoformat e) = (instant d <? instant e).
Proof.
  intros Hd He Td Te. apply eq_true_iff_eq.
  rewrite text_le_spec, Z.ltb_lt.
  rewrite (isoformat_compare_aware_naive d e off Hd He Td Te),
    (chronological_compare_instant d e Hd He).
  destruct (Z.compare_spec (instant d) (instant e)); split;
    try lia; try congruence; try discriminate.
Qed.

Lemma in_timeframe_open_window (c : string) (s e : datetime) (r : Msg.row) :
  valid_datetime s = true -> valid_datetime e = true ->
  tzinfo s = None -> tzinfo e = None ->
  aware_stamped r ->
  in_timeframe c (isoformat s) (isoformat e) r
  = in_open_window c (instant s) (instant e) r.
Proof.
  intros Hs He Ts Te (d & off & Hv & Td & E).
  unfold in_timeframe, in_open_window, between, stamp_instant.
  rewrite E, (fromisoformat_isoformat d Hv).
  now rewrite (text_le_naive_aware s d off Hs Hv Ts Td),
    (text_le_aware_naive d e off Hv He Td Te).
Qed.

(** X27.  Over aware stamps, which the naive bounds meet as texts, the
    timeframe query shows the rows of the channel whose wall clock reads
    from [start + 5 h] up to [end + 5 h], the latter not included. *)
Theorem timeframe_over_aware_stamps (w : world) (db : database)
  (channel_id : string) (start_date end_date : datetime) :
  (forall st, fault w st = None) ->
  Forall aware_stamped (messages db) ->
  valid_datetime start_date = true -> valid_datetime end_date = true ->
  tzinfo start_date = None -> tzinfo end_date = None ->
  instant start_date + FIVE_HOURS < END_OF_CALENDAR ->
  instant end_date + FIVE_HOURS < END_OF_CALENDAR ->
  exists out,
    get_channel_messages_for_timeframe w db channel_id start_date end_date
    = Returns out
    /\ Forall2 shown_as
         (order_by by_created_at
            (filter
               (in_open_window channel_id (instant start_date + FIVE_HOURS)
                  (instant end_date + FIVE_HOURS))
               (messages db)))
         out.
Proof.
  intros Hw Hdb Vs Ve Ts Te Rs Re.
  destruct (plus_five_hours start_date Vs Rs) as (s & Hs & Vs' & Is & Ts').
  destruct (plus_five_hours end_date Ve Re) as (e & He & Ve' & Ie & Te').
  rewrite Ts in Ts'. rewrite Te in Te'.
  destruct (timeframe_rows w db channel_id start_date end_date s e Hw
              ltac:(eapply Forall_impl; [apply aware_stamped_well|exact Hdb])
              Hs He) as (out & Ho & Hout).
  exists out. split; [exact Ho|].
  rewrite <- Is, <- Ie.
  rewrite <- (filter_agree aware_stamped
                (in_timeframe channel_id (isoformat s) (isoformat e))
                (in_open_window channel_id (instant s) (instant e))
                (messages db) Hdb); [exact Hout|].
  intros r Hr. now apply in_timeframe_open_window.
Qed.

Lemma create_if_not_exists_spec (name : string) (objs : list string) :
  In name (create_if_not_exists name objs)
  /\ (In name objs -> create_if_not_exists name objs = objs)
  /\ exists added, create_if_not_exists name objs = objs ++ added
                   /\ incl added [name].
Proof.
  unfold create_if_not_exists.
  destruct (existsb (String.eqb name) objs) eqn:E.
  - apply existsb_exists in E as (x & Hx & Ex). apply String.eqb_eq in Ex.
    subst x. split; [exact Hx|]. split; [reflexivity|].
    exists []. split; [now rewrite app_nil_r|intros x []].
  - split; [apply in_or_app; right; now left|]. split.
    + intros Hin.
      assert (Ht : existsb (String.eqb name) objs = true).
      { apply existsb_exists. exists name. split; [exact Hin|].
        apply String.eqb_refl. }
      congruence.
    + exists [name]. split; [reflexivity|apply incl_refl].
Qed.

Lemma create_all_grows (w : world) (names : list string) :
  forall (n : nat) (objs : list string),
  exists added,
    snd (create_all w n names objs) = objs ++ added /\ incl added names.
Proof.
  induction names as [|name rest IH]; intros n objs; cbn [create_all].
  - exists []. split; [now rewrite app_nil_r|apply incl_refl].
  - destruct (fault w (Execute n)).
    + exists []. split; [now rewrite app_nil_r|intros x []].
    + destruct (create_if_not_exists_spec name objs)
        as (_ & _ & a1 & E1 & H1).
      destruct (IH (S n) (create_if_not_exists name objs)) as (a2 & E2 & H2).
      exists (a1 ++ a2). rewrite E2, E1, app_assoc. split; [reflexivity|].
      apply incl_app.
      * intros x Hx. apply H1 in Hx. destruct Hx as [<-|[]]. now left.
      * intros x Hx. right. now apply H2.
Qed.

Lemma create_all_ok (w : world) (names : list string) :
  forall (n : nat) (objs : list string),
  (forall k, (n <= k < n + List.length names)%nat ->
             fault w (Execute k) = None) ->
  fst (create_all w n names objs) = Returns tt
  /\ (forall name, In name names ->
                   In name (snd (create_all w n names objs)))
  /\ ((forall name, In name names -> In name objs) ->
      snd (create_all w n names objs) = objs).
Proof.
  induction names as [|name rest IH]; intros n objs Hw; cbn [create_all].
  - split; [reflexivity|]. split; [intros name []|reflexivity].
  - rewrite (Hw n) by (cbn [List.length]; lia).
    destruct (IH (S n) (create_if_not_exists name objs)) as (Hr & Hin & Hsame).
    { intros k Hk. apply Hw. cbn [List.length]. lia. }
    split; [exact Hr|]. split.
    + intros x [<-|Hx]; [|now apply Hin].
      destruct (create_all_grows w rest (S n)
                  (create_if_not_exists name objs)) as (added & -> & _).
      apply in_or_app. left. apply create_if_not_exists_spec.
    + intros Hall.
      destruct (create_if_not_exists_spec name objs) as (_ & E & _).
      rewrite E in * by (apply Hall; now left).
      apply Hsame. intros x Hx. apply Hall. now right.
Qed.

Lemma create_all_raises (w : world) (names : list string) :
  forall (n : nat) (objs : list string),
  fst (create_all w n names objs) = Returns tt ->
  forall k, (n <= k < n + List.length names)%nat ->
            fault w (Execute k) = None.
Proof.
  induction names as [|name rest IH]; intros n objs; cbn [create_all].
  - cbn [List.length]. intros _ k Hk. lia.
  - destruct (fault w (Execute n)) eqn:E; [discriminate|].
    intros Hr k Hk. cbn [List.length] in Hk.
    destruct (Nat.eq_dec k n) as [->|Hne]; [exact E|].
    apply (IH (S n) _ Hr). lia.
Qed.

(** X28.  On a working engine [init_database] returns, leaves the
    directory, the two tables and the seven indexes in place and the rows
    as they were; run again on its own result, it changes nothing. *)
Theorem init_database_prepares_once (w : world) (makedirs : option exn)
  (d : disk) :
  (forall st, fault w st = None) ->
  (directory d = false -> makedirs = None) ->
  let d' := snd (init_database w makedirs d) in
  fst (init_database w makedirs d) = Returns tt
  /\ initialised d'
  /\ tables d' = tables d
  /\ incl (objects d) (objects d')
  /\ init_database w makedirs d' = (Returns tt, d').
Proof.
  intros Hw Hmk.
  assert (Hex : forall n objs,
             fst (create_all w n SCHEMA objs) = Returns tt
             /\ (forall name, In name SCHEMA ->
                              In name (snd (create_all w n SCHEMA objs)))
             /\ ((forall name, In name SCHEMA -> In name objs) ->
                 snd (create_all w n SCHEMA objs) = objs)).
  { intros n objs. apply create_all_ok. intros k _. apply Hw. }
  assert (E : init_database w makedirs d
              = (Returns tt,
                 mk_disk true (snd (create_all w 0 SCHEMA (objects d)))
                   (tables d))).
  { unfold init_database.
    replace (if directory d then None else makedirs) with (@None exn)
      by (destruct (directory d); [reflexivity|now rewrite Hmk]).
    rewrite (Hw Connect). cbn [objects tables].
    destruct (Hex 0%nat (objects d)) as (Hr & _).
    destruct (create_all w 0 SCHEMA (objects d)) as [r objs].
    cbn [fst snd] in *. rewrite Hr, (Hw Commit). reflexivity. }
  cbv zeta. rewrite E. cbn [fst snd tables objects].
  destruct (Hex 0%nat (objects d)) as (_ & Hin & _).
  split; [reflexivity|]. split; [split; [reflexivity|exact Hin]|].
  split; [reflexivity|]. split.
  - destruct (create_all_grows w SCHEMA 0 (objects d)) as (added & -> & _).
    apply incl_appl, incl_refl.
  - unfold init_database. cbn [directory objects tables].
    rewrite (Hw Connect).
    destruct (Hex 0%nat (snd (create_all w 0 SCHEMA (objects d))))
      as (Hr & _ & Hsame).
    specialize (Hsame Hin).
    destruct (create_all w 0 SCHEMA (snd (create_all w 0 SCHEMA (objects d))))
      as [r objs].
    cbn [fst snd] in *. rewrite Hr, (Hw Commit), Hsame. reflexivity.
Qed.

(** X29.  [init_database] hides no failure: when it returns, neither
    [os.makedirs], where it was needed, nor the connection, nor one of the
    nine statements, nor the commit has failed. *)
Theorem init_database_hides_no_failure (w : world) (makedirs : option exn)
  (d : disk) :
  fst (init_database w makedirs d) = Returns tt ->
  (directory d = false -> makedirs = None)
  /\ fault w Connect = None
  /\ (forall n, (n < 9)%nat -> fault w (Execute n) = None)
  /\ fault w Commit = None.
Proof.
  unfold init_database.
  destruct (directory d) eqn:Ed.
  - destruct (fault w Connect); [discriminate|]. cbn [objects tables].
    destruct (create_all w 0 SCHEMA (objects d)) as [r objs] eqn:Ec.
    destruct r as [[]|e]; [|discriminate].
    destruct (fault w Commit); [discriminate|]. intros _.
    split; [discriminate|]. split; [reflexivity|]. split; [|reflexivity].
    intros n Hn.
    apply (create_all_raises w SCHEMA 0 (objects d));
      [now rewrite Ec|cbn; lia].
  - destruct makedirs; [discriminate|].
    destruct (fault w Connect); [discriminate|]. cbn [objects tables].
    destruct (create_all w 0 SCHEMA (objects d)) as [r objs] eqn:Ec.
    destruct r as [[]|e]; [|discriminate].
    destruct (fault w Commit); [discriminate|]. intros _.
    split; [reflexivity|]. split; [reflexivity|]. split; [|reflexivity].
    intros n Hn.
    apply (create_all_raises w SCHEMA 0 (objects d));
      [now rewrite Ec|cbn; lia].
Qed.

(** X30.  Whatever fails, [init_database] leaves every row, table and
    index that it found; what it adds is of its own schema. *)
Theorem init_database_keeps_what_it_finds (w : world)
  (makedirs : option exn) (d : disk) :
  let d' := snd (init_database w makedirs d) in
  tables d' = tables d
  /\ (directory d = true -> directory d' = true)
  /\ exists added, objects d' = objects d ++ added /\ incl added SCHEMA.
Proof.
  cbv zeta. unfold init_database.
  assert (Hnil : exists added,
             objects d = objects d ++ added /\ incl added SCHEMA)
    by (exists []; split; [now rewrite app_nil_r|intros x []]).
  destruct (if directory d then None else makedirs);
    [cbn [snd]; now repeat split|].
  destruct (fault w Connect); [cbn; now repeat split|].
  cbn [objects tables].
  pose proof (create_all_grows w SCHEMA 0 (objects d)) as Hg.
  destruct (create_all w 0 SCHEMA (objects d)) as [r objs].
  cbn [snd] in Hg.
  destruct r as [[]|e]; [destruct (fault w Commit)|];
    cbn; now repeat split.
Qed.

Lemma sample_world_works : forall st, fault sample_world st = None.
Proof. intros st. reflexivity. Defined.

Lemma store_message_raises_count_by_one_witness :
  exists n b,
    get_message_count sample_world sample_db = Returns n
    /\ fst (store_message sample_world sample_db "m5" "u2" "bot" "c2"
              "random" "pong" (mk_datetime 2024 3 10 17 30 0 0 None) None
              None true false None)
       = Returns b
    /\ get_message_count sample_world
         (snd (store_message sample_world sample_db "m5" "u2" "bot" "c2"
                 "random" "pong" (mk_datetime 2024 3 10 17 30 0 0 None)
                 None None true false None))
       = Returns (if b then n + 1 else n).
Proof.
  apply (store_message_raises_count_by_one sample_world sample_world
           sample_db "m5" "u2" "bot" "c2" "random" "pong"
           (mk_datetime 2024 3 10 17 30 0 0 None) None None true false None).
  exact sample_world_works.
Defined.

Lemma store_message_counts_for_its_author_witness :
  exists n b,
    get_user_message_count sample_world sample_db "u2" = Returns n
    /\ fst (store_message sample_world sample_db "m5" "u2" "bot" "c2"
              "random" "pong" (mk_datetime 2024 3 10 17 30 0 0 None) None
              None true false None)
       = Returns b
    /\ get_user_message_count sample_world
         (snd (store_message sample_world sample_db "m5" "u2" "bot" "c2"
                 "random" "pong" (mk_datetime 2024 3 10 17 30 0 0 None)
                 None None true false None)) "u2"
       = Returns (if b && String.eqb "u2" "u2" then n + 1 else n).
Proof.
  apply (store_message_counts_for_its_author sample_world sample_world
           sample_db "m5" "u2" "bot" "c2" "random" "pong"
           (mk_datetime 2024 3 10 17 30 0 0 None) None None true false None
           "u2").
  exact sample_world_works.
Defined.

Lemma user_counts_sum_to_total_witness :
  exists n counts,
    get_message_count sample_world sample_db = Returns n
    /\ traverse (get_user_message_count sample_world sample_db)
         ["u1"; "u2"; "u3"] = Returns counts
    /\ total counts = n
    /\ Forall (fun k => 0 <= k <= n) counts.
Proof.
  apply (user_counts_sum_to_total sample_world sample_db ["u1"; "u2"; "u3"]).
  - exact sample_world_works.
  - repeat constructor; cbn; intuition discriminate.
  - intros r Hr. cbn in Hr.
    repeat (destruct Hr as [<-|Hr]; [cbn; tauto|]). destruct Hr.
Defined.

Lemma active_channel_counts_sum_to_window_witness :
  exists out,
    get_active_channels sample_world sample_db 24 = Returns out
    /\ total (map ActiveChannel.message_count out) = 3
    /\ Forall (fun a => 1 <= ActiveChannel.message_count a) out.
Proof.
  apply (active_channel_counts_sum_to_window sample_world sample_db 24
           (mk_datetime 2024 3 9 18 0 0 0 None)).
  - exact sample_world_works.
  - reflexivity.
Defined.

Lemma week_raises_only_in_last_week_witness :
  returned (get_channel_messages_for_week sample_world sample_db "c1"
              sample_day) = true
  /\ get_channel_messages_for_week sample_world sample_db "c1"
       (mk_datetime 9999 12 25 0 0 0 1 None)
     = Raises OverflowError.
Proof.
  split.
  - exact (week_raises_only_in_last_week sample_world sample_db "c1"
             sample_day eq_refl).
  - exact (week_raises_only_in_last_week sample_world sample_db "c1"
             (mk_datetime 9999 12 25 0 0 0 1 None) eq_refl).
Defined.

Lemma active_channels_window_outside_calendar_witness :
  get_active_channels sample_world sample_db 20000000 = Returns [].
Proof.
  apply active_channels_window_outside_calendar. left. reflexivity.
Defined.

Lemma timeframe_outside_calendar_witness :
  get_channel_messages_for_timeframe sample_world sample_db "c1"
    (mk_datetime 2024 3 10 0 0 0 0 None)
    (mk_datetime 9999 12 31 19 0 0 0 None)
  = Returns [].
Proof.
  apply timeframe_outside_calendar. right. discriminate.
Defined.

Lemma stored_message_is_shown_witness :
  exists out,
    get_channel_messages_for_timeframe sample_world
      (snd (store_message sample_world sample_db "m5" "u2" "bot" "c2"
              "random" "pong" (mk_datetime 2024 3 10 17 30 0 0 None) None
              None true false None))
      "c2" (mk_datetime 2024 3 10 12 0 0 0 None)
      (mk_datetime 2024 3 10 13 0 0 0 None)
    = Returns out
    /\ In (TimeframeMsg.mk "bot" "pong"
             (mk_datetime 2024 3 10 17 30 0 0 None) true false) out.
Proof.
  apply (stored_message_is_shown sample_world sample_world sample_db "m5"
           "u2" "bot" "c2" "random" "pong"
           (mk_datetime 2024 3 10 17 30 0 0 None) None None true false None
           (mk_datetime 2024 3 10 12 0 0 0 None)
           (mk_datetime 2024 3 10 13 0 0 0 None)
           (mk_datetime 2024 3 10 17 0 0 0 None)
           (mk_datetime 2024 3 10 18 0 0 0 None));
    try reflexivity; try exact sample_world_works.
  exact sample_stamped.
Defined.

Lemma pruning_twice_is_pruning_once_witness :
  snd (delete_messages_older_than sample_world
         (snd (delete_messages_older_than sample_world sample_db
                 (mk_datetime 2024 3 9 0 0 0 0 None)))
         (mk_datetime 2024 3 10 12 0 0 0 None))
  = snd (delete_messages_older_than sample_world sample_db
           (mk_datetime 2024 3 10 12 0 0 0 None)).
Proof.
  apply (pruning_twice_is_pruning_once sample_world sample_world
           sample_world sample_db (mk_datetime 2024 3 9 0 0 0 0 None)
           (mk_datetime 2024 3 10 12 0 0 0 None));
    try exact sample_world_works.
  reflexivity.
Defined.

Lemma pruning_lowers_count_by_reported_witness :
  exists n k,
    fst (delete_messages_older_than sample_world sample_db
           (mk_datetime 2024 3 10 12 0 0 0 None)) = Returns k
    /\ get_message_count sample_world sample_db = Returns n
    /\ get_message_count sample_world
         (snd (delete_messages_older_than sample_world sample_db
                 (mk_datetime 2024 3 10 12 0 0 0 None)))
       = Returns (n - k)
    /\ 0 <= k <= n.
Proof.
  apply pruning_lowers_count_by_reported. exact sample_world_works.
Defined.

Lemma pruned_messages_are_not_shown_witness :
  exists out,
    get_channel_messages_for_timeframe sample_world
      (snd (delete_messages_older_than sample_world sample_db
              (mk_datetime 2024 3 10 12 0 0 0 None)))
      "c1" (mk_datetime 2024 3 10 0 0 0 0 None)
      (mk_datetime 2024 3 10 23 0 0 0 None)
    = Returns out
    /\ Forall (fun m => text_lt (isoformat (TimeframeMsg.created_at m))
                          (isoformat (mk_datetime 2024 3 10 12 0 0 0 None))
                        = false) out.
Proof.
  apply pruned_messages_are_not_shown.
  - exact sample_world_works.
  - exact sample_stamped.
Defined.

Lemma timeframe_reversed_bounds_witness :
  get_channel_messages_for_timeframe sample_world sample_db "c1"
    (mk_datetime 2024 3 10 12 0 0 0 None)
    (mk_datetime 2024 3 10 5 0 0 0 None)
  = Returns [].
Proof.
  apply (timeframe_reversed_bounds sample_world sample_db "c1" _ _
           (mk_datetime 2024 3 10 17 0 0 0 None)
           (mk_datetime 2024 3 10 10 0 0 0 None)); reflexivity.
Defined.

Lemma unserialisable_metadata_is_refused_witness :
  store_channel_summary sample_world sample_db "c1" "general" sample_day
    "summary" 3 [ustr_of "ann"] None None
    (Some [(ustr_of "model", PyStr (ustr_of "v1"));
           (ustr_of "handle", PyObject)])
  = (Returns false, sample_db).
Proof.
  apply (unserialisable_metadata_is_refused sample_world sample_db "c1"
           "general" sample_day "summary" 3 [ustr_of "ann"] None None _
           (ustr_of "handle")).
  right. now left.
Defined.

Lemma sample_reachable :
  reachable
    (snd (store_channel_summary sample_world
            (snd (store_message sample_world empty_database "m1" "u1"
                    "alice" "c1" "general" "hello"
                    (mk_datetime 2024 3 10 10 0 0 0 None) None None false
                    false None))
            "c1" "general" sample_day "summary" 1 [ustr_of "alice"] None
            None None)).
Proof.
  apply reach_store_channel_summary, reach_store_message;
    [reflexivity|apply reach_empty].
Defined.

Lemma summaries_are_numbered_in_order_witness :
  map Summary.id
    (channel_summaries
       (snd (store_channel_summary sample_world
               (snd (store_message sample_world empty_database "m1" "u1"
                       "alice" "c1" "general" "hello"
                       (mk_datetime 2024 3 10 10 0 0 0 None) None None
                       false false None))
               "c1" "general" sample_day "summary" 1 [ustr_of "alice"]
               None None None)))
  = [1].
Proof.
  exact (proj1 (summaries_are_numbered_in_order _ sample_reachable)).
Defined.

Lemma reachable_invariant_witness :
  NoDup
    (map Msg.id
       (messages
          (snd (store_channel_summary sample_world
                  (snd (store_message sample_world empty_database "m1"
                          "u1" "alice" "c1" "general" "hello"
                          (mk_datetime 2024 3 10 10 0 0 0 None) None None
                          false false None))
                  "c1" "general" sample_day "summary" 1
                  [ustr_of "alice"] None None None)))).
Proof.
  exact (proj2 (reachable_invariant _ sample_reachable)).
Defined.


Lemma reported_failure_changes_nothing_witness :
  snd (store_message failing_world sample_db "m5" "u2" "bot" "c2" "random"
         "pong" (mk_datetime 2024 3 10 17 30 0 0 None) None None true false
         None)
  = sample_db.
Proof.
  apply (proj1 (reported_failure_changes_nothing failing_world sample_db)).
  reflexivity.
Defined.


Lemma sample_naive : Forall naive_stamped (messages sample_db).
Proof.
  repeat constructor.
  - exists (mk_datetime 2024 3 10 10 0 0 0 None). now repeat split.
  - exists (mk_datetime 2024 3 10 16 30 0 250000 None). now repeat split.
  - exists (mk_datetime 2024 3 10 17 0 0 0 None). now repeat split.
  - exists (mk_datetime 2024 3 8 9 0 0 0 None). now repeat split.
Defined.

Lemma aware_db_stamped : Forall aware_stamped (messages aware_db).
Proof.
  repeat constructor.
  - exists (mk_datetime 2024 3 10 10 0 0 0 (Some 0)), 0. now repeat split.
  - exists (mk_datetime 2024 3 10 17 0 0 0 (Some 0)), 0. now repeat split.
Defined.

Lemma timeframe_is_chronological_witness :
  exists out,
    get_channel_messages_for_timeframe sample_world sample_db "c1"
      (mk_datetime 2024 3 10 0 0 0 0 None)
      (mk_datetime 2024 3 10 23 0 0 0 None)
    = Returns out
    /\ StronglySorted
         (fun a b => not_after (TimeframeMsg.created_at a)
                       (TimeframeMsg.created_at b)) out.
Proof.
  apply (timeframe_is_chronological sample_world sample_db "c1").
  exact sample_naive.
Defined.

Lemma timeframe_shows_window_witness :
  exists out,
    get_channel_messages_for_timeframe sample_world sample_db "c1"
      (mk_datetime 2024 3 10 5 0 0 0 None)
      (mk_datetime 2024 3 10 12 0 0 0 None)
    = Returns out
    /\ Z.of_nat (List.length out) = 2.
Proof.
  destruct (timeframe_shows_window sample_world sample_db "c1"
              (mk_datetime 2024 3 10 5 0 0 0 None)
              (mk_datetime 2024 3 10 12 0 0 0 None))
    as (out & Ho & _ & Hn);
    try reflexivity; try exact sample_world_works; try exact sample_naive.
  exists out. split; [exact Ho|]. rewrite Hn. reflexivity.
Defined.

Lemma day_shows_window_witness :
  exists out,
    get_channel_messages_for_day sample_world sample_db "c1" sample_day
    = Returns out
    /\ List.length out = 2%nat.
Proof.
  destruct (day_shows_window sample_world sample_db "c1" sample_day)
    as (out & Ho & Hout);
    try reflexivity; try exact sample_world_works; try exact sample_naive.
  exists out. split; [exact Ho|].
  rewrite <- (Forall2_length Hout). reflexivity.
Defined.

Lemma week_shows_window_witness :
  exists out,
    get_channel_messages_for_week sample_world sample_db "c1"
      (mk_datetime 2024 3 4 0 0 0 0 None)
    = Returns out
    /\ List.length out = 3%nat.
Proof.
  destruct (week_shows_window sample_world sample_db "c1"
              (mk_datetime 2024 3 4 0 0 0 0 None))
    as (out & Ho & Hout);
    try reflexivity; try exact sample_world_works; try exact sample_naive.
  - discriminate.
  - exists out. split; [exact Ho|].
    rewrite <- (Forall2_length Hout). reflexivity.
Defined.

Lemma day_within_week_witness :
  exists of_day of_week,
    get_channel_messages_for_day sample_world sample_db "c1" sample_day
    = Returns of_day
    /\ get_channel_messages_for_week sample_world sample_db "c1"
         (mk_datetime 2024 3 4 0 0 0 0 None)
       = Returns of_week
    /\ incl of_day of_week.
Proof.
  apply (day_within_week sample_world sample_db "c1"
           (mk_datetime 2024 3 4 0 0 0 0 None) sample_day);
    try reflexivity; try exact sample_world_works; try exact sample_naive;
    discriminate.
Defined.

Lemma pruning_by_instant_witness :
  delete_messages_older_than sample_world sample_db
    (mk_datetime 2024 3 9 0 0 0 0 None)
  = (Returns 1,
     mk_database
       (filter (stamped_since
                  (instant (mk_datetime 2024 3 9 0 0 0 0 None)))
          sample_messages)
       [] 0).
Proof.
  apply (pruning_by_instant sample_world sample_db
           (mk_datetime 2024 3 9 0 0 0 0 None));
    try reflexivity; try exact sample_world_works; exact sample_naive.
Defined.

Lemma active_channels_by_instant_witness :
  exists out,
    get_active_channels sample_world sample_db 24 = Returns out
    /\ (forall a, In a out ->
          ActiveChannel.message_count a
          = count_rows
              (fun r => of_channel (ActiveChannel.channel_id a) r
                        && stamped_since
                             (instant (now sample_world)
                              - 24 * 3600 * US_PER_SECOND) r)
              (messages sample_db)).
Proof.
  destruct (active_channels_by_instant sample_world sample_db 24)
    as (out & Ho & _ & Hn);
    try reflexivity; try exact sample_world_works; try exact sample_naive.
  - split; [discriminate|reflexivity].
  - exists out. split; [exact Ho|exact Hn].
Defined.

Lemma range_group_is_timeframe_witness :
  exists d out,
    get_messages_for_time_range sample_world sample_db
      (mk_datetime 2024 3 10 10 0 0 0 None)
      (mk_datetime 2024 3 10 17 0 0 0 None)
    = Returns d
    /\ get_channel_messages_for_timeframe sample_world sample_db "c1"
         (mk_datetime 2024 3 10 5 0 0 0 None)
         (mk_datetime 2024 3 10 12 0 0 0 None)
       = Returns out
    /\ (forall g, In ("c1", g) d ->
                  out = map timeframe_view (ChannelData.messages g))
    /\ (dict_mem "c1" d = false -> out = []).
Proof.
  apply (range_group_is_timeframe sample_world sample_db "c1"
           (mk_datetime 2024 3 10 5 0 0 0 None)
           (mk_datetime 2024 3 10 12 0 0 0 None));
    try reflexivity; try exact sample_world_works; exact sample_stamped.
Defined.

Lemma range_groups_hold_every_row_witness :
  exists d,
    get_messages_for_time_range sample_world sample_db
      (mk_datetime 2024 3 10 0 0 0 0 None)
      (mk_datetime 2024 3 10 23 59 59 0 None)
    = Returns d
    /\ total_messages d = 3.
Proof.
  destruct (range_groups_hold_every_row sample_world sample_db
              (mk_datetime 2024 3 10 0 0 0 0 None)
              (mk_datetime 2024 3 10 23 59 59 0 None))
    as (d & Hd & Hn & _);
    try exact sample_world_works; try exact sample_stamped.
  exists d. split; [exact Hd|]. rewrite Hn. reflexivity.
Defined.

Lemma summary_json_is_seven_bit_witness :
  exists row,
    channel_summaries
      (snd (store_channel_summary sample_world empty_database "c1" "general"
              sample_day "summary" 2 [[233; 128512]%N] None None
              (Some [([107]%N, PyStr [228]%N)])))
    = [] ++ [row]
    /\ ascii_only (chars (Summary.active_users_list row))
    /\ match Summary.metadata row with
       | Some t => ascii_only (chars t)
       | None => truthy (Some [([107]%N, PyStr [228]%N)]) = false
       end.
Proof.
  apply (summary_json_is_seven_bit sample_world empty_database _ "c1"
           "general" sample_day "summary" 2 [[233; 128512]%N] None None
           (Some [([107]%N, PyStr [228]%N)])).
  reflexivity.
Defined.

Lemma timeframe_over_aware_stamps_witness :
  exists out,
    get_channel_messages_for_timeframe sample_world aware_db "c1"
      (mk_datetime 2024 3 10 5 0 0 0 None)
      (mk_datetime 2024 3 10 12 0 0 0 None)
    = Returns out
    /\ List.length out = 1%nat.
Proof.
  destruct (timeframe_over_aware_stamps sample_world aware_db "c1"
              (mk_datetime 2024 3 10 5 0 0 0 None)
              (mk_datetime 2024 3 10 12 0 0 0 None))
    as (out & Ho & Hout);
    try reflexivity; try exact sample_world_works;
    try exact aware_db_stamped.
  exists out. split; [exact Ho|].
  rewrite <- (Forall2_length Hout). reflexivity.
Defined.

Lemma init_database_prepares_once_witness :
  fst (init_database sample_world None fresh_disk) = Returns tt
  /\ objects (snd (init_database sample_world None fresh_disk)) = SCHEMA
  /\ init_database sample_world None
       (snd (init_database sample_world None fresh_disk))
     = (Returns tt, snd (init_database sample_world None fresh_disk)).
Proof.
  destruct (init_database_prepares_once sample_world None fresh_disk)
    as (Hr & _ & _ & _ & Hagain);
    try reflexivity; try exact sample_world_works.
  split; [exact Hr|]. split; [reflexivity|exact Hagain].
Defined.

Lemma init_database_hides_no_failure_witness :
  fault sample_world Connect = None /\ fault sample_world Commit = None.
Proof.
  destruct (init_database_hides_no_failure sample_world None fresh_disk)
    as (_ & Hc & _ & Hm); [reflexivity|].
  split; [exact Hc|exact Hm].
Defined.
